(** * Series-metadata inference of the DICOM info gatherer

    A shallow embedding of [gather_info] (src/process_dicom.py), the function
    that turns the files of one imaging series into one row of acquisition
    metadata, together with the properties of its four stages: mosaic
    detection and correction, dimension consensus, slice and volume counting,
    and the priority chains for the acceleration factors.  The functions
    around it are embedded as well: the cleaning of folder names, the search
    for the files of a folder, the test for files already in folders, the
    cache of files read, and the loop that writes one table per folder.

    Conventions of the embedding.
    - Text is [string]: the characters are 8-bit code points; case mapping
      acts on the ASCII letters.
    - A Python [int] is [Z].  A Python [float] read from a file is the
      rational [Q] it denotes (finite values, conversions exact).  The one
      place where the source does floating-point arithmetic of its own, the
      index of a consensus sample, is computed on binary64 floats.
    - The tag reader is pydicom.  Attributes whose Python type the source
      relies on without checking carry that type ([Rows] is an [int], the
      image type a sequence of [str]); attributes that the source inspects
      with [isinstance], compares with [None] or passes on untouched carry a
      value of [DcmVal].
    - A [try]/[except] block is a computation in [option]: [None] is a raised
      exception, and each [except] is the [match] that catches it.
    - The file system is a value of [Disk]: what reading a path gives, the
      size of a file, and the listing of a directory.  It does not change
      while a function runs, and a thread pool gives its results in the
      order of its inputs. *)

From Stdlib Require Import ZArith QArith Qabs Qround Uint63 PrimFloat FloatOps SpecFloat.
From Stdlib Require Import String Ascii List Bool Lia.
From Stdlib Require Import DecimalString Sorted.
From stdpp Require Import base option list gmap strings.

Set Warnings "-register-all".

Local Open Scope string_scope.
Local Open Scope Z_scope.

(** ** Python values *)

(** What pydicom hands out as the value of a data element: [None] for an
    empty element, a number, text, raw bytes, or a [MultiValue] (pydicom's
    own sequence class, which is neither a [list] nor a [tuple]). *)
Inductive DcmVal : Type :=
| DNone
| DInt (z : Z)
| DFloat (q : Q)
| DStr (s : string)
| DBytes (b : string)
| DMulti (l : list DcmVal).

(** The values [gather_info] computes with.  [VList] and [VTuple] are the
    built-in sequences its [isinstance(_, (list, tuple))] tests look for. *)
Inductive PyVal : Type :=
| VNone
| VInt (z : Z)
| VFloat (q : Q)
| VStr (s : string)
| VBytes (b : string)
| VMulti (l : list PyVal)
| VList (l : list PyVal)
| VTuple (l : list PyVal).

(** A value read from a file, as the Python object the code sees. *)
Fixpoint py (d : DcmVal) : PyVal :=
  match d with
  | DNone => VNone
  | DInt z => VInt z
  | DFloat q => VFloat q
  | DStr s => VStr s
  | DBytes b => VBytes b
  | DMulti l => VMulti (map py l)
  end.

(** The rational a number denotes. *)
Definition num_value (v : PyVal) : option Q :=
  match v with
  | VInt z => Some (inject_Z z)
  | VFloat q => Some q
  | _ => None
  end.

(** [isinstance(v, (list, tuple))] *)
Definition is_list_or_tuple (v : PyVal) : bool :=
  match v with VList _ | VTuple _ => true | _ => false end.

(** A scalar is anything that is not a sequence of values. *)
Definition is_scalar (v : PyVal) : bool :=
  match v with VMulti _ | VList _ | VTuple _ => false | _ => true end.

(** [bool(v)] *)
Definition truthy (v : PyVal) : bool :=
  match v with
  | VNone => false
  | VInt z => negb (z =? 0)
  | VFloat q => negb (Qeq_bool q 0)
  | VStr s | VBytes s => negb (String.eqb s "")
  | VMulti l | VList l | VTuple l => match l with [] => false | _ => true end
  end.

(** The items of a list or tuple. *)
Definition items (v : PyVal) : list PyVal :=
  match v with VList l | VTuple l => l | _ => [] end.

(** ** Text *)

Definition code (c : ascii) : Z := Z.of_N (N_of_ascii c).

(** [str.isspace] on one character; also the class [\s] of [re]. *)
Definition is_space (c : ascii) : bool :=
  let n := code c in
  ((9 <=? n) && (n <=? 13)) || ((28 <=? n) && (n <=? 32))
  || (n =? 133) || (n =? 160).

(** The class [\d] on 8-bit text, and the digits [int] accepts. *)
Definition is_digit (c : ascii) : bool :=
  let n := code c in (48 <=? n) && (n <=? 57).

Definition digit_value (c : ascii) : Z := code c - 48.

Definition upper_char (c : ascii) : ascii :=
  let n := code c in
  if (97 <=? n) && (n <=? 122) then ascii_of_N (Z.to_N (n - 32)) else c.

Definition lower_char (c : ascii) : ascii :=
  let n := code c in
  if (65 <=? n) && (n <=? 90) then ascii_of_N (Z.to_N (n + 32)) else c.

Fixpoint map_chars (f : ascii -> ascii) (s : string) : string :=
  match s with
  | EmptyString => EmptyString
  | String c r => String (f c) (map_chars f r)
  end.

(** [s.upper()] and [s.lower()] *)
Definition upper (s : string) : string := map_chars upper_char s.
Definition lower (s : string) : string := map_chars lower_char s.

(** [s.startswith(p)] *)
Fixpoint startswith (p s : string) : bool :=
  match p, s with
  | EmptyString, _ => true
  | String a p', String b s' => Ascii.eqb a b && startswith p' s'
  | String _ _, EmptyString => false
  end.

(** [needle in hay] *)
Fixpoint contains (needle hay : string) : bool :=
  startswith needle hay ||
  match hay with
  | EmptyString => false
  | String _ r => contains needle r
  end.

(** [s.replace(c, '')] for a one-character [c]. *)
Fixpoint remove_char (c : ascii) (s : string) : string :=
  match s with
  | EmptyString => EmptyString
  | String a r => if Ascii.eqb a c then remove_char c r else String a (remove_char c r)
  end.

(** [s.split(c)] for a one-character separator: one more part than there
    are separators. *)
Fixpoint split_on (c : ascii) (s : string) : list string :=
  match s with
  | EmptyString => [EmptyString]
  | String a r =>
      if Ascii.eqb a c then EmptyString :: split_on c r
      else match split_on c r with
           | [] => [String a EmptyString]
           | p :: ps => String a p :: ps
           end
  end.

(** [s[n:]] and [s[a:b]] for indices within [0 .. ]. *)
Fixpoint drop_chars (n : nat) (s : string) : string :=
  match n, s with
  | O, _ => s
  | S n', String _ r => drop_chars n' r
  | S _, EmptyString => EmptyString
  end.

Fixpoint take_chars (n : nat) (s : string) : string :=
  match n, s with
  | S n', String c r => String c (take_chars n' r)
  | _, _ => EmptyString
  end.

Definition slice (a b : nat) (s : string) : string :=
  take_chars (b - a) (drop_chars a s).

(** The longest prefix of characters in a class, and the rest. *)
Fixpoint span (p : ascii -> bool) (s : string) : string * string :=
  match s with
  | EmptyString => (EmptyString, EmptyString)
  | String c r =>
      if p c then let '(a, b) := span p r in (String c a, b)
      else (EmptyString, s)
  end.

Fixpoint rev_string (s acc : string) : string :=
  match s with
  | EmptyString => acc
  | String c r => rev_string r (String c acc)
  end.

(** [s.strip()] *)
Definition strip (s : string) : string :=
  let l := snd (span is_space s) in
  rev_string (snd (span is_space (rev_string l EmptyString))) EmptyString.

(** [s.split()]: the maximal runs of non-space characters. *)
Fixpoint split_ws_aux (s : string) (cur : option string) : list string :=
  match s with
  | EmptyString =>
      match cur with Some w => [rev_string w EmptyString] | None => [] end
  | String c r =>
      if is_space c then
        match cur with
        | Some w => rev_string w EmptyString :: split_ws_aux r None
        | None => split_ws_aux r None
        end
      else
        match cur with
        | Some w => split_ws_aux r (Some (String c w))
        | None => split_ws_aux r (Some (String c EmptyString))
        end
  end.

Definition split_ws (s : string) : list string := split_ws_aux s None.

(** The number a run of decimal digits denotes. *)
Fixpoint digits_value (s : string) (acc : Z) : Z :=
  match s with
  | EmptyString => acc
  | String c r => digits_value r (10 * acc + digit_value c)
  end.

(** The digit part of an integer literal: digits, single underscores only
    between two digits.  [after_digit] tells whether the previous character
    was a digit. *)
Fixpoint int_digits (s : string) (acc : Z) (after_digit : bool) : option Z :=
  match s with
  | EmptyString => if after_digit then Some acc else None
  | String c r =>
      if is_digit c then int_digits r (10 * acc + digit_value c) true
      else if Ascii.eqb c "_" && after_digit then int_digits r acc false
      else None
  end.

(** [int(s)] in base ten; [None] when it raises [ValueError]. *)
Definition py_int (s : string) : option Z :=
  match strip s with
  | String "+" r => int_digits r 0 false
  | String "-" r => Z.opp <$> int_digits r 0 false
  | t => int_digits t 0 false
  end.

(** ** The two patterns searched for in the embedded vendor header *)

Definition tab : ascii := ascii_of_N 9.

Fixpoint strip_prefix (p s : string) : option string :=
  match p, s with
  | EmptyString, _ => Some s
  | String a p', String b s' => if Ascii.eqb a b then strip_prefix p' s' else None
  | String _ _, EmptyString => None
  end.

Definition ends_with_tab (w : string) : bool :=
  match rev_string w EmptyString with
  | String c _ => Ascii.eqb c tab
  | EmptyString => false
  end.

(** A match of [field\s*=\s*[\t]+(\d+)] that starts at the head of [s]; the
    result is group 1.  Whatever [\s*] and [[\t]+] share out between them,
    together they cover the whole run of white space after the equals sign
    (a digit follows them), and the run has to end in a tab. *)
Definition match_assignment (field s : string) : option string :=
  match strip_prefix field s with
  | None => None
  | Some r1 =>
      match snd (span is_space r1) with
      | String "=" r2 =>
          let '(w, r3) := span is_space r2 in
          if ends_with_tab w then
            match fst (span is_digit r3) with
            | EmptyString => None
            | d => Some d
            end
          else None
      | _ => None
      end
  end.

(** [re.search]: the match with the leftmost start. *)
Fixpoint search_assignment (field s : string) : option string :=
  match match_assignment field s with
  | Some d => Some d
  | None =>
      match s with
      | EmptyString => None
      | String _ r => search_assignment field r
      end
  end.

(** ** Binary64 arithmetic of the consensus sampler *)

Definition float_of_Z (z : Z) : float := PrimFloat.of_uint63 (Uint63.of_Z z).

(** [int(f)]: truncation towards zero. *)
Definition int_of_float (f : float) : Z :=
  match Prim2SF f with
  | S754_finite s m e =>
      let v := match e with
               | Z0 => Zpos m
               | Zpos p => Zpos m * 2 ^ Zpos p
               | Zneg p => Zpos m / 2 ^ Zpos p
               end in
      if s then - v else v
  | _ => 0
  end.

(** [int(i * step)] with [step = n / sample_size], a true division. *)
Definition spaced_index (n sample_size i : Z) : Z :=
  let step := PrimFloat.div (float_of_Z n) (float_of_Z sample_size) in
  int_of_float (PrimFloat.mul (float_of_Z i) step).

(** ** Data sets *)

(** The value of an integer-string element such as the instance number: an
    [int], or a [MultiValue] when the element holds several. *)
Inductive ISVal : Type :=
| OneInt (z : Z)
| ManyInts (l : list Z).

Abbreviation tag := (N * N)%type.

(** One file as read by [pydicom.dcmread].  The named fields are the
    attributes the code relies on the type of; for the text attributes the
    field is the [str(...)] of the value.  [data_elements] holds the elements that
    are looked up by tag or keyword and used as they come. *)
Record Dataset : Type := {
  Rows : option Z;
  Columns : option Z;
  ImageType : list string;
  AcquisitionMatrix : option (list Z);
  ImagePositionPatient : option (list Q);
  PixelSpacing : option (list DcmVal);
  InstanceNumber : option ISVal;
  tag_0020_9128 : option (option Z);      (* temporal position index *)
  MRAcquisitionType : option string;
  StudyDescription : option string;
  SeriesDate : option string;
  SeriesTime : option string;
  tag_0018_1312 : option string;          (* in-plane phase encoding direction *)
  tag_0018_5100 : option string;          (* patient position *)
  tag_0051_100b : option string;          (* vendor matrix size, "<N>p*<M>" *)
  tag_0051_1011 : option string;          (* vendor acceleration text code *)
  data_elements : gmap (N * N) DcmVal
}.

Definition SeriesNumber : tag := (0x0020, 0x0011)%N.
Definition SeriesDescription : tag := (0x0008, 0x103E)%N.
Definition SliceThickness : tag := (0x0018, 0x0050)%N.
Definition SpacingBetweenSlices : tag := (0x0018, 0x0088)%N.
Definition InversionTime : tag := (0x0018, 0x0082)%N.
Definition EchoTime : tag := (0x0018, 0x0081)%N.
Definition RepetitionTime : tag := (0x0018, 0x0080)%N.
Definition FlipAngle : tag := (0x0018, 0x1314)%N.
Definition NumberOfAverages : tag := (0x0018, 0x0083)%N.
Definition PixelBandwidth : tag := (0x0018, 0x0095)%N.
Definition ReceivingCoilName : tag := (0x0018, 0x1250)%N.
Definition MagneticFieldStrength : tag := (0x0018, 0x0087)%N.
Definition DiffusionBValue : tag := (0x0018, 0x9087)%N.

(** [ds[g, e].value], [None] when [(g, e) in ds] is false. *)
Definition element (ds : Dataset) (t : tag) : option PyVal :=
  py <$> (data_elements ds !! t).

(** [getattr(ds, keyword, default)] *)
Definition getattr (ds : Dataset) (t : tag) (dflt : PyVal) : PyVal :=
  default dflt (element ds t).

(** The files of the run: what [pydicom.dcmread] returns for a path; a path
    outside the map is a file that cannot be read. *)
Abbreviation Files := (gmap string Dataset).

(** [DICOMCache.get_dicom]: the data set, or [None] when reading fails.  The
    cache only saves reads, so it leaves no trace in the model. *)
Definition get_dicom (fs : Files) (path : string) : option Dataset := fs !! path.

(** [len(l)] as a Python integer, [range(n)], and [l[idx]] for [0 <= idx]. *)
Definition len {A} (l : list A) : Z := Z.of_nat (length l).
Definition range (n : Z) : list Z := map Z.of_nat (seq 0 (Z.to_nat n)).
Definition at_index {A} (l : list A) (idx : Z) : option A := l !! Z.to_nat idx.

(** ** Stage A: mosaic detection and correction (lines 298-347) *)

(** [any('MOSAIC' in str(item).upper() for item in image_type_list)] *)
Definition detect_mosaic (ds : Dataset) : bool :=
  existsb (fun item => contains "MOSAIC" (upper item)) (ImageType ds).

(** The fallback on the vendor matrix-size text.  The two conversions run
    one after the other inside one [try]: when the second raises, the first
    assignment has already been made. *)
Definition matrix_size_fallback (ds : Dataset) (rows columns : option Z)
  : option Z * option Z :=
  match tag_0051_100b ds with
  | Some matrix_str =>
      if contains "p*" matrix_str then
        match split_on "*" (remove_char "p" matrix_str) with
        | [p0; p1] =>
            match py_int p0 with
            | None => (rows, columns)
            | Some r =>
                match py_int p1 with
                | None => (Some r, columns)
                | Some c => (Some r, Some c)
                end
            end
        | _ => (rows, columns)
        end
      else (rows, columns)
  | None => (rows, columns)
  end.

(** The corrected [(rows, columns)] of a mosaic series. *)
Definition mosaic_correct (ds : Dataset) (rows columns : option Z)
  : option Z * option Z :=
  match AcquisitionMatrix ds with
  | Some acq =>
      (* [if acq_matrix and len(acq_matrix) >= 4] *)
      if negb (len acq =? 0) && (4 <=? len acq) then
        let a i := nth i acq 0 in
        if 0 <? a 0%nat then
          (Some (a 0%nat), Some (if 0 <? a 3%nat then a 3%nat else a 0%nat))
        else if 0 <? a 1%nat then
          (Some (if 0 <? a 2%nat then a 2%nat else a 1%nat), Some (a 1%nat))
        else (rows, columns)
      else matrix_size_fallback ds rows columns
  | None => matrix_size_fallback ds rows columns
  end.

(** ** Stage B: dimension consensus (lines 352-422) *)

(** [max(10, min(100, len(dicom_files) // 5))] *)
Definition consensus_sample_size (n : Z) : Z := Z.max 10 (Z.min 100 (n / 5)).

Definition consensus_indices (n : Z) : list Z :=
  let sample_size := consensus_sample_size n in
  if n <=? sample_size then range n
  else map (spaced_index n sample_size) (range sample_size).

(** [dimension_counts]: a dictionary in insertion order. *)
Abbreviation DimCounts := (list ((Z * Z) * Z)).

Definition dim_eqb (a b : Z * Z) : bool := (fst a =? fst b) && (snd a =? snd b).

(** [dimension_counts[key] = dimension_counts.get(key, 0) + 1] *)
Fixpoint count_dim (key : Z * Z) (counts : DimCounts) : DimCounts :=
  match counts with
  | [] => [(key, 1)]
  | (k, c) :: rest =>
      if dim_eqb k key then (k, c + 1) :: rest
      else (k, c) :: count_dim key rest
  end.

Definition is_reasonable (r c : Z) : bool :=
  (32 <=? r) && (r <=? 8192) && (32 <=? c) && (c <=? 8192).

(** The body of the sampling loop for one index. *)
Definition tally_file (fs : Files) (dicom_files : list string)
    (counts : DimCounts) (idx : Z) : DimCounts :=
  if len dicom_files <=? idx then counts
  else
    match at_index dicom_files idx ≫= get_dicom fs with
    | Some ds_check =>
        match Rows ds_check, Columns ds_check with
        | Some r, Some c =>
            (* [if rows_check and cols_check] *)
            if negb (r =? 0) && negb (c =? 0) && is_reasonable r c
            then count_dim (r, c) counts
            else counts
        | _, _ => counts
        end
    | None => counts
    end.

Definition tally (fs : Files) (dicom_files : list string) (idxs : list Z)
  : DimCounts :=
  fold_left (tally_file fs dicom_files) idxs [].

(** [max(dimension_counts.items(), key=lambda x: x[1])[0]]: the first item
    among those with the largest count. *)
Definition most_common_dim (counts : DimCounts) : option (Z * Z) :=
  match counts with
  | [] => None
  | x :: rest =>
      Some (fst (fold_left (fun best y => if snd best <? snd y then y else best)
                           rest x))
  end.

Definition consensus (fs : Files) (dicom_files : list string)
    (rows columns : option Z) : option Z * option Z :=
  match most_common_dim
          (tally fs dicom_files (consensus_indices (len dicom_files))) with
  | Some (r, c) => (Some r, Some c)
  | None => (rows, columns)
  end.

(** The dimensions after stages A and B. *)
Definition resolve_dimensions (fs : Files) (dicom_files : list string)
    (ds : Dataset) : option Z * option Z :=
  if detect_mosaic ds then mosaic_correct ds (Rows ds) (Columns ds)
  else consensus fs dicom_files (Rows ds) (Columns ds).

(** ** Stage D: acceleration factors (lines 518-638) *)

Definition is_none (v : PyVal) : bool :=
  match v with VNone => true | _ => false end.

(** [float(val)] for a value already known to be a number. *)
Definition float_of_number (v : PyVal) : PyVal :=
  match v with
  | VInt z => VFloat (inject_Z z)
  | other => other
  end.

(** [isinstance(val, (int, float)) and val >= 1] *)
Definition number_ge_1 (v : PyVal) : bool :=
  match num_value v with
  | Some q => Qle_bool 1 q
  | None => false
  end.

(** [isinstance(val, (int, float)) and 1 <= val <= 16] *)
Definition number_in_1_16 (v : PyVal) : bool :=
  match num_value v with
  | Some q => Qle_bool 1 q && Qle_bool q 16
  | None => false
  end.

(** One of the two header fields: the search, [int(match.group(1))] and the
    test [val >= 1]. *)
Definition header_field (field csa_str : string) : PyVal :=
  match search_assignment field csa_str with
  | Some d =>
      let val := digits_value d 0 in
      if 1 <=? val then VFloat (inject_Z val) else VNone
  | None => VNone
  end.

(** Lines 526-551: the embedded header, read only when it is [bytes]
    (decoded as Latin-1, one character per byte). *)
Definition multiband_from_header (ds : Dataset) : PyVal :=
  match element ds (0x0029, 0x1020)%N with
  | Some (VBytes csa_str) =>
      let multiband_factor := header_field "sKSpace.ucMultiSliceMode" csa_str in
      if is_none multiband_factor then
        header_field "sSliceAcceleration.lMultiBandFactor" csa_str
      else multiband_factor
  | _ => VNone
  end.

(** Lines 554-557. *)
Definition multiband_from_standard (ds : Dataset) (multiband_factor : PyVal)
  : PyVal :=
  match element ds (0x0018, 0x9159)%N with
  | Some val =>
      if is_none multiband_factor && number_ge_1 val
      then float_of_number val else multiband_factor
  | None => multiband_factor
  end.

(** Lines 562-571: the text code, only when it starts with ['s']. *)
Definition multiband_from_text (ds : Dataset) (multiband_factor : PyVal)
  : PyVal :=
  match tag_0051_1011 ds with
  | Some pat_text =>
      if is_none multiband_factor && startswith "s" pat_text
         && (1 <? Z.of_nat (String.length pat_text)) then
        match py_int (drop_chars 1 pat_text) with
        | Some val => if 1 <=? val then VFloat (inject_Z val) else multiband_factor
        | None => multiband_factor
        end
      else multiband_factor
  | None => multiband_factor
  end.

(** Lines 574-585: the vendor numeric array. *)
Definition multiband_from_array (ds : Dataset) (multiband_factor : PyVal)
  : PyVal :=
  match element ds (0x0043, 0x10B6)%N with
  | Some mb_params =>
      if is_none multiband_factor && truthy mb_params then
        let val :=
          if is_list_or_tuple mb_params && (0 <? len (items mb_params))
          then nth 0 (items mb_params) VNone
          else mb_params in
        if number_ge_1 val then float_of_number val else multiband_factor
      else multiband_factor
  | None => multiband_factor
  end.

Definition multiband (ds : Dataset) : PyVal :=
  let multiband_factor := multiband_from_header ds in
  let multiband_factor := multiband_from_standard ds multiband_factor in
  let multiband_factor := multiband_from_text ds multiband_factor in
  multiband_from_array ds multiband_factor.

(** Lines 594-604: the text code, only when it starts with ['p']. *)
Definition inplane_from_text (ds : Dataset) : PyVal :=
  match tag_0051_1011 ds with
  | Some pat_text =>
      if startswith "p" pat_text && (1 <? Z.of_nat (String.length pat_text)) then
        match py_int (drop_chars 1 pat_text) with
        | Some val =>
            if (1 <=? val) && (val <=? 16) then VFloat (inject_Z val) else VNone
        | None => VNone
        end
      else VNone
  | None => VNone
  end.

(** [if inplane_accel_factor is None and t in ds: ...] with the range test. *)
Definition inplane_from_element (ds : Dataset) (t : tag)
    (inplane_accel_factor : PyVal) : PyVal :=
  match element ds t with
  | Some val =>
      if is_none inplane_accel_factor && number_in_1_16 val
      then float_of_number val else inplane_accel_factor
  | None => inplane_accel_factor
  end.

(** Lines 616-624: the two vendor private attributes, behind the mosaic
    guard; the second is the [elif] of the first. *)
Definition inplane_from_private (ds : Dataset) (is_mosaic : bool)
    (inplane_accel_factor : PyVal) : PyVal :=
  if is_none inplane_accel_factor && negb is_mosaic then
    match element ds (0x0019, 0x100A)%N with
    | Some val =>
        if number_in_1_16 val then float_of_number val else inplane_accel_factor
    | None =>
        match element ds (0x0019, 0x100B)%N with
        | Some val =>
            if number_in_1_16 val then float_of_number val
            else inplane_accel_factor
        | None => inplane_accel_factor
        end
    end
  else inplane_accel_factor.

Definition inplane (ds : Dataset) (is_mosaic : bool) : PyVal :=
  let inplane_accel_factor := inplane_from_text ds in
  let inplane_accel_factor :=
    inplane_from_element ds (0x0018, 0x9158)%N inplane_accel_factor in
  let inplane_accel_factor :=
    inplane_from_private ds is_mosaic inplane_accel_factor in
  let inplane_accel_factor :=
    inplane_from_element ds (0x0043, 0x1083)%N inplane_accel_factor in
  inplane_from_element ds (0x2001, 0x1008)%N inplane_accel_factor.

(** ** Fields read from the representative file alone (lines 503-516, 640-708) *)

(** [pixel_spacing[i] if pixel_spacing and len(pixel_spacing) >= 2 else None] *)
Definition voxel (ds : Dataset) (i : nat) : PyVal :=
  match PixelSpacing ds with
  | Some l => if 2 <=? len l then py (nth i l DNone) else VNone
  | None => VNone
  end.

Definition opt_str (o : option string) : PyVal :=
  match o with Some s => VStr s | None => VNone end.

Definition opt_int (o : option Z) : PyVal :=
  match o with Some z => VInt z | None => VNone end.

(** Rounding to the nearest integer, ties to the even one. *)
Definition round_half_even (q : Q) : Z :=
  let f := Qfloor q in
  match Qcompare (q - inject_Z f) (1 # 2) with
  | Lt => f
  | Gt => f + 1
  | Eq => if Z.even f then f else f + 1
  end.

Definition decimal (z : Z) : string :=
  NilZero.string_of_uint (N.to_uint (Z.to_N z)).

Fixpoint zeros (n : nat) : string :=
  match n with
  | O => EmptyString
  | S n' => String "0" (zeros n')
  end.

Definition pad_zeros (width : nat) (s : string) : string :=
  (zeros (width - String.length s) ++ s)%string.

(** [f"{x:.4f}"] *)
Definition format_4f (q : Q) : string :=
  let v := round_half_even (Qabs q * inject_Z 10000) in
  ((if Qlt_le_dec q 0 then "-" else "")
   ++ decimal (v / 10000) ++ "." ++ pad_zeros 4 (decimal (v mod 10000)))%string.

(** Lines 686-689. *)
Definition position (ds : Dataset) : string :=
  match ImagePositionPatient ds with
  | Some (x :: y :: z :: _) =>
      (format_4f x ++ "," ++ format_4f y ++ "," ++ format_4f z)%string
  | _ => ""
  end.

(** Lines 698-706. *)
Definition format_datetime (date_str time_str : string) : string :=
  if negb (String.eqb date_str "") && negb (String.eqb time_str "") then
    (slice 0 4 date_str ++ "-" ++ slice 4 6 date_str ++ "-" ++ slice 6 8 date_str
     ++ "-" ++ slice 0 2 time_str ++ ":" ++ slice 2 4 time_str)%string
  else "".

(** Lines 719-726; the keyword [DiffusionBValue] names the element
    (0018,9087), so the first two tests look at the same element. *)
Definition read_bvalue (ds : Dataset) : PyVal :=
  match element ds DiffusionBValue with
  | Some v => v
  | None =>
      match element ds (0x0018, 0x9087)%N with
      | Some v => v
      | None =>
          match element ds (0x0019, 0x100c)%N with
          | Some v => v
          | None => VNone
          end
      end
  end.

(** ** Stage C: slices per volume and number of volumes *)

(** A number produced by the volume count: an [int] or a [float]. *)
Inductive Num : Type :=
| NInt (z : Z)
| NFloat (q : Q).

Definition num_py (n : Num) : PyVal :=
  match n with NInt z => VInt z | NFloat q => VFloat q end.

(** [n > k] *)
Definition num_gt (n : Num) (k : Z) : bool :=
  match n with
  | NInt z => k <? z
  | NFloat q => negb (Qle_bool q (inject_Z k))
  end.

(** [k > n] *)
Definition int_gt (k : Z) (n : Num) : bool :=
  match n with
  | NInt z => z <? k
  | NFloat q => negb (Qle_bool (inject_Z k) q)
  end.

(** [a // n], the floor of the quotient; the callers divide by more than 0. *)
Definition floordiv (a : Z) (n : Num) : Num :=
  match n with
  | NInt z => NInt (a / z)
  | NFloat q => NFloat (inject_Z (Qfloor (inject_Z a / q)))
  end.

(** [max(1, z_dim)]: the first argument unless the second is greater. *)
Definition max_1 (n : Num) : Num :=
  match n with
  | NInt z => NInt (Z.max 1 z)
  | NFloat q => if Qle_bool q 1 then NInt 1 else NFloat q
  end.

(** The number in a value, for the comparisons and divisions that raise
    [TypeError] on anything else. *)
Definition as_num (v : PyVal) : option Num :=
  match v with
  | VInt z => Some (NInt z)
  | VFloat q => Some (NFloat q)
  | _ => None
  end.

(** A [float] as a member of a set or a key of a dictionary: equal floats
    are one key. *)
Definition float_key (q : Q) : Z * positive :=
  (Qnum (Qred q), Qden (Qred q)).

(** [round(x, 2)], as the number of hundredths. *)
Definition round_2 (q : Q) : Z := round_half_even (q * inject_Z 100).

(** What the sampling pass of lines 436-485 collects.  The slice positions
    are kept as hundredths; the files of a b-value are kept by path. *)
Record Collected : Type := {
  slice_positions : gset Z;
  instance_numbers : gset Z;
  temporal_positions : gset Z;
  bvalue_to_files : gmap (Z * positive) (gset string)
}.

Definition nothing_collected : Collected :=
  {| slice_positions := ∅; instance_numbers := ∅;
     temporal_positions := ∅; bvalue_to_files := ∅ |}.

(** [len(s)] of a set or dictionary. *)
Definition card `{Size C} (s : C) : Z := Z.of_nat (size s).

(** [[i * n // sample_size for i in range(sample_size)] if sample_size > 0
    else [0]] with [sample_size = min(cap, n)]. *)
Definition sample_indices (cap n : Z) : list Z :=
  let sample_size := Z.min cap n in
  if 0 <? sample_size then map (fun i => i * n / sample_size) (range sample_size)
  else [0].

(** [max(s)] of a set of integers. *)
Definition set_max (s : gset Z) : option Z :=
  match elements s with
  | [] => None
  | x :: rest => Some (foldr Z.max x rest)
  end.

Section Gather.

(** [float(s)] on text, a Python built-in: the number denoted, [None] when it
    raises [ValueError]. *)
Variable float_of_text : string -> option Q.

(** [float(v)]; [None] when it raises. *)
Definition py_float (v : PyVal) : option Q :=
  match v with
  | VInt z => Some (inject_Z z)
  | VFloat q => Some q
  | VStr s | VBytes s => float_of_text s
  | _ => None
  end.

(** Lines 470-485: the b-value of one file, entered under its own path. *)
Definition collect_bvalue (ds_sample : Dataset) (path : string)
    (m : gmap (Z * positive) (gset string)) : gmap (Z * positive) (gset string) :=
  let bval := read_bvalue ds_sample in
  if is_none bval then m
  else
    match py_float bval with
    | Some bval_float =>
        let k := float_key bval_float in
        <[k := {[path]} ∪ default ∅ (m !! k)]> m
    | None => m
    end.

(** The body of the loop of lines 446-485 for one index; the flag tells
    that the body raised (adding a [MultiValue] to a set does). *)
Definition collect_file (fs : Files) (dicom_files : list string)
    (st : Collected) (idx : Z) : Collected * bool :=
  if len dicom_files <=? idx then (st, false)
  else
    match at_index dicom_files idx with
    | None => (st, false)
    | Some path =>
        match get_dicom fs path with
        | None => (st, false)
        | Some ds_sample =>
            let sp :=
              match ImagePositionPatient ds_sample with
              | Some (_ :: _ :: z :: _) => {[round_2 z]} ∪ slice_positions st
              | _ => slice_positions st
              end in
            match InstanceNumber ds_sample with
            | Some (ManyInts _) =>
                ({| slice_positions := sp;
                    instance_numbers := instance_numbers st;
                    temporal_positions := temporal_positions st;
                    bvalue_to_files := bvalue_to_files st |}, true)
            | inst =>
                ({| slice_positions := sp;
                    instance_numbers :=
                      match inst with
                      | Some (OneInt z) => {[z]} ∪ instance_numbers st
                      | _ => instance_numbers st
                      end;
                    temporal_positions :=
                      match tag_0020_9128 ds_sample with
                      | Some (Some t) => {[t]} ∪ temporal_positions st
                      | _ => temporal_positions st
                      end;
                    bvalue_to_files :=
                      collect_bvalue ds_sample path (bvalue_to_files st) |},
                 false)
            end
        end
    end.

(** A [for] loop whose body may raise: it stops at the first raise. *)
Fixpoint run_loop {S} (body : S -> Z -> S * bool) (idxs : list Z) (st : S)
  : S * bool :=
  match idxs with
  | [] => (st, false)
  | idx :: rest =>
      let '(st', raised) := body st idx in
      if raised then (st', true) else run_loop body rest st'
  end.

Definition collect (fs : Files) (dicom_files : list string) : Collected * bool :=
  run_loop (collect_file fs dicom_files)
           (sample_indices 500 (len dicom_files)) nothing_collected.

(** Lines 430-435: the slice count of a mosaic file. *)
Definition mosaic_z_dim (ds : Dataset) (is_mosaic : bool) : PyVal :=
  if is_mosaic then default VNone (element ds (0x0019, 0x100A)%N) else VNone.

(** Lines 487-501: the slice count after the sampling pass, with the
    [except] branch for a pass that raised. *)
Definition base_z_dim (z_dim : PyVal) (c : Collected * bool) (n : Z) : PyVal :=
  let '(st, raised) := c in
  if raised then (if is_none z_dim then VInt n else z_dim)
  else if is_none z_dim then
    if 0 <? card (slice_positions st) then VInt (card (slice_positions st))
    else if (0 <? card (instance_numbers st)) && (card (instance_numbers st) <=? n)
    then VInt (card (instance_numbers st))
    else VInt n
  else z_dim.

(** The running values of the volume count. *)
Record Volumes : Type := {
  num_volumes : option Num;
  num_b0s : option Z;
  is_diffusion_mri : bool;
  z_dim_of : PyVal
}.

(** The values of the sibling b-value file, [None] when a token is not a
    number (the conversion raises). *)
Definition bval_tokens (content : string) : list string :=
  filter (fun x => negb (String.eqb (strip x) "")) (split_ws (strip content)).

Definition bval_values (content : string) : option (list Q) :=
  mapM float_of_text (bval_tokens content).

(** Lines 741-758. *)
Definition from_bval_file (bval_file : option string) (is_mosaic : bool)
    (n : Z) (z_dim : PyVal) : Volumes :=
  let unchanged :=
    {| num_volumes := None; num_b0s := None; is_diffusion_mri := false;
       z_dim_of := z_dim |} in
  match bval_file with
  | None => unchanged
  | Some content =>
      match bval_values content with
      | None => unchanged
      | Some values =>
          let nv := len values in
          let nb0 := len (filter (fun b => Qeq_bool b 0) values) in
          {| num_volumes := Some (NInt nv);
             num_b0s := Some nb0;
             is_diffusion_mri := true;
             z_dim_of :=
               if (1 <? nv) && (nv <? n) && negb is_mosaic && (0 <? n / nv)
               then VInt (n / nv) else z_dim |}
      end
  end.

(** Lines 778-807: the b-values of up to 100 files, sampled again. *)
Definition resample_bvalue (fs : Files) (dicom_files : list string)
    (acc : gset (Z * positive) * Z) (idx : Z) : gset (Z * positive) * Z :=
  let '(unique_bvalues, b0_file_count) := acc in
  if len dicom_files <=? idx then acc
  else
    match at_index dicom_files idx ≫= get_dicom fs with
    | None => acc
    | Some ds_sample =>
        let bval := read_bvalue ds_sample in
        if is_none bval then acc
        else
          match py_float bval with
          | Some bval_float =>
              ({[float_key bval_float]} ∪ unique_bvalues,
               if Qeq_bool bval_float 0 then b0_file_count + 1 else b0_file_count)
          | None => acc
          end
    end.

(** Lines 764-807: the distinct b-values and the number of b0 files, from
    the sampling pass when it found any, else from a new sample. *)
Definition sampled_bvalues (fs : Files) (dicom_files : list string)
    (st : Collected) : gset (Z * positive) * Z :=
  if negb (card (bvalue_to_files st) =? 0) then
    (dom (bvalue_to_files st),
     card (default ∅ (bvalue_to_files st !! float_key 0)))
  else
    fold_left (resample_bvalue fs dicom_files)
              (sample_indices 100 (len dicom_files)) (∅, 0).

(** Lines 814-836: every file read again. *)
Definition full_bvalue (fs : Files) (acc : gset (Z * positive) * Z)
    (dicom_file : string) : gset (Z * positive) * Z :=
  let '(unique_bvalues_full, b0_file_count_full) := acc in
  match fs !! dicom_file with
  | None => acc
  | Some ds_sample =>
      let bval := read_bvalue ds_sample in
      if is_none bval then acc
      else
        match py_float bval with
        | Some bval_float =>
            ({[float_key bval_float]} ∪ unique_bvalues_full,
             if Qeq_bool bval_float 0 then b0_file_count_full + 1
             else b0_file_count_full)
        | None => acc
        end
  end.

(** Lines 839-856: the two counts of a diffusion series. *)
Definition diffusion_counts (n : Z) (found : gset (Z * positive) * Z)
  : Z * Z :=
  let '(unique, b0_file_count) := found in
  (card unique,
   if 0 <? b0_file_count then
     let estimated_files_per_volume := n / Z.max 1 (card unique) in
     Z.max 1 (b0_file_count / Z.max 1 estimated_files_per_volume)
   else 0).

(** Lines 873-888: instance numbers and temporal positions of up to 200
    files; adding a [MultiValue] to the set raises. *)
Definition functional_file (fs : Files) (dicom_files : list string)
    (acc : gset Z * gset Z) (idx : Z) : (gset Z * gset Z) * bool :=
  let '(instance_numbers, temporal_positions) := acc in
  if len dicom_files <=? idx then (acc, false)
  else
    match at_index dicom_files idx ≫= get_dicom fs with
    | None => (acc, false)
    | Some ds_sample =>
        match InstanceNumber ds_sample with
        | Some (ManyInts _) => (acc, true)
        | inst =>
            ((match inst with
              | Some (OneInt z) => {[z]} ∪ instance_numbers
              | _ => instance_numbers
              end,
              match tag_0020_9128 ds_sample with
              | Some (Some t) => {[t]} ∪ temporal_positions
              | _ => temporal_positions
              end), false)
        end
    end.

Definition functional_sample (fs : Files) (dicom_files : list string)
  : (gset Z * gset Z) * bool :=
  run_loop (functional_file fs dicom_files)
           (sample_indices 200 (len dicom_files)) (∅, ∅).

(** Lines 861-901: the volume count of a functional series; the outer
    [None] is an exception, which leaves the count as it was. *)
Definition functional_volumes (fs : Files) (dicom_files : list string)
    (z_dim : PyVal) : option (option Num) :=
  let '((instance_numbers, temporal_positions), raised) :=
    functional_sample fs dicom_files in
  if raised then None
  else if 1 <? card temporal_positions then
    Some (Some (NInt (card temporal_positions)))
  else
    match as_num z_dim with
    | None => None
    | Some z =>
        (* [elif len(instance_numbers) > z_dim] *)
        if int_gt (card instance_numbers) z then
          let max_instance :=
            default (len dicom_files) (set_max instance_numbers) in
          let estimated_volumes := floordiv max_instance (max_1 z) in
          if num_gt estimated_volumes 1 then Some (Some estimated_volumes)
          else Some None
        else Some None
    end.

(** [k in series_description.lower()] for the three keywords. *)
Definition is_functional (description : string) : bool :=
  contains "fmri" (lower description)
  || contains "functional" (lower description)
  || contains "bold" (lower description).

(** Lines 761-904: the volume count from the files themselves. *)
Definition from_files (fs : Files) (dicom_files : list string)
    (series_description : PyVal) (st : Collected) (v : Volumes) : Volumes :=
  let n := len dicom_files in
  match num_volumes v with
  | Some _ => v
  | None =>
      if n <=? 1 then v
      else
        let found := sampled_bvalues fs dicom_files st in
        if 0 <? card (fst found) then
          let '(nv, nb0) :=
            if n <=? 500 then
              diffusion_counts n (fold_left (full_bvalue fs) dicom_files (∅, 0))
            else diffusion_counts n found in
          {| num_volumes := Some (NInt nv); num_b0s := Some nb0;
             is_diffusion_mri := true; z_dim_of := z_dim_of v |}
        else
          match series_description with
          | VStr description =>
              if is_functional description then
                match functional_volumes fs dicom_files (z_dim_of v) with
                | Some (Some nv) =>
                    {| num_volumes := Some nv; num_b0s := num_b0s v;
                       is_diffusion_mri := is_diffusion_mri v;
                       z_dim_of := z_dim_of v |}
                | _ => v
                end
              else v
          | _ => v
          end
  end.

(** ** The output row (lines 908-1025) *)

(** A Python dictionary with text keys, in insertion order. *)
Abbreviation Dict := (list (string * PyVal)).

(** [d[key] = v]: the value is replaced where the key stands, a new key goes
    to the end. *)
Fixpoint dict_set (key : string) (v : PyVal) (d : Dict) : Dict :=
  match d with
  | [] => [(key, v)]
  | (k, w) :: rest =>
      if String.eqb k key then (k, v) :: rest else (k, w) :: dict_set key v rest
  end.

Fixpoint dict_get (key : string) (d : Dict) : option PyVal :=
  match d with
  | [] => None
  | (k, w) :: rest => if String.eqb k key then Some w else dict_get key rest
  end.

(** Lines 944-969: the volume fields, and the slice count recomputed from
    the number of volumes unless the series is a mosaic. *)
Definition add_volume_fields (is_mosaic : bool) (n : Z) (v : Volumes)
    (output_data : Dict) : Dict :=
  let output_data :=
    match num_volumes v with
    | Some nv =>
        if num_gt nv 1 then
          let output_data := dict_set "NumberOfVolumes" (VList [num_py nv]) output_data in
          if negb is_mosaic then
            let calculated_z_dim := floordiv n nv in
            if num_gt calculated_z_dim 0
            then dict_set "Z_Dim" (VList [num_py calculated_z_dim]) output_data
            else output_data
          else output_data
        else dict_set "NumberOfVolumes" (VList [VNone]) output_data
    | None => dict_set "NumberOfVolumes" (VList [VNone]) output_data
    end in
  if is_diffusion_mri v
  then dict_set "NumberOfB0s" (VList [opt_int (num_b0s v)]) output_data
  else dict_set "NumberOfB0s" (VList [VNone]) output_data.

(** Lines 974-986: the first pass over the values. *)
Definition clean_value (value_list : PyVal) : PyVal :=
  match value_list with
  | VList [] => VNone
  | VList (first :: _) =>
      if is_list_or_tuple first then
        match items first with
        | [] => VNone
        | x :: _ => x
        end
      else first
  | other => other
  end.

(** Lines 989-992: the second pass. *)
Definition clean_again (value : PyVal) : PyVal :=
  if is_list_or_tuple value then
    match items value with
    | [] => VNone
    | x :: _ => x
    end
  else value.

Definition clean (output_data : Dict) : Dict :=
  map (fun kv => (fst kv, clean_again (clean_value (snd kv)))) output_data.

(** [df.iloc[[0]].copy()] *)
Definition first_row {A} (df : list A) : list A := firstn 1 df.

(** Lines 996-1025: the frame built from the one dictionary, and the three
    checks that cut it to its first row. *)
Definition make_frame (cleaned_output_data : Dict) : list Dict :=
  let df := [cleaned_output_data] in
  let df := if negb (len df =? 1) then first_row df else df in
  let df := if 1 <? len df then first_row df else df in
  if negb (len df =? 1) then first_row df else df.

(** Lines 427-501 and 710-904: the slice count and the volume count.
    [bval_file] is the text of the first [*.bval] file found beside the
    series, if there is one. *)
Definition resolve_volumes (fs : Files) (bval_file : option string)
    (dicom_files : list string) (ds : Dataset) : Volumes :=
  let n := len dicom_files in
  let is_mosaic := detect_mosaic ds in
  let collected := collect fs dicom_files in
  let z_dim := base_z_dim (mosaic_z_dim ds is_mosaic) collected n in
  from_files fs dicom_files (getattr ds SeriesDescription (VStr ""))
             (fst collected) (from_bval_file bval_file is_mosaic n z_dim).

(** Lines 909-942: [output_data], every value wrapped in a list. *)
Definition build_output (fs : Files) (dicom_files : list string)
    (folder_name : string) (ds : Dataset) (z_dim : PyVal) : Dict :=
  let '(rows, columns) := resolve_dimensions fs dicom_files ds in
  [ ("SeriesNumber", VList [getattr ds SeriesNumber VNone]);
    ("FolderName", VList [VStr folder_name]);
    ("SeriesDescription", VList [getattr ds SeriesDescription (VStr "")]);
    ("MRAcquisitionType", VList [VStr (default "" (MRAcquisitionType ds))]);
    ("X_Dim", VList [opt_int columns]);
    ("Y_Dim", VList [opt_int rows]);
    ("Z_Dim", VList [z_dim]);
    ("X_Voxel", VList [voxel ds 0]);
    ("Y_Voxel", VList [voxel ds 1]);
    ("Z_Voxel", VList [getattr ds SliceThickness VNone]);
    ("SliceGap", VList [getattr ds SpacingBetweenSlices VNone]);
    ("InversionTime", VList [getattr ds InversionTime VNone]);
    ("EchoTime", VList [getattr ds EchoTime VNone]);
    ("RepetitionTime", VList [getattr ds RepetitionTime VNone]);
    ("FlipAngle", VList [getattr ds FlipAngle VNone]);
    ("Position", VList [VStr (position ds)]);
    ("StudyDescription", VList [VStr (default "" (StudyDescription ds))]);
    ("SeriesAcqTime",
     VList [VStr (format_datetime (default "" (SeriesDate ds))
                                  (default "" (SeriesTime ds)))]);
    ("DiffusionBValue", VList [read_bvalue ds]);
    ("MultibandFactor", VList [multiband ds]);
    ("InplaneAccelFactor", VList [inplane ds (detect_mosaic ds)]);
    ("PhaseEncodingDirection", VList [opt_str (tag_0018_1312 ds)]);
    ("NumberOfAverages", VList [getattr ds NumberOfAverages VNone]);
    ("Bandwidth", VList [getattr ds PixelBandwidth VNone]);
    ("CoilName", VList [getattr ds ReceivingCoilName VNone]);
    ("SliceOrientation", VList [opt_str (tag_0018_5100 ds)]);
    ("MagneticFieldStrength", VList [getattr ds MagneticFieldStrength VNone]);
    ("PercentPhaseFOV", VList [default VNone (element ds (0x0018, 0x0094)%N)]);
    ("PercentSampling", VList [default VNone (element ds (0x0018, 0x0093)%N)]) ].

(** The one dictionary the frame is built from (lines 908-992). *)
Definition series_row (fs : Files) (bval_file : option string)
    (dicom_files : list string) (folder_name : string) (ds : Dataset) : Dict :=
  let volumes := resolve_volumes fs bval_file dicom_files ds in
  clean (add_volume_fields (detect_mosaic ds) (len dicom_files) volumes
           (build_output fs dicom_files folder_name ds (z_dim_of volumes))).

(** [gather_info]: the rows of the file written for the series, [None] when
    the function returns without writing (no files, or a first file that
    cannot be read). *)
Definition gather_info (fs : Files) (bval_file : option string)
    (dicom_files : list string) (folder_name : string) : option (list Dict) :=
  match dicom_files with
  | [] => None
  | first :: _ =>
      match get_dicom fs first with
      | None => None
      | Some ds =>
          Some (make_frame (series_row fs bval_file dicom_files folder_name ds))
      end
  end.

End Gather.

(** ** Folder names (lines 63-71, 142-146) *)

(** [c in chars] for a one-character [c]. *)
Fixpoint char_in (c : ascii) (chars : string) : bool :=
  match chars with
  | EmptyString => false
  | String a r => Ascii.eqb a c || char_in c r
  end.

(** [s.replace(c, '_')] for a one-character [c]. *)
Definition replace_char (c : ascii) (s : string) : string :=
  map_chars (fun a => if Ascii.eqb a c then "_"%char else a) s.

(** [s.lstrip(chars)] and [s.rstrip(chars)]. *)
Fixpoint lstrip_chars (chars s : string) : string :=
  match s with
  | EmptyString => EmptyString
  | String c r => if char_in c chars then lstrip_chars chars r else s
  end.

Fixpoint rstrip_chars (chars s : string) : string :=
  match s with
  | EmptyString => EmptyString
  | String c r =>
      match rstrip_chars chars r with
      | EmptyString => if char_in c chars then EmptyString else String c EmptyString
      | kept => String c kept
      end
  end.

(** [s.strip(chars)] *)
Definition strip_chars (chars s : string) : string :=
  rstrip_chars chars (lstrip_chars chars s).

(** The characters Windows refuses in a folder name: the nine of line 65,
    the fourth being the double quote. *)
Definition invalid_chars : string :=
  String "<" (String ">" (String ":" (String (ascii_of_N 34) "/\|?*"))).

(** The loop of lines 66-67. *)
Fixpoint replace_each (chars name : string) : string :=
  match chars with
  | EmptyString => name
  | String char rest => replace_each rest (replace_char char name)
  end.

Definition sanitize_folder_name (name : string) : string :=
  let name := replace_each invalid_chars name in
  let name := strip_chars " ." name in
  if (200 <? Z.of_nat (String.length name)) then take_chars 200 name else name.

(** Lines 145-146 and 241-242: the folder of a file whose series number and
    description print as [series_num] and [series_desc]. *)
Definition series_folder_name (series_num series_desc : string) : string :=
  sanitize_folder_name (series_num ++ "_" ++ series_desc).

(** ** The files on disk (lines 74-132, 153-199) *)

(** One entry of a directory as [Path.iterdir] yields it: its path as text,
    its last component, and what [is_file] and [is_dir] answer. *)
Record Entry : Type := {
  entry_path : string;
  entry_name : string;
  is_file : bool;
  is_dir : bool
}.

(** What listing a directory gives: it does not exist, [iterdir] raises
    [PermissionError], or it yields the entries in this order. *)
Inductive Listing : Type :=
  | Missing
  | Denied
  | Listed (entries : list Entry).

(** The file system as the source observes it: what [dcmread] returns for a
    path (no entry when it raises), the size [os.path.getsize] reports (no
    entry when it raises), and the listing of each directory. *)
Record Disk : Type := {
  dicom_of : Files;
  getsize : gmap string Z;
  iterdir : string -> Listing
}.

(** Lines 74-85. *)
Definition is_dicom_file (d : Disk) (file_path : string) : bool :=
  match getsize d !! file_path with
  | None => false
  | Some size =>
      if size <? 1024 then false
      else match get_dicom (dicom_of d) file_path with
           | Some _ => true
           | None => false
           end
  end.

(** [enumerate(l)] *)
Definition enumerate {A} (l : list A) : list (Z * A) :=
  imap (fun i x => (Z.of_nat i, x)) l.

(** Lines 114-119: the pool maps [is_dicom_file] over the paths and gives the
    answers in the order of the paths; the paths are then picked by index
    ([None] when an index is out of range). *)
Definition find_parallel (d : Disk) (file_paths : list string)
    : option (list string) :=
  let results := map (is_dicom_file d) file_paths in
  mapM (fun '(i, _) => at_index file_paths i)
       (filter (fun '(_, is_dicom) => is_dicom = true) (enumerate results)).

(** Lines 123-129. *)
Definition find_sequential (d : Disk) (file_items : list string) : list string :=
  fold_left
    (fun dicom_files file_path =>
       if is_dicom_file d file_path then (dicom_files ++ [file_path])%list
       else dicom_files)
    file_items [].

(** Lines 88-132; [None] when listing the directory raises. *)
Definition find_dicom_files (d : Disk) (directory : string) (use_parallel : bool)
    : option (list string) :=
  match iterdir d directory with
  | Missing => Some []
  | Denied => None
  | Listed all_files =>
      let file_items := map entry_path (filter (fun f => is_file f = true) all_files) in
      if len file_items =? 0 then Some []
      else if use_parallel && (10 <? len file_items) then
        find_parallel d file_items
      else Some (find_sequential d file_items)
  end.

(** Lines 173-187: the folders in which one of the first five files is a
    DICOM file; a folder that may not be listed is skipped, one that has
    vanished raises. *)
Fixpoint organized_folders (d : Disk) (dir_items : list Entry)
    : option (list Entry) :=
  match dir_items with
  | [] => Some []
  | item :: rest =>
      match iterdir d (entry_path item) with
      | Missing => None
      | Denied => organized_folders d rest
      | Listed entries =>
          let folder_files := filter (fun f => is_file f = true) entries in
          found ← organized_folders d rest;
          Some (if existsb (fun f => is_dicom_file d (entry_path f))
                      (firstn 5 folder_files)
                then item :: found else found)
      end
  end.

(** Lines 153-199; [None] when listing raises. *)
Definition check_if_files_organized (d : Disk) (base_path : string)
    : option bool :=
  match iterdir d base_path with
  | Missing => Some false
  | Denied => None
  | Listed items =>
      if len items =? 0 then Some false
      else
        let file_items := filter (fun f => is_file f = true) items in
        let dicom_files_in_root :=
          filter (fun f => is_dicom_file d (entry_path f) = true)
                 (firstn 10 file_items) in
        let dir_items := filter (fun f => is_dir f = true) items in
        folders ← organized_folders d dir_items;
        if negb (len dicom_files_in_root =? 0) then Some false
        else if negb (len folders =? 0) then Some true
        else Some false
  end.

(** ** The cache of files read (lines 256-272) *)

(** The dictionary of the cache, and the paths handed to [dcmread]. *)
Record DICOMCache : Type := {
  cache_of : gmap string Dataset;
  dcmread_calls : list string
}.

(** Line 259. *)
Definition new_cache : DICOMCache := {| cache_of := ∅; dcmread_calls := [] |}.

(** Lines 261-268. *)
Definition cache_get_dicom (fs : Files) (c : DICOMCache) (file_path : string)
    : option Dataset * DICOMCache :=
  match cache_of c !! file_path with
  | None =>
      let calls := (dcmread_calls c ++ [file_path])%list in
      match fs !! file_path with
      | Some ds =>
          let filled := <[file_path := ds]> (cache_of c) in
          (filled !! file_path, {| cache_of := filled; dcmread_calls := calls |})
      | None => (None, {| cache_of := cache_of c; dcmread_calls := calls |})
      end
  | Some _ => (cache_of c !! file_path, c)
  end.

(** A run of calls of [get_dicom] on one cache, with what each returned. *)
Fixpoint cache_reads (fs : Files) (c : DICOMCache) (file_paths : list string)
    : list (option Dataset) * DICOMCache :=
  match file_paths with
  | [] => ([], c)
  | file_path :: rest =>
      let '(ds, c) := cache_get_dicom fs c file_path in
      let '(more, c) := cache_reads fs c rest in
      (ds :: more, c)
  end.

(** ** One table per folder (lines 1048-1092) *)

(** The tables saved, by the name of their folder: the table of a folder is
    the file of that name in the output directory. *)
Abbreviation Csvs := (gmap string (list (list (string * PyVal)))).

(** How [process_dicom_folders] ends: without a word when there is no
    folder, with the count it prints, or with an exception. *)
Inductive Outcome : Type :=
  | NoFolders
  | Counted (csv_count : Z)
  | Raised.

Section Folders.

Variable float_of_text : string -> option Q.

(** The text of the first [.bval] file in the folder of a file, if there is
    one (lines 731-738). *)
Variable bval_beside : string -> option string.

(** [gather_info] with its effect on the output directory (line 1027). *)
Definition gather_info_saved (d : Disk) (dicom_files : list string)
    (folder_name : string) (csvs : Csvs) : Csvs :=
  match gather_info float_of_text (dicom_of d) (head dicom_files ≫= bval_beside)
          dicom_files folder_name with
  | Some df => <[folder_name := df]> csvs
  | None => csvs
  end.

(** Lines 1048-1058: the name of the folder, whether a table was asked for,
    and whether an exception was caught. *)
Definition process_single_folder (d : Disk) (folder : Entry) (csvs : Csvs)
    : Csvs * (string * bool * bool) :=
  match find_dicom_files d (entry_path folder) false with
  | None => (csvs, (entry_name folder, false, true))
  | Some dicom_files =>
      if negb (len dicom_files =? 0) then
        (gather_info_saved d dicom_files (entry_name folder) csvs,
         (entry_name folder, true, false))
      else (csvs, (entry_name folder, false, false))
  end.

(** Lines 1072-1082: the pool gives the results in the order of the folders;
    they are counted afterwards. *)
Definition process_parallel (d : Disk) (folders : list Entry) (csvs : Csvs)
    : Csvs * Z :=
  let '(csvs, results) :=
    fold_left
      (fun '(csvs, results) folder =>
         let '(csvs, result) := process_single_folder d folder csvs in
         (csvs, (results ++ [result])%list))
      folders (csvs, []) in
  (csvs,
   fold_left
     (fun csv_count '(_, success, error) =>
        if error : bool then csv_count
        else if success : bool then csv_count + 1 else csv_count)
     results 0).

(** Lines 1084-1090: no exception is caught here. *)
Fixpoint process_sequential (d : Disk) (folders : list Entry) (csvs : Csvs)
    (csv_count : Z) : Csvs * option Z :=
  match folders with
  | [] => (csvs, Some csv_count)
  | folder :: rest =>
      match find_dicom_files d (entry_path folder) false with
      | None => (csvs, None)
      | Some dicom_files =>
          if negb (len dicom_files =? 0) then
            process_sequential d rest
              (gather_info_saved d dicom_files (entry_name folder) csvs)
              (csv_count + 1)
          else process_sequential d rest csvs csv_count
      end
  end.

(** Lines 1061-1092. *)
Definition process_dicom_folders (d : Disk) (base_path : string)
    (use_parallel : bool) (csvs : Csvs) : Csvs * Outcome :=
  match iterdir d base_path with
  | Missing | Denied => (csvs, Raised)
  | Listed entries =>
      let folders :=
        filter (fun f => is_dir f = true /\ entry_name f ∉ ["."; ".."]) entries in
      if len folders =? 0 then (csvs, NoFolders)
      else if use_parallel && (5 <? len folders) then
        let '(csvs, csv_count) := process_parallel d folders csvs in
        (csvs, Counted csv_count)
      else
        match process_sequential d folders csvs 0 with
        | (csvs, Some csv_count) => (csvs, Counted csv_count)
        | (csvs, None) => (csvs, Raised)
        end
  end.

End Folders.

(** ** Definitions used to state the properties *)

Local Open Scope list_scope.

(** The value of the images-per-mosaic attribute, the vendor private
    attributes A and B of the in-plane chain. *)
Definition images_in_mosaic : tag := (0x0019, 0x100A)%N.
Definition private_A : tag := (0x0019, 0x100A)%N.
Definition private_B : tag := (0x0019, 0x100B)%N.

(** The slice count that reaches the output: the value of the volume count,
    replaced by [n // num_volumes] for a multi-volume series that is not a
    mosaic. *)
Definition final_z_dim (is_mosaic : bool) (n : Z) (v : Volumes) : PyVal :=
  match num_volumes v with
  | Some nv =>
      if num_gt nv 1 && negb is_mosaic && num_gt (floordiv n nv) 0
      then num_py (floordiv n nv) else z_dim_of v
  | None => z_dim_of v
  end.

(** The volume count that reaches the output. *)
Definition final_num_volumes (v : Volumes) : PyVal :=
  match num_volumes v with
  | Some nv => if num_gt nv 1 then num_py nv else VNone
  | None => VNone
  end.

(** A reader of plain decimal numerals ([12], [-3], [1000.5]), standing in
    for Python's [float] in the worked examples. *)
Definition plain_float (s : string) : option Q :=
  match split_on "." s with
  | [i] => inject_Z <$> py_int i
  | [i; f] =>
      match py_int i, int_digits f 0 false with
      | Some a, Some b =>
          let frac := (inject_Z b / inject_Z (10 ^ Z.of_nat (String.length f)))%Q in
          Some (if startswith "-" (strip i) then (inject_Z a - frac)%Q
                else (inject_Z a + frac)%Q)
      | _, _ => None
      end
  | _ => None
  end.

(** A plain image file and a mosaic one, [r] by [c] pixels, with the given
    elements. *)
Definition image_file (r c : Z) (els : gmap (N * N) DcmVal) : Dataset :=
  {| Rows := Some r; Columns := Some c; ImageType := ["ORIGINAL"; "PRIMARY"; "M"];
     AcquisitionMatrix := None; ImagePositionPatient := None;
     PixelSpacing := None; InstanceNumber := None; tag_0020_9128 := None;
     MRAcquisitionType := None; StudyDescription := None;
     SeriesDate := None; SeriesTime := None;
     tag_0018_1312 := None; tag_0018_5100 := None;
     tag_0051_100b := None; tag_0051_1011 := None;
     data_elements := els |}.

Definition mosaic_file (r c : Z) (els : gmap (N * N) DcmVal) : Dataset :=
  {| Rows := Some r; Columns := Some c; ImageType := ["ORIGINAL"; "PRIMARY"; "M"; "ND"; "MOSAIC"];
     AcquisitionMatrix := None; ImagePositionPatient := None;
     PixelSpacing := None; InstanceNumber := None; tag_0020_9128 := None;
     MRAcquisitionType := None; StudyDescription := None;
     SeriesDate := None; SeriesTime := None;
     tag_0018_1312 := None; tag_0018_5100 := None;
     tag_0051_100b := None; tag_0051_1011 := None;
     data_elements := els |}.

(** The paths [f0], [f1], ... of a series of [n] files, and the series in
    which the file at index [i] is [file i]. *)
Definition path_of (i : Z) : string := ("f" ++ decimal i)%string.
Definition paths (n : Z) : list string := map path_of (range n).
Definition series (n : Z) (file : Z -> Dataset) : Files :=
  list_to_map (map (fun i => (path_of i, file i)) (range n)).

(** A slice count is the non-null value of a data element or an integer. *)
Definition known_count (z : PyVal) : Prop :=
  (exists d, d <> DNone /\ z = py d) \/ (exists k, z = VInt k).

(** A mosaic series of one file whose images-per-mosaic element is empty,
    and one whose element holds 36. *)
Definition empty_count_series : Files :=
  series 1 (fun _ => mosaic_file 448 448 {[ images_in_mosaic := DNone ]}).

Definition mosaic_36_series : Files :=
  series 1 (fun _ => mosaic_file 448 448 {[ images_in_mosaic := DInt 36 ]}).

(** A plain image file at slice position [z] with instance number [inst]. *)
Definition slice_file (z : Q) (inst : Z) (els : gmap (N * N) DcmVal) : Dataset :=
  {| Rows := Some 64; Columns := Some 64; ImageType := ["ORIGINAL"; "PRIMARY"; "M"];
     AcquisitionMatrix := None; ImagePositionPatient := Some [0%Q; 0%Q; z];
     PixelSpacing := None; InstanceNumber := Some (OneInt inst);
     tag_0020_9128 := None;
     MRAcquisitionType := None; StudyDescription := None;
     SeriesDate := None; SeriesTime := None;
     tag_0018_1312 := None; tag_0018_5100 := None;
     tag_0051_100b := None; tag_0051_1011 := None;
     data_elements := els |}.

(** Three slices, 2.5 apart. *)
Definition three_slices : Files :=
  series 3 (fun i => slice_file (inject_Z i * (5 # 2)) (i + 1) ∅).

(** Two files that are identical except for the presence or the value of
    the element [t]. *)
Definition same_except (t : tag) (d1 d2 : Dataset) : Prop :=
  Rows d1 = Rows d2 /\ Columns d1 = Columns d2 /\ ImageType d1 = ImageType d2
  /\ AcquisitionMatrix d1 = AcquisitionMatrix d2
  /\ ImagePositionPatient d1 = ImagePositionPatient d2
  /\ PixelSpacing d1 = PixelSpacing d2
  /\ InstanceNumber d1 = InstanceNumber d2
  /\ tag_0020_9128 d1 = tag_0020_9128 d2
  /\ MRAcquisitionType d1 = MRAcquisitionType d2
  /\ StudyDescription d1 = StudyDescription d2
  /\ SeriesDate d1 = SeriesDate d2 /\ SeriesTime d1 = SeriesTime d2
  /\ tag_0018_1312 d1 = tag_0018_1312 d2 /\ tag_0018_5100 d1 = tag_0018_5100 d2
  /\ tag_0051_100b d1 = tag_0051_100b d2 /\ tag_0051_1011 d1 = tag_0051_1011 d2
  /\ delete t (data_elements d1) = delete t (data_elements d2).

(** Two runs whose files are pairwise so: the same paths can be read, and
    what is read differs at most in the element [t]. *)
Definition same_files_except (t : tag) (fs1 fs2 : Files) : Prop :=
  forall path, option_Forall2 (same_except t) (fs1 !! path) (fs2 !! path).

(** A mosaic file with the text code ["p2"]. *)
Definition mosaic_p2 (els : gmap (N * N) DcmVal) : Dataset :=
  {| Rows := Some 448; Columns := Some 448;
     ImageType := ["ORIGINAL"; "PRIMARY"; "M"; "ND"; "MOSAIC"];
     AcquisitionMatrix := None; ImagePositionPatient := None;
     PixelSpacing := None; InstanceNumber := None; tag_0020_9128 := None;
     MRAcquisitionType := None; StudyDescription := None;
     SeriesDate := None; SeriesTime := None;
     tag_0018_1312 := None; tag_0018_5100 := None;
     tag_0051_100b := None; tag_0051_1011 := Some "p2";
     data_elements := els |}.

(** The five sources of the multiband factor, each taken on its own, in the
    order of the specification; [VNone] when a source yields nothing. *)
Definition source_ucMultiSliceMode (ds : Dataset) : PyVal :=
  match element ds (0x0029, 0x1020)%N with
  | Some (VBytes csa_str) => header_field "sKSpace.ucMultiSliceMode" csa_str
  | _ => VNone
  end.

Definition source_lMultiBandFactor (ds : Dataset) : PyVal :=
  match element ds (0x0029, 0x1020)%N with
  | Some (VBytes csa_str) =>
      header_field "sSliceAcceleration.lMultiBandFactor" csa_str
  | _ => VNone
  end.

Definition source_out_of_plane (ds : Dataset) : PyVal :=
  match element ds (0x0018, 0x9159)%N with
  | Some val => if number_ge_1 val then float_of_number val else VNone
  | None => VNone
  end.

Definition source_text_code (ds : Dataset) : PyVal :=
  match tag_0051_1011 ds with
  | Some pat_text =>
      if startswith "s" pat_text && (1 <? Z.of_nat (String.length pat_text)) then
        match py_int (drop_chars 1 pat_text) with
        | Some val => if 1 <=? val then VFloat (inject_Z val) else VNone
        | None => VNone
        end
      else VNone
  | None => VNone
  end.

Definition source_numeric_array (ds : Dataset) : PyVal :=
  match element ds (0x0043, 0x10B6)%N with
  | Some mb_params =>
      if truthy mb_params then
        let val :=
          if is_list_or_tuple mb_params && (0 <? len (items mb_params))
          then nth 0 (items mb_params) VNone
          else mb_params in
        if number_ge_1 val then float_of_number val else VNone
      else VNone
  | None => VNone
  end.

(** The first source of a list that yields a value. *)
Fixpoint first_valid (sources : list PyVal) : PyVal :=
  match sources with
  | [] => VNone
  | x :: rest => if is_none x then first_valid rest else x
  end.

Definition multiband_by_priority (ds : Dataset) : PyVal :=
  first_valid [ source_ucMultiSliceMode ds; source_lMultiBandFactor ds;
                source_out_of_plane ds; source_text_code ds;
                source_numeric_array ds ].

(** A factor is absent or a float of at least 1. *)
Definition valid_factor (v : PyVal) : Prop :=
  v = VNone \/ exists q, v = VFloat q /\ (1 <= q)%Q.

(** An embedded header that sets [ucMultiSliceMode] to 3, in a file whose
    text code is ["s2"]. *)
Definition header_3 : string :=
  ("### ASCCONV BEGIN ###" ++ String (ascii_of_N 10)
   ("sKSpace.ucMultiSliceMode" ++ String tab ("=" ++ String tab
   ("3" ++ String (ascii_of_N 10) "### ASCCONV END ###"))))%string.

Definition header_3_s2 : Dataset :=
  {| Rows := Some 64; Columns := Some 64; ImageType := ["ORIGINAL"; "PRIMARY"];
     AcquisitionMatrix := None; ImagePositionPatient := None;
     PixelSpacing := None; InstanceNumber := None; tag_0020_9128 := None;
     MRAcquisitionType := None; StudyDescription := None;
     SeriesDate := None; SeriesTime := None;
     tag_0018_1312 := None; tag_0018_5100 := None;
     tag_0051_100b := None; tag_0051_1011 := Some "s2";
     data_elements := {[ (0x0029, 0x1020)%N := DBytes header_3 ]} |}.

(** The pair of dimensions a sampled file contributes to the tally: its
    rows and columns when both are set and within [32, 8192]. *)
Definition sampled_pair (fs : Files) (dicom_files : list string) (idx : Z)
  : option (Z * Z) :=
  if len dicom_files <=? idx then None
  else
    match at_index dicom_files idx ≫= get_dicom fs with
    | Some ds_check =>
        match Rows ds_check, Columns ds_check with
        | Some r, Some c =>
            if negb (r =? 0) && negb (c =? 0) && is_reasonable r c
            then Some (r, c) else None
        | _, _ => None
        end
    | None => None
    end.

(** The valid pairs of the sampled files, in sampling order. *)
Definition sampled_pairs (fs : Files) (dicom_files : list string)
  : list (Z * Z) :=
  omap (sampled_pair fs dicom_files) (consensus_indices (len dicom_files)).

(** How often a pair occurs in a list. *)
Fixpoint occurrences (p : Z * Z) (l : list (Z * Z)) : Z :=
  match l with
  | [] => 0
  | q :: rest => (if dim_eqb q p then 1 else 0) + occurrences p rest
  end.

(** [p] is the mode of [l], the first-encountered one among the pairs that
    occur most often: no pair occurs more often, and every pair met before
    the first [p] occurs less often. *)
Definition first_mode (p : Z * Z) (l : list (Z * Z)) : Prop :=
  (forall q, occurrences q l <= occurrences p l)
  /\ exists l1 l2,
      l = l1 ++ p :: l2
      /\ forall q, In q l1 -> occurrences q l < occurrences p l.

(** The count a tally holds for a pair, 0 when it holds none. *)
Fixpoint tally_count (p : Z * Z) (counts : DimCounts) : Z :=
  match counts with
  | [] => 0
  | (k, c) :: rest => if dim_eqb k p then c else tally_count p rest
  end.

(** A series of [n] files of which the file at index [i] is 64 by 64 when 5
    divides [i] and 256 by 256 otherwise. *)
Definition mixed_series (n : Z) : Files :=
  series n (fun i => if i mod 5 =? 0 then image_file 64 64 ∅
                     else image_file 256 256 ∅).

(** A run of decimal digits, and a non-empty one. *)
Fixpoint only_digits (s : string) : bool :=
  match s with
  | EmptyString => true
  | String c r => is_digit c && only_digits r
  end.

Definition all_digits (s : string) : bool :=
  negb (String.eqb s "") && only_digits s.

(** A mosaic file of 448 by 448 pixels with the given acquisition matrix
    and vendor matrix-size text. *)
Definition mosaic_with_matrix (acq : option (list Z)) (size : option string)
  : Dataset :=
  {| Rows := Some 448; Columns := Some 448;
     ImageType := ["ORIGINAL"; "PRIMARY"; "M"; "ND"; "MOSAIC"];
     AcquisitionMatrix := acq; ImagePositionPatient := None;
     PixelSpacing := None; InstanceNumber := None; tag_0020_9128 := None;
     MRAcquisitionType := None; StudyDescription := None;
     SeriesDate := None; SeriesTime := None;
     tag_0018_1312 := None; tag_0018_5100 := None;
     tag_0051_100b := size; tag_0051_1011 := None;
     data_elements := ∅ |}.

(** Two slices of a functional series whose instance numbers are 1 and 100,
    and four files of one at a single slice position, numbered 1 to 4. *)
Definition bold_description : gmap (N * N) DcmVal :=
  {[ SeriesDescription := DStr "BOLD resting" ]}.

Definition bold_two_slices : Files :=
  series 2 (fun i => slice_file (inject_Z i * (5 # 2))
                       (if i =? 0 then 1 else 100) bold_description).

Definition bold_four_volumes : Files :=
  series 4 (fun i => slice_file 0 (i + 1) bold_description).

(** A file whose series description holds a backslash, the value separator
    of its value representation: pydicom reads it as a [MultiValue] of two
    texts. *)
Definition two_valued_description : Dataset :=
  image_file 64 64
    {[ SeriesDescription := DMulti [DStr "T1"; DStr "MPRAGE"] ]}.

(** A value of [output_data]: a list of one value that is no list and no
    tuple. *)
Definition wrapped (kv : string * PyVal) : Prop :=
  exists v, snd kv = VList [v] /\ is_list_or_tuple v = false.

(** The file at index [idx], if it is one of the series and can be read,
    has no b-value that converts to a float. *)
Definition no_bvalue_at (float_of_text : string -> option Q) (fs : Files)
    (dicom_files : list string) (idx : Z) : Prop :=
  len dicom_files <= idx
  \/ match at_index dicom_files idx ≫= get_dicom fs with
     | Some ds_sample =>
         is_none (read_bvalue ds_sample) = true
         \/ py_float float_of_text (read_bvalue ds_sample) = None
     | None => True
     end.

(** The sources of the in-plane factor, each on its own, in the order of
    the source: the ['p'] text code, the standard attribute, the vendor
    private attributes A and B (not on a mosaic; B only without A), and the
    attributes of the two other vendors. *)
Definition inplane_source_element (ds : Dataset) (t : tag) : PyVal :=
  match element ds t with
  | Some val => if number_in_1_16 val then float_of_number val else VNone
  | None => VNone
  end.

Definition inplane_source_A (ds : Dataset) (is_mosaic : bool) : PyVal :=
  if is_mosaic then VNone else inplane_source_element ds private_A.

Definition inplane_source_B (ds : Dataset) (is_mosaic : bool) : PyVal :=
  if is_mosaic then VNone
  else match element ds private_A with
       | Some _ => VNone
       | None => inplane_source_element ds private_B
       end.

Definition inplane_by_priority (ds : Dataset) (is_mosaic : bool) : PyVal :=
  first_valid [ inplane_from_text ds;
                inplane_source_element ds (0x0018, 0x9158)%N;
                inplane_source_A ds is_mosaic;
                inplane_source_B ds is_mosaic;
                inplane_source_element ds (0x0043, 0x1083)%N;
                inplane_source_element ds (0x2001, 0x1008)%N ].

(** An in-plane factor is absent or a float between 1 and 16. *)
Definition valid_inplane (v : PyVal) : Prop :=
  v = VNone \/ exists q, v = VFloat q /\ (1 <= q)%Q /\ (q <= 16)%Q.

(** The columns of the summary table, in its order (lines 1097-1106 and
    1350-1359). *)
Definition essential_columns : list string :=
  [ "SeriesNumber"; "FolderName"; "SeriesDescription";
    "MRAcquisitionType"; "X_Dim"; "Y_Dim"; "Z_Dim"; "X_Voxel"; "Y_Voxel"; "Z_Voxel";
    "SliceGap"; "InversionTime"; "EchoTime";
    "RepetitionTime"; "FlipAngle"; "Position"; "StudyDescription";
    "SeriesAcqTime";
    "DiffusionBValue"; "NumberOfVolumes"; "NumberOfB0s";
    "MultibandFactor"; "InplaneAccelFactor";
    "PhaseEncodingDirection"; "NumberOfAverages"; "Bandwidth";
    "CoilName"; "SliceOrientation";
    "MagneticFieldStrength"; "PercentPhaseFOV"; "PercentSampling" ].

(** The columns of a row in the order [gather_info] writes them. *)
Definition row_columns : list string :=
  [ "SeriesNumber"; "FolderName"; "SeriesDescription"; "MRAcquisitionType";
    "X_Dim"; "Y_Dim"; "Z_Dim"; "X_Voxel"; "Y_Voxel"; "Z_Voxel"; "SliceGap";
    "InversionTime"; "EchoTime"; "RepetitionTime"; "FlipAngle"; "Position";
    "StudyDescription"; "SeriesAcqTime"; "DiffusionBValue"; "MultibandFactor";
    "InplaneAccelFactor"; "PhaseEncodingDirection"; "NumberOfAverages";
    "Bandwidth"; "CoilName"; "SliceOrientation"; "MagneticFieldStrength";
    "PercentPhaseFOV"; "PercentSampling"; "NumberOfVolumes"; "NumberOfB0s" ].

(** Characters of a text, for the statements about folder names. *)
Definition first_char (s : string) : option ascii :=
  match s with
  | EmptyString => None
  | String c _ => Some c
  end.

Fixpoint last_char (s : string) : option ascii :=
  match s with
  | EmptyString => None
  | String c EmptyString => Some c
  | String _ r => last_char r
  end.

(** No character at this end of a name, or one that [strip] keeps. *)
Definition kept_at_end (o : option ascii) : Prop :=
  match o with
  | None => True
  | Some c => char_in c " ." = false
  end.

Definition no_invalid_char (s : string) : Prop :=
  forall c, char_in c invalid_chars = true -> char_in c s = false.

(** How often a path was handed to [dcmread] through a cache, and how often
    it occurs in a list of paths. *)
Definition times_in (p : string) (l : list string) : nat :=
  length (filter (fun q => q = p) l).

Definition times_read (p : string) (c : DICOMCache) : nat :=
  times_in p (dcmread_calls c).

(** A directory entry for a file and one for a folder. *)
Definition file_entry (p : string) : Entry :=
  {| entry_path := p; entry_name := p; is_file := true; is_dir := false |}.

Definition dir_entry (p : string) : Entry :=
  {| entry_path := p; entry_name := p; is_file := false; is_dir := true |}.

(** A disk with the three slices and a short note in the folder [series] of
    the directory [base]. *)
Definition small_disk : Disk :=
  {| dicom_of := three_slices;
     getsize := list_to_map [("f0", 4096); ("f1", 4096); ("f2", 4096); ("note", 12)];
     iterdir := fun p =>
       if String.eqb p "base" then Listed [dir_entry "series"]
       else if String.eqb p "series" then
         Listed [file_entry "f0"; file_entry "note"; file_entry "f1"; file_entry "f2"]
       else Missing |}.

(** The folders [process_dicom_folders] goes through, the files found in
    one of them, and the folders in which some are found. *)
Definition folders_of (entries : list Entry) : list Entry :=
  filter (fun f => is_dir f = true /\ entry_name f ∉ ["."; ".."]) entries.

Definition dicom_files_in (d : Disk) (folder : Entry) : list string :=
  default [] (find_dicom_files d (entry_path folder) false).

Definition with_dicom_files (d : Disk) (folders : list Entry) : list Entry :=
  filter (fun f => dicom_files_in d f <> []) folders.

(** A folder that may not be listed. *)
Definition denied (d : Disk) (folder : Entry) : Prop :=
  iterdir d (entry_path folder) = Denied.

#[global] Instance denied_dec d folder : Decision (denied d folder).
Proof.
  unfold denied. destruct (iterdir d (entry_path folder));
    [right|left|right]; done.
Defined.

(** The tables after those of the given folders are saved, in this order. *)
Definition tables_saved (float_of_text : string -> option Q)
    (bval_beside : string -> option string) (d : Disk)
    (folders : list Entry) (csvs : Csvs) : Csvs :=
  fold_left
    (fun csvs f =>
       gather_info_saved float_of_text bval_beside d (dicom_files_in d f)
         (entry_name f) csvs)
    folders csvs.

(** * Properties *)

(** ** Dictionaries and the cleaning passes *)

Lemma dict_get_set_eq key v d : dict_get key (dict_set key v d) = Some v.
Proof.
  induction d as [|[k w] rest IH]; simpl.
  - by rewrite String.eqb_refl.
  - destruct (String.eqb k key) eqn:E; simpl; rewrite E; done.
Qed.

Lemma dict_get_set_ne key key' v d :
  key <> key' -> dict_get key (dict_set key' v d) = dict_get key d.
Proof.
  intros Hne. induction d as [|[k w] rest IH]; simpl.
  - destruct (String.eqb key' key) eqn:E; [|done].
    apply String.eqb_eq in E. congruence.
  - destruct (String.eqb k key') eqn:E; simpl.
    + apply String.eqb_eq in E. subst k.
      destruct (String.eqb key' key) eqn:E'; [|done].
      apply String.eqb_eq in E'. congruence.
    + destruct (String.eqb k key); done.
Qed.

Lemma dict_get_clean key d :
  dict_get key (clean d) =
  (fun v => clean_again (clean_value v)) <$> dict_get key d.
Proof.
  induction d as [|[k w] rest IH]; simpl; [done|].
  destruct (String.eqb k key); done.
Qed.

(** A value that is no list and no tuple passes both cleaning passes as it
    is. *)
Lemma clean_wrapped v :
  is_list_or_tuple v = false -> clean_again (clean_value (VList [v])) = v.
Proof.
  intros H. unfold clean_value. rewrite H. unfold clean_again. by rewrite H.
Qed.

Lemma py_not_list d : is_list_or_tuple (py d) = false.
Proof. by destruct d. Qed.

Lemma num_py_not_list n : is_list_or_tuple (num_py n) = false.
Proof. by destruct n. Qed.

Lemma make_frame_one d : make_frame d = [d].
Proof. reflexivity. Qed.

(** ** What [gather_info] writes *)

Section Row.

Variable float_of_text : string -> option Q.
Variable fs : Files.
Variable bval_file : option string.
Variable dicom_files : list string.
Variable folder_name : string.
Variable ds : Dataset.

Let volumes := resolve_volumes float_of_text fs bval_file dicom_files ds.
Let row := series_row float_of_text fs bval_file dicom_files folder_name ds.

Lemma build_output_Z_Dim z :
  dict_get "Z_Dim" (build_output fs dicom_files folder_name ds z) = Some (VList [z]).
Proof. unfold build_output. by destruct (resolve_dimensions fs dicom_files ds). Qed.

Lemma build_output_inplane z :
  dict_get "InplaneAccelFactor" (build_output fs dicom_files folder_name ds z)
  = Some (VList [inplane ds (detect_mosaic ds)]).
Proof. unfold build_output. by destruct (resolve_dimensions fs dicom_files ds). Qed.

Lemma build_output_multiband z :
  dict_get "MultibandFactor" (build_output fs dicom_files folder_name ds z)
  = Some (VList [multiband ds]).
Proof. unfold build_output. by destruct (resolve_dimensions fs dicom_files ds). Qed.

Lemma build_output_dims z :
  dict_get "Y_Dim" (build_output fs dicom_files folder_name ds z)
  = Some (VList [opt_int (fst (resolve_dimensions fs dicom_files ds))])
  /\ dict_get "X_Dim" (build_output fs dicom_files folder_name ds z)
  = Some (VList [opt_int (snd (resolve_dimensions fs dicom_files ds))]).
Proof. unfold build_output. by destruct (resolve_dimensions fs dicom_files ds). Qed.

(** A field other than the three volume fields is the cleaned value of
    [output_data]. *)
Lemma row_other_field key :
  key <> "NumberOfVolumes" -> key <> "NumberOfB0s" -> key <> "Z_Dim" ->
  dict_get key row =
  (fun v => clean_again (clean_value v)) <$>
    dict_get key (build_output fs dicom_files folder_name ds (z_dim_of volumes)).
Proof.
  intros H1 H2 H3. unfold row, series_row. rewrite dict_get_clean. f_equal.
  unfold add_volume_fields. fold volumes.
  destruct (is_diffusion_mri volumes); rewrite dict_get_set_ne by done;
    destruct (num_volumes volumes) as [nv|];
    repeat first [ rewrite dict_get_set_ne by done
                 | match goal with |- context [if ?b then _ else _] => destruct b end ];
    done.
Qed.

Lemma row_Z_Dim :
  dict_get "Z_Dim" row =
  Some (clean_again (clean_value
          (VList [final_z_dim (detect_mosaic ds) (len dicom_files) volumes]))).
Proof.
  unfold row, series_row. rewrite dict_get_clean. fold volumes.
  unfold add_volume_fields, final_z_dim.
  destruct (is_diffusion_mri volumes); rewrite dict_get_set_ne by done;
    (destruct (num_volumes volumes) as [nv|];
     [ destruct (num_gt nv 1), (detect_mosaic ds),
         (num_gt (floordiv (len dicom_files) nv) 0) |]);
    simpl;
    rewrite ?dict_get_set_eq, ?dict_get_set_ne, ?build_output_Z_Dim by done;
    done.
Qed.

Lemma row_NumberOfVolumes :
  dict_get "NumberOfVolumes" row = Some (final_num_volumes volumes).
Proof.
  unfold row, series_row. rewrite dict_get_clean. fold volumes.
  unfold add_volume_fields, final_num_volumes.
  destruct (is_diffusion_mri volumes); rewrite dict_get_set_ne by done;
    (destruct (num_volumes volumes) as [nv|];
     [ destruct (num_gt nv 1), (detect_mosaic ds),
         (num_gt (floordiv (len dicom_files) nv) 0) |]);
    simpl;
    repeat (rewrite dict_get_set_eq || rewrite dict_get_set_ne by done);
    simpl; try done; by destruct nv.
Qed.

Lemma row_NumberOfB0s :
  dict_get "NumberOfB0s" row =
  Some (if is_diffusion_mri volumes then opt_int (num_b0s volumes) else VNone).
Proof.
  unfold row, series_row. rewrite dict_get_clean. fold volumes.
  unfold add_volume_fields.
  destruct (is_diffusion_mri volumes); rewrite dict_get_set_eq; simpl; [|done].
  by destruct (num_b0s volumes).
Qed.

End Row.

(** A series with a first file that can be read is written as one row. *)
Lemma gather_info_emits float_of_text fs bval_file first rest folder_name ds :
  fs !! first = Some ds ->
  gather_info float_of_text fs bval_file (first :: rest) folder_name
  = Some [series_row float_of_text fs bval_file (first :: rest) folder_name ds].
Proof. intros H. unfold gather_info, get_dicom. by rewrite H, make_frame_one. Qed.

(** ** The slice count through the stages *)

Lemma from_files_z_dim float_of_text fs dicom_files description st v :
  z_dim_of (from_files float_of_text fs dicom_files description st v) = z_dim_of v.
Proof.
  unfold from_files. destruct (num_volumes v); [done|].
  destruct (len dicom_files <=? 1); [done|].
  destruct (0 <? card _).
  - by destruct (if len dicom_files <=? 500 then _ else _).
  - destruct description; try done.
    destruct (is_functional s); [|done].
    by destruct (functional_volumes fs dicom_files (z_dim_of v)) as [[?|]|].
Qed.

Lemma from_bval_file_mosaic float_of_text bval_file n z :
  z_dim_of (from_bval_file float_of_text bval_file true n z) = z.
Proof.
  unfold from_bval_file. destruct bval_file as [content|]; [|done].
  destruct (bval_values float_of_text content); [|done].
  simpl. by rewrite andb_false_r.
Qed.

Lemma from_bval_file_z_dim float_of_text bval_file is_mosaic n z :
  z_dim_of (from_bval_file float_of_text bval_file is_mosaic n z) = z
  \/ exists k, z_dim_of (from_bval_file float_of_text bval_file is_mosaic n z) = VInt k.
Proof.
  unfold from_bval_file. destruct bval_file as [content|]; [|by left].
  destruct (bval_values float_of_text content); [|by left].
  simpl. destruct (_ && _); [right; eauto | by left].
Qed.

Lemma base_z_dim_set z c n : is_none z = false -> base_z_dim z c n = z.
Proof. intros H. unfold base_z_dim. destruct c as [st []]; by rewrite H. Qed.

Lemma known_count_clean z :
  known_count z -> clean_again (clean_value (VList [z])) = z /\ z <> VNone.
Proof.
  intros [(d & Hd & ->)|[k ->]].
  - split; [apply clean_wrapped, py_not_list | by destruct d].
  - done.
Qed.

Lemma base_z_dim_known ds c n :
  known_count (base_z_dim (mosaic_z_dim ds (detect_mosaic ds)) c n).
Proof.
  unfold mosaic_z_dim, element.
  destruct (detect_mosaic ds), (data_elements ds !! (25%N, 4106%N)) as [d|] eqn:E;
    simpl; try rewrite E; simpl.
  - destruct d; try (left; eexists; split; [|by rewrite base_z_dim_set]; done).
    right. unfold base_z_dim. destruct c as [st []]; simpl; [eauto|].
    repeat match goal with |- context [if ?b then _ else _] => destruct b end; eauto.
  - right. unfold base_z_dim. destruct c as [st []]; simpl; [eauto|].
    repeat match goal with |- context [if ?b then _ else _] => destruct b end; eauto.
  - right. unfold base_z_dim. destruct c as [st []]; simpl; [eauto|].
    repeat match goal with |- context [if ?b then _ else _] => destruct b end; eauto.
  - right. unfold base_z_dim. destruct c as [st []]; simpl; [eauto|].
    repeat match goal with |- context [if ?b then _ else _] => destruct b end; eauto.
Qed.

Lemma final_z_dim_known is_mosaic n v :
  known_count (z_dim_of v) -> known_count (final_z_dim is_mosaic n v).
Proof.
  intros H. unfold final_z_dim. destruct (num_volumes v) as [nv|]; [|done].
  destruct (_ && _); [|done].
  destruct nv; simpl; [right; eauto|].
  left. eexists (DFloat _). done.
Qed.

Lemma resolve_volumes_known float_of_text fs bval_file dicom_files ds :
  known_count (z_dim_of (resolve_volumes float_of_text fs bval_file dicom_files ds)).
Proof.
  unfold resolve_volumes. rewrite from_files_z_dim.
  edestruct from_bval_file_z_dim as [->|[k ->]].
  - apply base_z_dim_known.
  - right; eauto.
Qed.

(** ** C1: the slice count of a mosaic series *)

(** C1, as stated, fails when the images-per-mosaic element is present but
    empty: its value is [None], the test [z_dim is None] of the sampling
    stage then holds, and the slice count is resolved from the files (here
    the file count, 1). *)
Lemma mosaic_empty_count_overwritten :
  let ds := mosaic_file 448 448 {[ images_in_mosaic := DNone ]} in
  empty_count_series !! "f0" = Some ds
  /\ detect_mosaic ds = true
  /\ element ds images_in_mosaic = Some VNone
  /\ exists row,
      gather_info plain_float empty_count_series None ["f0"] "s" = Some [row]
      /\ dict_get "Z_Dim" row = Some (VInt 1)
      /\ dict_get "Z_Dim" row <> element ds images_in_mosaic.
Proof.
  repeat split; try (vm_compute; reflexivity).
  eexists. repeat split; try (vm_compute; reflexivity).
  vm_compute. discriminate.
Qed.

(** C1 (amended): for a series whose first file is a mosaic and carries a
    non-null images-per-mosaic value, the row written has that value as
    [Z_Dim], whatever the sampling stage, the sibling b-value file and the
    number of volumes are. *)
Theorem mosaic_z_dim_preserved
    float_of_text fs bval_file first rest folder_name ds v :
  fs !! first = Some ds ->
  detect_mosaic ds = true ->
  data_elements ds !! images_in_mosaic = Some v ->
  v <> DNone ->
  exists row,
    gather_info float_of_text fs bval_file (first :: rest) folder_name = Some [row]
    /\ dict_get "Z_Dim" row = Some (py v)
    /\ z_dim_of (resolve_volumes float_of_text fs bval_file (first :: rest) ds) = py v.
Proof.
  intros Hfs Hm Hv Hne.
  assert (Hz : z_dim_of (resolve_volumes float_of_text fs bval_file (first :: rest) ds)
               = py v).
  { unfold resolve_volumes. rewrite from_files_z_dim, Hm, from_bval_file_mosaic.
    unfold mosaic_z_dim, element. unfold images_in_mosaic in Hv. rewrite Hv. simpl.
    apply base_z_dim_set. by destruct v. }
  eexists. split; [by apply gather_info_emits|]. split; [|done].
  rewrite row_Z_Dim. unfold final_z_dim. rewrite Hm, Hz.
  destruct (num_volumes _) as [nv|]; [destruct (num_gt nv 1)|]; cbn [andb negb];
    by rewrite clean_wrapped by apply py_not_list.
Qed.

(** An instance: a one-file mosaic series with 36 images per mosaic and a
    sibling b-value file of two values. *)
Lemma mosaic_z_dim_preserved_witness :
  exists row,
    gather_info plain_float mosaic_36_series (Some "0 1000") ["f0"] "s" = Some [row]
    /\ dict_get "Z_Dim" row = Some (VInt 36)
    /\ z_dim_of (resolve_volumes plain_float mosaic_36_series (Some "0 1000") ["f0"]
                   (mosaic_file 448 448 {[ images_in_mosaic := DInt 36 ]}))
       = VInt 36.
Proof.
  apply (mosaic_z_dim_preserved plain_float mosaic_36_series (Some "0 1000")
           "f0" [] "s" (mosaic_file 448 448 {[ images_in_mosaic := DInt 36 ]})
           (DInt 36)).
  - vm_compute; reflexivity.
  - reflexivity.
  - vm_compute; reflexivity.
  - discriminate.
Defined.

(** ** C10: the slice count is always assigned *)



(** ** C5: the in-plane factor of a mosaic series *)

Lemma element_same_except t t' d1 d2 :
  same_except t d1 d2 -> t' <> t -> element d1 t' = element d2 t'.
Proof.
  intros H Hne. unfold element. f_equal.
  assert (Hd : delete t (data_elements d1) !! t' = delete t (data_elements d2) !! t')
    by (by rewrite (proj2 (proj2 (proj2 (proj2 (proj2 (proj2 (proj2 (proj2 (proj2
          (proj2 (proj2 (proj2 (proj2 (proj2 (proj2 (proj2 H))))))))))))))))).
  by rewrite !lookup_delete_ne in Hd.
Qed.

(** Behind the mosaic guard neither private attribute is looked at. *)
Lemma inplane_from_private_mosaic ds x : inplane_from_private ds true x = x.
Proof. unfold inplane_from_private. cbn [negb]. by rewrite andb_false_r. Qed.

Lemma inplane_mosaic_same_except d1 d2 :
  same_except images_in_mosaic d1 d2 -> inplane d1 true = inplane d2 true.
Proof.
  intros H. unfold inplane. rewrite !inplane_from_private_mosaic.
  unfold inplane_from_element, inplane_from_text.
  rewrite (element_same_except _ (0x0018, 0x9158)%N _ _ H) by done.
  rewrite (element_same_except _ (0x0043, 0x1083)%N _ _ H) by done.
  rewrite (element_same_except _ (0x2001, 0x1008)%N _ _ H) by done.
  destruct H as (_ & _ & _ & _ & _ & _ & _ & _ & _ & _ & _ & _ & _ & _ & _ & -> & _).
  reflexivity.
Qed.

(** C5: on a mosaic series the element (0019,100A) is not a source of the
    in-plane factor.  Two runs over files that differ at most in the
    presence or the value of that element, the first file being a mosaic,
    write the same [InplaneAccelFactor]. *)
Theorem inplane_ignores_mosaic_count
    float_of_text fs1 fs2 bval_file first rest folder_name ds1 :
  same_files_except images_in_mosaic fs1 fs2 ->
  fs1 !! first = Some ds1 ->
  detect_mosaic ds1 = true ->
  exists row1 row2,
    gather_info float_of_text fs1 bval_file (first :: rest) folder_name = Some [row1]
    /\ gather_info float_of_text fs2 bval_file (first :: rest) folder_name = Some [row2]
    /\ dict_get "InplaneAccelFactor" row1 = dict_get "InplaneAccelFactor" row2.
Proof.
  intros Hsame Hfs Hm.
  pose proof (Hsame first) as H1. rewrite Hfs in H1.
  inversion H1 as [d1 ds2 Hd Heq1 Heq2|]; subst. symmetry in Heq2.
  assert (Hm2 : detect_mosaic ds2 = true).
  { unfold detect_mosaic in *.
    by destruct Hd as (_ & _ & <- & _). }
  eexists _, _. split; [by apply gather_info_emits|].
  split; [by apply gather_info_emits|].
  rewrite !row_other_field by done. rewrite !build_output_inplane.
  rewrite Hm, Hm2. by rewrite (inplane_mosaic_same_except _ _ Hd).
Qed.

(** An instance: the same mosaic file with the text code ["p2"], once with the
    element (0019,100A) holding 4 and once without it. *)
Lemma inplane_ignores_mosaic_count_witness :
  exists row1 row2,
    gather_info plain_float
      {[ "f0" := mosaic_p2 {[ images_in_mosaic := DInt 4 ]} ]} None ["f0"] "s"
    = Some [row1]
    /\ gather_info plain_float {[ "f0" := mosaic_p2 ∅ ]} None ["f0"] "s"
       = Some [row2]
    /\ dict_get "InplaneAccelFactor" row1 = dict_get "InplaneAccelFactor" row2.
Proof.
  apply (inplane_ignores_mosaic_count plain_float
           {[ "f0" := mosaic_p2 {[ images_in_mosaic := DInt 4 ]} ]}
           {[ "f0" := mosaic_p2 ∅ ]} None "f0" [] "s"
           (mosaic_p2 {[ images_in_mosaic := DInt 4 ]})).
  - intros path. destruct (decide (path = "f0")) as [->|Hne].
    + rewrite !lookup_singleton_eq. constructor.
      repeat split.
    + rewrite !lookup_singleton_ne by done. constructor.
  - apply lookup_singleton_eq.
  - reflexivity.
Defined.

(** ** C8: the vendor private attribute B *)

(** C8, as stated, fails twice over.  On a mosaic series with nothing but
    B = 2, and on a plain series where A is present with the value 99 (out
    of range) beside B = 2, sources 1 to 3 yield nothing, B holds a number
    in [1,16], and yet no in-plane factor is written: B sits behind the
    mosaic guard and is the [elif] of A. *)
Lemma private_B_not_reached :
  let m := mosaic_file 448 448 {[ private_B := DInt 2 ]} in
  let p := image_file 64 64 (<[ private_A := DInt 99 ]> {[ private_B := DInt 2 ]}) in
  (detect_mosaic m = true
   /\ inplane_from_element m (0x0018, 0x9158)%N (inplane_from_text m) = VNone
   /\ element m private_B = Some (VInt 2) /\ number_in_1_16 (VInt 2) = true
   /\ exists row,
       gather_info plain_float (series 1 (fun _ => m)) None ["f0"] "s" = Some [row]
       /\ dict_get "InplaneAccelFactor" row = Some VNone)
  /\ (detect_mosaic p = false
      /\ inplane_from_element p (0x0018, 0x9158)%N (inplane_from_text p) = VNone
      /\ element p private_A = Some (VInt 99) /\ number_in_1_16 (VInt 99) = false
      /\ element p private_B = Some (VInt 2)
      /\ exists row,
          gather_info plain_float (series 1 (fun _ => p)) None ["f0"] "s" = Some [row]
          /\ dict_get "InplaneAccelFactor" row = Some VNone).
Proof.
  repeat split; try (vm_compute; reflexivity);
    eexists; split; vm_compute; reflexivity.
Qed.

Lemma number_in_range_float v :
  number_in_1_16 v = true ->
  is_none (float_of_number v) = false
  /\ is_list_or_tuple (float_of_number v) = false.
Proof. by destruct v. Qed.

Lemma inplane_from_element_set ds t x :
  is_none x = false -> inplane_from_element ds t x = x.
Proof.
  intros H. unfold inplane_from_element. rewrite H.
  by destruct (element ds t).
Qed.

Lemma inplane_not_list ds m : is_list_or_tuple (inplane ds m) = false.
Proof.
  assert (Ht : is_list_or_tuple (inplane_from_text ds) = false).
  { unfold inplane_from_text. destruct (tag_0051_1011 ds); [|done].
    destruct (_ && _); [|done]. destruct (py_int _); [|done].
    by destruct (_ && _). }
  assert (He : forall t x, is_list_or_tuple x = false ->
                           is_list_or_tuple (inplane_from_element ds t x) = false).
  { intros t x Hx. unfold inplane_from_element.
    destruct (element ds t) as [v|]; [|done].
    destruct (is_none x); [|done]. simpl.
    destruct (number_in_1_16 v) eqn:E; [|done].
    by apply number_in_range_float. }
  unfold inplane. apply He, He. unfold inplane_from_private.
  destruct (_ && _); [|by apply He].
  destruct (element ds _) as [v|].
  - destruct (number_in_1_16 v) eqn:E; [by apply number_in_range_float|by apply He].
  - destruct (element ds _) as [v|]; [|by apply He].
    destruct (number_in_1_16 v) eqn:E; [by apply number_in_range_float|by apply He].
Qed.

(** The row's in-plane factor is the value of the chain. *)
Lemma row_inplane float_of_text fs bval_file dicom_files folder_name ds :
  dict_get "InplaneAccelFactor"
    (series_row float_of_text fs bval_file dicom_files folder_name ds)
  = Some (inplane ds (detect_mosaic ds)).
Proof.
  rewrite row_other_field by done. rewrite build_output_inplane. simpl.
  f_equal. apply clean_wrapped, inplane_not_list.
Qed.

(** C8 (amended): when sources 1 and 2 yield nothing, the series is not a
    mosaic and private attribute A is absent, a numeric B in [1,16] is
    written as the in-plane factor.  On a mosaic series, or when A is
    present (whatever its value), B is not consulted: changing it changes
    nothing. *)
Theorem private_B_consulted_after_absent_A float_of_text bval_file folder_name :
  (forall fs first rest ds v,
      fs !! first = Some ds ->
      detect_mosaic ds = false ->
      inplane_from_element ds (0x0018, 0x9158)%N (inplane_from_text ds) = VNone ->
      data_elements ds !! private_A = None ->
      data_elements ds !! private_B = Some v ->
      number_in_1_16 (py v) = true ->
      exists row,
        gather_info float_of_text fs bval_file (first :: rest) folder_name = Some [row]
        /\ dict_get "InplaneAccelFactor" row = Some (float_of_number (py v)))
  /\ (forall d1 d2,
        same_except private_B d1 d2 ->
        detect_mosaic d1 = true \/ is_Some (data_elements d1 !! private_A) ->
        inplane d1 (detect_mosaic d1) = inplane d2 (detect_mosaic d2)).
Proof.
  split.
  - intros fs first rest ds v Hfs Hm H12 HA HB Hv.
    eexists. split; [by apply gather_info_emits|].
    rewrite row_inplane. f_equal. unfold inplane. rewrite H12, Hm.
    unfold inplane_from_private, element. unfold private_A, private_B in *.
    rewrite HA, HB. simpl. rewrite Hv.
    pose proof (proj1 (number_in_range_float _ Hv)) as Hn.
    rewrite (inplane_from_element_set ds (0x0043, 0x1083)%N _ Hn).
    by rewrite (inplane_from_element_set ds (0x2001, 0x1008)%N _ Hn).
  - intros d1 d2 H Hc.
    assert (Hm : detect_mosaic d2 = detect_mosaic d1).
    { unfold detect_mosaic. by destruct H as (_ & _ & <- & _). }
    rewrite Hm. unfold inplane.
    assert (Ht : inplane_from_text d1 = inplane_from_text d2).
    { unfold inplane_from_text.
      by destruct H as (_ & _ & _ & _ & _ & _ & _ & _ & _ & _ & _ & _ & _ & _ & _ & -> & _). }
    assert (He : forall t x, t <> private_B ->
                   inplane_from_element d1 t x = inplane_from_element d2 t x).
    { intros t x Hne. unfold inplane_from_element.
      by rewrite (element_same_except _ _ _ _ H Hne). }
    rewrite Ht, (He (0x2001, 0x1008)%N), (He (0x0043, 0x1083)%N),
      (He (0x0018, 0x9158)%N) by done.
    do 2 f_equal.
    destruct Hc as [Hc|[a Ha]].
    + by rewrite Hc, !inplane_from_private_mosaic.
    + unfold inplane_from_private.
      rewrite <- (element_same_except private_B (0x0019, 0x100A)%N d1 d2 H) by done.
      unfold element at 1 3. unfold private_A in Ha. by rewrite Ha.
Qed.

(** An instance: a plain file whose only acceleration element is B = 2. *)
Lemma private_B_consulted_after_absent_A_witness :
  exists row,
    gather_info plain_float
      (series 1 (fun _ => image_file 64 64 {[ private_B := DInt 2 ]}))
      None ["f0"] "s" = Some [row]
    /\ dict_get "InplaneAccelFactor" row = Some (VFloat (inject_Z 2)).
Proof.
  apply (proj1 (private_B_consulted_after_absent_A plain_float None "s")
           (series 1 (fun _ => image_file 64 64 {[ private_B := DInt 2 ]}))
           "f0" [] (image_file 64 64 {[ private_B := DInt 2 ]}) (DInt 2));
    vm_compute; reflexivity.
Defined.

(** ** C4: the multiband factor *)

Lemma multiband_from_header_sources ds :
  multiband_from_header ds
  = first_valid [source_ucMultiSliceMode ds; source_lMultiBandFactor ds].
Proof.
  unfold multiband_from_header, source_ucMultiSliceMode, source_lMultiBandFactor.
  destruct (element ds _) as [[]|]; try done.
  simpl. destruct (is_none (header_field "sKSpace.ucMultiSliceMode" b)); [|done].
  by destruct (header_field _ b).
Qed.

Lemma multiband_from_standard_source ds x :
  multiband_from_standard ds x
  = if is_none x then source_out_of_plane ds else x.
Proof.
  unfold multiband_from_standard, source_out_of_plane.
  destruct (element ds _) as [val|]; destruct x; try done; simpl.
  all: by destruct (number_ge_1 val).
Qed.

Lemma multiband_from_text_source ds x :
  multiband_from_text ds x = if is_none x then source_text_code ds else x.
Proof.
  unfold multiband_from_text, source_text_code.
  destruct (tag_0051_1011 ds) as [t|]; destruct x; try done; simpl.
  all: destruct (_ && _); [|done]; destruct (py_int _) as [val|]; [|done];
    by destruct (1 <=? val).
Qed.

Lemma multiband_from_array_source ds x :
  multiband_from_array ds x = if is_none x then source_numeric_array ds else x.
Proof.
  unfold multiband_from_array, source_numeric_array.
  destruct (element ds _) as [p|]; destruct x; try done; simpl.
  all: destruct (truthy p); [|done]; by destruct (number_ge_1 _).
Qed.

Lemma first_valid_snoc l x :
  (if is_none (first_valid l) then x else first_valid l) = first_valid (l ++ [x]).
Proof.
  induction l as [|a l IH]; simpl.
  - by destruct x.
  - destruct (is_none a) eqn:E; [apply IH | by rewrite E].
Qed.

(** The chain of the source is the priority list. *)
Lemma multiband_is_priority ds : multiband ds = multiband_by_priority ds.
Proof.
  unfold multiband, multiband_by_priority.
  rewrite multiband_from_array_source, multiband_from_text_source,
    multiband_from_standard_source, multiband_from_header_sources.
  by rewrite !first_valid_snoc.
Qed.

Lemma valid_header_field field csa : valid_factor (header_field field csa).
Proof.
  unfold header_field. destruct (search_assignment field csa) as [d|]; [|by left].
  destruct (1 <=? digits_value d 0) eqn:E; [|by left].
  right. eexists. split; [done|].
  apply Z.leb_le in E. unfold Qle. simpl. lia.
Qed.

Lemma valid_float_of_number v :
  number_ge_1 v = true -> valid_factor (float_of_number v).
Proof.
  unfold number_ge_1. destruct v; try done; simpl; intros H;
    apply Qle_bool_iff in H; right; eauto.
Qed.

Lemma valid_first_valid l : Forall valid_factor l -> valid_factor (first_valid l).
Proof.
  induction 1 as [|x l Hx _ IH]; simpl; [by left|].
  by destruct (is_none x).
Qed.

Lemma valid_multiband ds : valid_factor (multiband_by_priority ds).
Proof.
  apply valid_first_valid.
  repeat match goal with
         | |- Forall _ (_ :: _) => constructor
         | |- Forall _ [] => constructor
         end.
  - unfold source_ucMultiSliceMode.
    destruct (element ds _) as [[]|]; try (by left). apply valid_header_field.
  - unfold source_lMultiBandFactor.
    destruct (element ds _) as [[]|]; try (by left). apply valid_header_field.
  - unfold source_out_of_plane. destruct (element ds _) as [v|]; [|by left].
    destruct (number_ge_1 v) eqn:E; [by apply valid_float_of_number|by left].
  - unfold source_text_code. destruct (tag_0051_1011 ds); [|by left].
    destruct (_ && _); [|by left]. destruct (py_int _) as [val|]; [|by left].
    destruct (1 <=? val) eqn:E; [|by left].
    right. eexists. split; [done|]. apply Z.leb_le in E. unfold Qle. simpl. lia.
  - unfold source_numeric_array. destruct (element ds _) as [p|]; [|by left].
    destruct (truthy p); [|by left].
    destruct (number_ge_1 _) eqn:E; [by apply valid_float_of_number|by left].
Qed.



(** ** C3: the consensus of the sampled dimensions *)

Lemma dim_eqb_eq a b : dim_eqb a b = true <-> a = b.
Proof.
  destruct a as [a1 a2], b as [b1 b2]. unfold dim_eqb. simpl.
  rewrite andb_true_iff, !Z.eqb_eq. split; [intros [-> ->]; done|].
  by intros [= -> ->].
Qed.

Lemma dim_eqb_refl a : dim_eqb a a = true.
Proof. by apply dim_eqb_eq. Qed.

Lemma dim_eqb_neq a b : dim_eqb a b = false <-> a <> b.
Proof.
  split.
  - intros H Hab. apply dim_eqb_eq in Hab. congruence.
  - intros H. destruct (dim_eqb a b) eqn:E; [|done]. by apply dim_eqb_eq in E.
Qed.

Lemma tally_file_pair fs dicom_files counts idx :
  tally_file fs dicom_files counts idx =
  match sampled_pair fs dicom_files idx with
  | Some p => count_dim p counts
  | None => counts
  end.
Proof.
  unfold tally_file, sampled_pair.
  destruct (len dicom_files <=? idx); [done|].
  destruct (at_index dicom_files idx ≫= get_dicom fs) as [d|]; [|done].
  destruct (Rows d), (Columns d); try done.
  by destruct (_ && _).
Qed.

Lemma tally_of_pairs fs dicom_files idxs acc :
  fold_left (tally_file fs dicom_files) idxs acc =
  fold_left (fun counts p => count_dim p counts)
            (omap (sampled_pair fs dicom_files) idxs) acc.
Proof.
  revert acc. induction idxs as [|idx idxs IH]; intros acc; [done|].
  simpl. rewrite tally_file_pair.
  destruct (sampled_pair fs dicom_files idx); simpl; apply IH.
Qed.

Section Tally.

Implicit Types (p q : Z * Z) (l : list (Z * Z)) (counts : DimCounts).

Let add counts p := count_dim p counts.
Let keys counts := map fst counts.

Lemma occurrences_nonneg p l : 0 <= occurrences p l.
Proof. induction l as [|y l IH]; simpl; [done|]. destruct (dim_eqb y p); lia. Qed.

Lemma tally_count_add p x counts :
  tally_count p (count_dim x counts)
  = tally_count p counts + (if dim_eqb x p then 1 else 0).
Proof.
  induction counts as [|[k c] rest IH]; simpl.
  - destruct (dim_eqb x p); lia.
  - destruct (dim_eqb k x) eqn:E; simpl.
    + apply dim_eqb_eq in E. subst k. destruct (dim_eqb x p); lia.
    + destruct (dim_eqb k p) eqn:E'; [|done].
      apply dim_eqb_eq in E'. subst k.
      destruct (dim_eqb x p) eqn:E2; [|lia].
      apply dim_eqb_eq in E2. subst x. by rewrite dim_eqb_refl in E.
Qed.

Lemma tally_count_fold p l counts :
  tally_count p (fold_left add l counts) = tally_count p counts + occurrences p l.
Proof.
  revert counts. induction l as [|x l IH]; intros counts; simpl; [lia|].
  rewrite IH. unfold add. rewrite tally_count_add. lia.
Qed.

Lemma keys_add x counts :
  keys (count_dim x counts)
  = if decide (x ∈ keys counts) then keys counts else keys counts ++ [x].
Proof.
  unfold keys. induction counts as [|[k c] rest IH].
  - destruct (decide (x ∈ map fst [])) as [H|H]; [by apply elem_of_nil in H|done].
  - cbn [count_dim]. destruct (dim_eqb k x) eqn:E.
    + apply dim_eqb_eq in E. subst k.
      destruct (decide (x ∈ map fst ((x, c) :: rest))) as [H|H]; [done|].
      exfalso. apply H. by left.
    + apply dim_eqb_neq in E. cbn [map fst]. rewrite IH.
      destruct (decide (x ∈ map fst rest)) as [Hin|Hnin];
        destruct (decide (x ∈ k :: map fst rest)) as [Hin'|Hnin']; try done.
      * exfalso. apply Hnin'. by right.
      * apply elem_of_cons in Hin' as [?|?]; congruence.
Qed.

Lemma keys_add_prefix x counts : exists tl, keys (count_dim x counts) = keys counts ++ tl.
Proof.
  rewrite keys_add. destruct (decide _); [exists []; by rewrite app_nil_r | eauto].
Qed.

Lemma keys_fold_prefix l counts :
  exists tl, keys (fold_left add l counts) = keys counts ++ tl.
Proof.
  revert counts. induction l as [|x l IH]; intros counts; simpl.
  - exists []. by rewrite app_nil_r.
  - destruct (IH (add counts x)) as [tl ->].
    destruct (keys_add_prefix x counts) as [tl' Htl]. unfold add. rewrite Htl.
    exists (tl' ++ tl). by rewrite app_assoc.
Qed.

Lemma nodup_keys_add x counts :
  NoDup (keys counts) -> NoDup (keys (count_dim x counts)).
Proof.
  intros H. rewrite keys_add. destruct (decide _); [done|].
  apply NoDup_app. repeat split; [done| |apply NoDup_singleton].
  intros y Hy ->%list_elem_of_singleton. done.
Qed.

Lemma nodup_keys_fold l counts :
  NoDup (keys counts) -> NoDup (keys (fold_left add l counts)).
Proof.
  revert counts. induction l as [|x l IH]; intros counts H; simpl; [done|].
  by apply IH, nodup_keys_add.
Qed.

(** An entry of a tally without repeated keys holds the count of its key. *)
Lemma tally_count_entry p c counts :
  NoDup (keys counts) -> (p, c) ∈ counts -> tally_count p counts = c.
Proof.
  induction counts as [|[k c'] rest IH]; simpl; intros Hnd Hin.
  - by apply elem_of_nil in Hin.
  - apply NoDup_cons in Hnd as [Hk Hnd].
    apply elem_of_cons in Hin as [[= <- <-]|Hin].
    + by rewrite dim_eqb_refl.
    + destruct (dim_eqb k p) eqn:E; [|by apply IH].
      apply dim_eqb_eq in E. subst k. exfalso. apply Hk.
      apply list_elem_of_fmap. by exists (p, c).
Qed.

(** The keys stand in the order in which the pairs were first met. *)
Lemma keys_fold_order p l counts k1 k2 :
  p ∉ keys counts ->
  keys (fold_left add l counts) = k1 ++ p :: k2 ->
  exists l1 l2, l = l1 ++ p :: l2 /\ forall q, In q l1 -> q ∈ k1.
Proof.
  revert counts. induction l as [|x l IH]; intros counts Hp Hk; simpl in Hk.
  - exfalso. apply Hp. rewrite Hk. apply elem_of_app. right. by left.
  - destruct (decide (x = p)) as [->|Hne].
    { exists [], l. split; [done|]. by intros q []. }
    assert (Hp' : p ∉ keys (add counts x)).
    { unfold add. rewrite keys_add. destruct (decide _); [done|].
      intros [?|?%list_elem_of_singleton]%elem_of_app; congruence. }
    destruct (IH _ Hp' Hk) as (l1 & l2 & Hl & Hl1).
    exists (x :: l1), l2. split; [by rewrite Hl|].
    intros q [<-|Hq]; [|by apply Hl1].
    (* the key of x is in the tally before p is *)
    assert (Hx : x ∈ keys (add counts x)).
    { unfold add. rewrite keys_add. destruct (decide _); [done|].
      apply elem_of_app. right. by left. }
    destruct (keys_fold_prefix l (add counts x)) as [tl Htl].
    rewrite Htl in Hk.
    clear -Hk Hx Hp' Hne.
    revert k1 Hk. induction (keys (add counts x)) as [|y ys IHys]; intros k1 Hk.
    + by apply elem_of_nil in Hx.
    + destruct k1 as [|z k1]; simpl in Hk.
      * injection Hk as -> _. exfalso. apply Hp'. by left.
      * injection Hk as -> Hk. apply elem_of_cons in Hx as [->|Hx]; [by left|].
        right. apply IHys; try done.
        intros H. apply Hp'. by right.
Qed.

(** The item [max] picks: the first of those with the largest count. *)
Lemma first_max_split (rest before after : DimCounts) best :
  (forall y, y ∈ before -> snd y < snd best) ->
  (forall y, y ∈ after -> snd y <= snd best) ->
  exists c1 c2,
    before ++ best :: after ++ rest
    = c1 ++ fold_left (fun b y => if snd b <? snd y then y else b) rest best :: c2
    /\ (forall y, y ∈ c1 ->
          snd y < snd (fold_left (fun b y => if snd b <? snd y then y else b) rest best))
    /\ (forall y, y ∈ c2 ->
          snd y <= snd (fold_left (fun b y => if snd b <? snd y then y else b) rest best)).
Proof.
  revert before after best.
  induction rest as [|y rest IH]; intros before after best Hb Ha; simpl.
  - exists before, after. by rewrite app_nil_r.
  - destruct (snd best <? snd y) eqn:E.
    + apply Z.ltb_lt in E.
      destruct (IH (before ++ best :: after) [] y) as (c1 & c2 & Heq & H1 & H2).
      * intros z Hz. apply elem_of_app in Hz as [Hz|Hz];
          [specialize (Hb z Hz); lia|].
        apply elem_of_cons in Hz as [->|Hz]; [lia|].
        specialize (Ha z Hz). lia.
      * by intros z ?%elem_of_nil.
      * exists c1, c2. split; [|done]. rewrite <- Heq. by rewrite <- !app_assoc.
    + apply Z.ltb_ge in E.
      destruct (IH before (after ++ [y]) best) as (c1 & c2 & Heq & H1 & H2).
      * done.
      * intros z Hz. apply elem_of_app in Hz as [Hz|Hz]; [by apply Ha|].
        apply list_elem_of_singleton in Hz as ->. done.
      * exists c1, c2. split; [|done]. rewrite <- Heq. by rewrite <- !app_assoc.
Qed.

(** The most common pair of a tally of [l] is the first mode of [l]. *)
Lemma most_common_first_mode l :
  match most_common_dim (fold_left add l []) with
  | Some p => first_mode p l
  | None => l = []
  end.
Proof.
  destruct (fold_left add l []) as [|best rest] eqn:Ht; simpl.
  - destruct l as [|x l]; [done|]. exfalso.
    assert (H : tally_count x (fold_left add (x :: l) []) = 0) by by rewrite Ht.
    rewrite tally_count_fold in H. simpl in H. rewrite dim_eqb_refl in H.
    pose proof (occurrences_nonneg x l). lia.
  - destruct (first_max_split rest [] [] best) as (c1 & c2 & Heq & H1 & H2);
      [by intros ? ?%elem_of_nil..|].
    simpl in Heq. set (w := fold_left _ rest best) in *.
    assert (Hnd : NoDup (keys (best :: rest))).
    { rewrite <- Ht. apply nodup_keys_fold. constructor. }
    assert (Hcount : forall q c, (q, c) ∈ best :: rest -> c = occurrences q l).
    { intros q c Hin. rewrite <- (tally_count_entry q c _ Hnd Hin).
      rewrite <- Ht, tally_count_fold. done. }
    assert (Hw : w ∈ best :: rest).
    { rewrite Heq. apply elem_of_app. right. by left. }
    destruct w as [p c] eqn:Ew. simpl in *.
    pose proof (Hcount p c Hw) as Hc.
    assert (Hle : forall q c', (q, c') ∈ best :: rest -> c' <= c).
    { intros q c' Hin. rewrite Heq in Hin.
      apply elem_of_app in Hin as [Hin|Hin].
      - specialize (H1 _ Hin). simpl in H1. lia.
      - apply elem_of_cons in Hin as [Hin|Hin].
        + injection Hin as -> ->. lia.
        + specialize (H2 _ Hin). done. }
    split.
    + intros q.
      destruct (decide (q ∈ keys (best :: rest))) as [Hin|Hnin].
      * apply list_elem_of_fmap in Hin as [[q' c'] [-> Hin]]. simpl.
        rewrite <- (Hcount _ _ Hin), <- Hc. by eapply Hle.
      * assert (H0 : occurrences q l = 0).
        { pose proof (tally_count_fold q l []) as Hf. rewrite Ht in Hf.
          change (tally_count q []) with 0 in Hf.
          assert (Hz : tally_count q (best :: rest) = 0); [|lia].
          clear -Hnin.
          induction (best :: rest) as [|[k c'] r IHr]; [done|]. simpl.
          destruct (dim_eqb k q) eqn:E.
          - apply dim_eqb_eq in E. subst k. exfalso. apply Hnin. by left.
          - apply IHr. intros H. apply Hnin. by right. }
        rewrite H0. apply occurrences_nonneg.
    + assert (Hk : keys (fold_left add l []) = keys c1 ++ p :: keys c2).
      { rewrite Ht, Heq. unfold keys. by rewrite map_app. }
      destruct (keys_fold_order p l [] _ _ ltac:(by intros ?%elem_of_nil) Hk)
        as (l1 & l2 & -> & Hl1).
      exists l1, l2. split; [done|]. intros q Hq.
      specialize (Hl1 q Hq). apply list_elem_of_fmap in Hl1 as [[q' c'] [-> Hin]].
      simpl. specialize (H1 _ Hin). simpl in H1.
      assert (Hin' : (q', c') ∈ best :: rest).
      { rewrite Heq. apply elem_of_app. by left. }
      rewrite <- (Hcount _ _ Hin'), <- Hc. done.
Qed.

End Tally.

Lemma occurrences_three a b c l :
  a <> b -> a <> c -> b <> c ->
  occurrences a l + occurrences b l + occurrences c l <= len l.
Proof.
  intros Hab Hac Hbc. unfold len. induction l as [|x l IH]; simpl length; [done|].
  rewrite Nat2Z.inj_succ. cbn [occurrences].
  destruct (dim_eqb x a) eqn:Ea, (dim_eqb x b) eqn:Eb, (dim_eqb x c) eqn:Ec;
    repeat match goal with
           | H : dim_eqb _ _ = true |- _ => apply dim_eqb_eq in H
           end;
    try congruence; lia.
Qed.

Lemma sampled_pairs_reasonable fs dicom_files r c :
  In (r, c) (sampled_pairs fs dicom_files) -> is_reasonable r c = true.
Proof.
  intros H. apply list_elem_of_In in H. unfold sampled_pairs in H.
  apply list_elem_of_omap in H as (idx & _ & H).
  unfold sampled_pair in H.
  destruct (len dicom_files <=? idx); [done|].
  destruct (at_index dicom_files idx ≫= get_dicom fs) as [d|]; [|done].
  destruct (Rows d), (Columns d); try done.
  destruct (_ && _) eqn:E; [|done]. injection H as -> ->.
  by apply andb_true_iff in E as [_ E].
Qed.

(** The sample index is computed on floats: with 502 files and 100
    samples, the index of sample 50 is 250, one below the exact quotient
    [50 * 502 / 100 = 251]. *)
Lemma spaced_index_rounds_down :
  spaced_index 502 100 50 = 250 /\ 50 * 502 / 100 = 251.
Proof. split; reflexivity. Qed.

Lemma len_range n : 0 <= n -> len (range n) = n.
Proof. intros H. unfold len, range. rewrite length_map, length_seq. lia. Qed.



(** ** C2: the volume count from the sibling b-value file *)

(** C2, as stated, fails for a b-value file with a single value: the count
    of values is 1, and the row carries no [NumberOfVolumes], which is
    written only when it exceeds 1. *)
Lemma single_bvalue_not_written :
  detect_mosaic (image_file 64 64 ∅) = false
  /\ bval_values plain_float "0" = Some [0%Q]
  /\ exists row,
      gather_info plain_float (series 2 (fun _ => image_file 64 64 ∅))
        (Some "0") (paths 2) "s" = Some [row]
      /\ dict_get "NumberOfVolumes" row = Some VNone
      /\ dict_get "NumberOfVolumes" row <> Some (VInt (len [0%Q])).
Proof.
  repeat split; try (vm_compute; reflexivity).
  eexists. repeat split; try (vm_compute; reflexivity).
  vm_compute. discriminate.
Qed.

Lemma resolve_volumes_bval float_of_text fs content dicom_files ds values :
  bval_values float_of_text content = Some values ->
  let v := resolve_volumes float_of_text fs (Some content) dicom_files ds in
  num_volumes v = Some (NInt (len values))
  /\ num_b0s v = Some (len (filter (fun b => Qeq_bool b 0) values))
  /\ is_diffusion_mri v = true.
Proof.
  intros Hv. unfold resolve_volumes, from_bval_file. rewrite Hv.
  unfold from_files. simpl. done.
Qed.

(** C2 (amended): for a series that is not a mosaic, with a sibling b-value
    file of numeric values, the row has [NumberOfVolumes] equal to the
    count of values when that count exceeds 1 (no value otherwise),
    [NumberOfB0s] equal to the count of zero values, the series is marked
    diffusion, and, when the count exceeds 1 and [file_count // count] is
    positive, [Z_Dim] is that quotient; the values
    [0, 0, 1000, 1000, 2000, 2000] with 60 files give 6, 2 and 10. *)
Theorem volumes_from_bval_file
    float_of_text fs content first rest folder_name ds values :
  fs !! first = Some ds ->
  detect_mosaic ds = false ->
  bval_values float_of_text content = Some values ->
  let dicom_files := first :: rest in
  let n := len dicom_files in
  let nv := len values in
  exists row,
    gather_info float_of_text fs (Some content) dicom_files folder_name = Some [row]
    /\ dict_get "NumberOfVolumes" row = Some (if 1 <? nv then VInt nv else VNone)
    /\ dict_get "NumberOfB0s" row
       = Some (VInt (len (filter (fun b => Qeq_bool b 0) values)))
    /\ is_diffusion_mri
         (resolve_volumes float_of_text fs (Some content) dicom_files ds) = true
    /\ (1 < nv -> 0 < n / nv -> dict_get "Z_Dim" row = Some (VInt (n / nv)))
    /\ (values = [0; 0; 1000; 1000; 2000; 2000]%Q -> n = 60 ->
        dict_get "NumberOfVolumes" row = Some (VInt 6)
        /\ dict_get "NumberOfB0s" row = Some (VInt 2)
        /\ dict_get "Z_Dim" row = Some (VInt 10)).
Proof.
  intros Hfs Hm Hv dicom_files n nv.
  destruct (resolve_volumes_bval float_of_text fs content dicom_files ds values Hv)
    as (Hnv & Hb0 & Hd).
  assert (HV : dict_get "NumberOfVolumes"
                 (series_row float_of_text fs (Some content) dicom_files folder_name ds)
               = Some (if 1 <? nv then VInt nv else VNone)).
  { rewrite row_NumberOfVolumes. unfold final_num_volumes. by rewrite Hnv. }
  assert (HB : dict_get "NumberOfB0s"
                 (series_row float_of_text fs (Some content) dicom_files folder_name ds)
               = Some (VInt (len (filter (fun b => Qeq_bool b 0) values)))).
  { rewrite row_NumberOfB0s. by rewrite Hd, Hb0. }
  assert (HZ : 1 < nv -> 0 < n / nv ->
               dict_get "Z_Dim"
                 (series_row float_of_text fs (Some content) dicom_files folder_name ds)
               = Some (VInt (n / nv))).
  { intros H1 H2. rewrite row_Z_Dim. unfold final_z_dim. rewrite Hnv, Hm.
    fold n nv. cbn [num_gt floordiv negb].
    apply Z.ltb_lt in H1, H2. rewrite H1, H2. done. }
  exists (series_row float_of_text fs (Some content) dicom_files folder_name ds).
  split; [by apply gather_info_emits|].
  split; [done|]. split; [done|]. split; [done|]. split; [done|].
  intros -> Hn. rewrite HV, HB, HZ; subst nv; rewrite ?Hn; done.
Qed.

(** An instance: 60 plain files beside the six b-values of the claim. *)
Lemma volumes_from_bval_file_witness :
  exists row,
    gather_info plain_float (series 60 (fun _ => image_file 64 64 ∅))
      (Some "0 0 1000 1000 2000 2000") (paths 60) "s" = Some [row]
    /\ dict_get "NumberOfVolumes" row = Some (VInt 6)
    /\ dict_get "NumberOfB0s" row = Some (VInt 2)
    /\ dict_get "Z_Dim" row = Some (VInt 10).
Proof.
  destruct (volumes_from_bval_file plain_float
              (series 60 (fun _ => image_file 64 64 ∅))
              "0 0 1000 1000 2000 2000" "f0" (tl (paths 60)) "s"
              (image_file 64 64 ∅) [0; 0; 1000; 1000; 2000; 2000]%Q
              eq_refl eq_refl eq_refl)
    as (row & Hrow & _ & _ & _ & _ & Hex).
  exists row. split; [exact Hrow | exact (Hex eq_refl eq_refl)].
Defined.

(** ** C7: the fallback of the mosaic corrector *)


Lemma digit_char c :
  is_digit c = true ->
  is_space c = false /\ Ascii.eqb c "p" = false /\ Ascii.eqb c "*" = false
  /\ Ascii.eqb c "+" = false /\ Ascii.eqb c "-" = false.
Proof.
  destruct c as [[] [] [] [] [] [] [] []]; vm_compute; intros H;
    first [discriminate H | repeat split].
Qed.

Lemma append_cons c r s : (String c r ++ s)%string = String c (r ++ s)%string.
Proof. reflexivity. Qed.

Lemma append_empty s : ("" ++ s)%string = s.
Proof. reflexivity. Qed.

Lemma rev_string_twice s a b :
  rev_string (rev_string s a) b = rev_string a (s ++ b)%string.
Proof.
  revert a b. induction s as [|c r IH]; intros a b; simpl; [done|].
  by rewrite IH, append_cons.
Qed.

Lemma rev_string_involutive s : rev_string (rev_string s "") "" = s.
Proof.
  rewrite rev_string_twice. cbn [rev_string].
  induction s as [|c r IH]; [done|]. by rewrite append_cons, IH.
Qed.

Lemma rev_string_head_digit s a :
  only_digits s = true ->
  s <> EmptyString \/ (exists c r, a = String c r /\ is_digit c = true) ->
  exists c r, rev_string s a = String c r /\ is_digit c = true.
Proof.
  revert a. induction s as [|c r IH]; intros a Hd Hs; simpl.
  - by destruct Hs as [?|?].
  - simpl in Hd. apply andb_true_iff in Hd as [Hc Hr].
    apply IH; [done|]. right. eauto.
Qed.

Lemma span_head_not p c r : p c = false -> span p (String c r) = ("", String c r).
Proof. intros H. simpl. by rewrite H. Qed.

Lemma strip_digits s : all_digits s = true -> strip s = s.
Proof.
  unfold all_digits. intros [Hne Hd]%andb_true_iff.
  destruct s as [|c r]; [done|].
  pose proof Hd as Hd'. simpl in Hd'. apply andb_true_iff in Hd' as [Hc _].
  unfold strip. rewrite span_head_not by by apply digit_char.
  cbn [snd].
  destruct (rev_string_head_digit (String c r) "" Hd ltac:(by left))
    as (c' & r' & Hrev & Hc').
  rewrite Hrev, span_head_not by by apply digit_char.
  cbn [snd]. rewrite <- Hrev. apply rev_string_involutive.
Qed.

Lemma int_digits_only s acc b :
  only_digits s = true -> s <> EmptyString \/ b = true ->
  int_digits s acc b = Some (digits_value s acc).
Proof.
  revert acc b. induction s as [|c r IH]; intros acc b Hd Hs; simpl.
  - destruct Hs as [?| ->]; done.
  - simpl in Hd. apply andb_true_iff in Hd as [Hc Hr]. rewrite Hc.
    apply IH; [done|by right].
Qed.

(** [int] of a run of digits is the number the digits denote. *)
Lemma py_int_digits s : all_digits s = true -> py_int s = Some (digits_value s 0).
Proof.
  intros H. unfold py_int. rewrite (strip_digits s H).
  apply andb_true_iff in H as [Hne Hd].
  destruct s as [|c r]; [done|].
  pose proof Hd as Hd'. simpl in Hd'. apply andb_true_iff in Hd' as [Hc _].
  destruct (digit_char c Hc) as (_ & _ & _ & Hplus & Hminus).
  transitivity (int_digits (String c r) 0 false).
  - destruct c as [[] [] [] [] [] [] [] []]; try done.
  - apply int_digits_only; [done|by left].
Qed.

Lemma contains_size_text sn sm : contains "p*" (sn ++ "p*" ++ sm)%string = true.
Proof.
  induction sn as [|c r IH]; [done|].
  rewrite append_cons. cbn [contains]. rewrite IH. apply orb_true_r.
Qed.

Lemma remove_p_digits s : only_digits s = true -> remove_char "p" s = s.
Proof.
  induction s as [|c r IH]; simpl; [done|].
  intros [Hc Hr]%andb_true_iff.
  destruct (digit_char c Hc) as (_ & -> & _). by rewrite IH.
Qed.

Lemma remove_p_size_text sn sm :
  only_digits sn = true -> only_digits sm = true ->
  remove_char "p" (sn ++ "p*" ++ sm)%string = (sn ++ "*" ++ sm)%string.
Proof.
  intros Hn Hm. induction sn as [|c r IH].
  - rewrite !append_empty, append_cons. simpl. by rewrite remove_p_digits.
  - simpl in Hn. apply andb_true_iff in Hn as [Hc Hr].
    rewrite (append_cons c r). cbn [remove_char].
    destruct (digit_char c Hc) as (_ & -> & _). by rewrite IH.
Qed.

Lemma split_digits s : only_digits s = true -> split_on "*" s = [s].
Proof.
  induction s as [|c r IH]; simpl; [done|].
  intros [Hc Hr]%andb_true_iff.
  destruct (digit_char c Hc) as (_ & _ & -> & _). by rewrite IH.
Qed.

Lemma split_size_text sn sm :
  only_digits sn = true -> only_digits sm = true ->
  split_on "*" (sn ++ "*" ++ sm)%string = [sn; sm].
Proof.
  intros Hn Hm. induction sn as [|c r IH].
  - rewrite !append_empty, append_cons. simpl. by rewrite split_digits.
  - simpl in Hn. apply andb_true_iff in Hn as [Hc Hr].
    rewrite (append_cons c r). cbn [split_on].
    destruct (digit_char c Hc) as (_ & _ & -> & _). by rewrite IH.
Qed.



(** ** C9: the volume estimate of a functional series *)

(** C9, as stated, fails: the test of the source compares the number of
    distinct instance numbers with the slice count, not the largest
    instance number.  Two slices numbered 1 and 100 of a series described
    as BOLD have no b-value and no temporal position; the largest instance
    number, 100, exceeds the slice count, 2, and 100 // 2 = 50 exceeds 1;
    yet no [NumberOfVolumes] is written, for there are only 2 distinct
    instance numbers. *)
Lemma largest_instance_not_tested :
  let files := paths 2 in
  let ds := slice_file (inject_Z 0 * (5 # 2)) 1 bold_description in
  bold_two_slices !! "f0" = Some ds
  /\ card (fst (sampled_bvalues plain_float bold_two_slices files
                  (fst (collect plain_float bold_two_slices files)))) = 0
  /\ getattr ds SeriesDescription (VStr "") = VStr "BOLD resting"
  /\ is_functional "BOLD resting" = true
  /\ (exists inst temp,
        functional_sample bold_two_slices files = ((inst, temp), false)
        /\ card temp = 0 /\ card inst = 2 /\ set_max inst = Some 100)
  /\ z_dim_of (resolve_volumes plain_float bold_two_slices None files ds) = VInt 2
  /\ 1 < 100 / Z.max 1 2
  /\ exists row,
      gather_info plain_float bold_two_slices None files "s" = Some [row]
      /\ dict_get "NumberOfVolumes" row = Some VNone
      /\ dict_get "NumberOfVolumes" row <> Some (VInt (100 / Z.max 1 2)).
Proof.
  repeat split; try (vm_compute; reflexivity).
  - eexists _, _. repeat split; vm_compute; reflexivity.
  - eexists. repeat split; try (vm_compute; reflexivity).
    vm_compute. discriminate.
Qed.

(** C9 (amended): in a series of more than one file with no sibling b-value
    file, in which no sampled file has a b-value, whose description
    contains a functional-imaging keyword and which has fewer than 2
    distinct temporal positions: if the number of distinct collected
    instance numbers exceeds the slice count, the estimate is the largest
    instance number [// max(1, z_dim)], written as [NumberOfVolumes] only
    when it exceeds 1; otherwise no volume count is written. *)
Theorem functional_volume_estimate
    float_of_text fs first rest folder_name ds description inst temp z :
  let dicom_files := first :: rest in
  fs !! first = Some ds ->
  1 < len dicom_files ->
  card (fst (sampled_bvalues float_of_text fs dicom_files
               (fst (collect float_of_text fs dicom_files)))) = 0 ->
  getattr ds SeriesDescription (VStr "") = VStr description ->
  is_functional description = true ->
  functional_sample fs dicom_files = ((inst, temp), false) ->
  card temp < 2 ->
  z_dim_of (resolve_volumes float_of_text fs None dicom_files ds) = VInt z ->
  let max_instance := default (len dicom_files) (set_max inst) in
  let estimate := max_instance / Z.max 1 z in
  exists row,
    gather_info float_of_text fs None dicom_files folder_name = Some [row]
    /\ dict_get "NumberOfVolumes" row
       = Some (if (z <? card inst) && (1 <? estimate) then VInt estimate
               else VNone).
Proof.
  intros dicom_files Hfs Hn Hb Hdesc Hfun Hsample Htemp Hz max_instance estimate.
  exists (series_row float_of_text fs None dicom_files folder_name ds).
  split; [by apply gather_info_emits|].
  rewrite row_NumberOfVolumes. f_equal.
  unfold resolve_volumes in *. rewrite from_files_z_dim in Hz.
  unfold from_files. cbn [from_bval_file num_volumes z_dim_of] in *.
  replace (len dicom_files <=? 1) with false by (symmetry; apply Z.leb_gt; lia).
  rewrite Hb, Hdesc, Hfun. cbn [Z.ltb Z.compare].
  unfold functional_volumes. rewrite Hsample, Hz.
  replace (1 <? card temp) with false by (symmetry; apply Z.ltb_ge; lia).
  cbn [as_num int_gt max_1 floordiv num_gt].
  fold max_instance estimate.
  destruct (z <? card inst); [|done].
  destruct (1 <? estimate) eqn:E; [|done].
  unfold final_num_volumes. cbn [num_volumes num_gt num_py]. by rewrite E.
Qed.

(** An instance: four files of a BOLD series at one slice position, numbered
    1 to 4. *)
Lemma functional_volume_estimate_witness :
  exists row,
    gather_info plain_float bold_four_volumes None (paths 4) "s" = Some [row]
    /\ dict_get "NumberOfVolumes" row = Some (VInt 4).
Proof.
  apply (functional_volume_estimate plain_float bold_four_volumes
           "f0" (tl (paths 4)) "s" (slice_file 0 (0 + 1) bold_description)
           "BOLD resting"
           (fst (fst (functional_sample bold_four_volumes (paths 4))))
           (snd (fst (functional_sample bold_four_volumes (paths 4))))
           1);
    vm_compute; reflexivity.
Defined.

(** ** C6: one row of scalars *)

(** Every series that is written is written as exactly one row. *)
Lemma gather_info_one_row float_of_text fs bval_file dicom_files folder_name df :
  gather_info float_of_text fs bval_file dicom_files folder_name = Some df ->
  len df = 1.
Proof.
  unfold gather_info. destruct dicom_files as [|first rest]; [done|].
  destruct (get_dicom fs first); [|done]. by intros [= <-].
Qed.

Lemma getattr_not_list ds t dflt :
  is_list_or_tuple dflt = false -> is_list_or_tuple (getattr ds t dflt) = false.
Proof.
  intros H. unfold getattr, element.
  destruct (data_elements ds !! t); [apply py_not_list|done].
Qed.

Lemma multiband_not_list ds : is_list_or_tuple (multiband ds) = false.
Proof.
  rewrite multiband_is_priority.
  by destruct (valid_multiband ds) as [->|(q & -> & _)].
Qed.

Lemma wrapped_dict_set key v d :
  is_list_or_tuple v = false -> Forall wrapped d ->
  Forall wrapped (dict_set key (VList [v]) d).
Proof.
  intros Hv. induction 1 as [|[k w] rest Hw Hrest IH]; simpl.
  - constructor; [|constructor]. by exists v.
  - destruct (String.eqb k key); constructor; try done. by exists v.
Qed.

(** The cleaning passes do their work on lists and tuples: no field of a
    row is one of the two. *)
Lemma row_fields_not_lists float_of_text fs bval_file dicom_files folder_name ds key v :
  dict_get key (series_row float_of_text fs bval_file dicom_files folder_name ds)
  = Some v ->
  is_list_or_tuple v = false.
Proof.
  unfold series_row. rewrite dict_get_clean.
  set (vols := resolve_volumes float_of_text fs bval_file dicom_files ds).
  assert (Hout : Forall wrapped
            (add_volume_fields (detect_mosaic ds) (len dicom_files) vols
               (build_output fs dicom_files folder_name ds (z_dim_of vols)))).
  { assert (Hb : Forall wrapped
              (build_output fs dicom_files folder_name ds (z_dim_of vols))).
    { unfold build_output. destruct (resolve_dimensions fs dicom_files ds) as [r c].
      repeat (constructor; [eexists; split; [reflexivity|] |]);
        try apply Forall_nil;
        try (apply getattr_not_list; reflexivity);
        try apply multiband_not_list; try apply inplane_not_list;
        try reflexivity.
      all: try match goal with
               | |- is_list_or_tuple (opt_int ?o) = false => by destruct o
               | |- is_list_or_tuple (opt_str ?o) = false => by destruct o
               | |- is_list_or_tuple (voxel _ _) = false =>
                   unfold voxel; destruct (PixelSpacing ds) as [l|]; [|done];
                   destruct (2 <=? len l); [apply py_not_list|done]
               | |- is_list_or_tuple (read_bvalue _) = false =>
                   unfold read_bvalue, element;
                   repeat (destruct (data_elements ds !! _); [apply py_not_list|]);
                   done
               | |- is_list_or_tuple (default VNone (element _ _)) = false =>
                   unfold element;
                   destruct (data_elements ds !! _); [apply py_not_list|done]
               end.
      destruct (resolve_volumes_known float_of_text fs bval_file dicom_files ds)
        as [(d & _ & Hd)|(k & Hd)]; fold vols in Hd; rewrite Hd;
        [apply py_not_list|done]. }
    unfold add_volume_fields.
    destruct (is_diffusion_mri vols);
      (apply wrapped_dict_set; [by destruct (num_b0s vols) || done|]);
      (destruct (num_volumes vols) as [nv|];
       [destruct (num_gt nv 1); [destruct (negb (detect_mosaic ds));
          [destruct (num_gt _ 0)|]|]|]);
      repeat (apply wrapped_dict_set; [try apply num_py_not_list; try done|]);
      done. }
  induction Hout as [|[k w] rest (x & Hx & Hnl) _ IH]; simpl; [done|].
  destruct (String.eqb k key); [|done].
  intros [= <-]. simpl in Hx. subst w. by rewrite clean_wrapped.
Qed.

(** C6 at a multi-valued attribute: the one file of the series has the
    series description [T1\MPRAGE].  One row is written, and its
    [SeriesDescription] is the two-valued [MultiValue] itself, which the
    tests [isinstance(_, (list, tuple))] of the cleaning passes let
    through. *)
Lemma multi_valued_field_survives :
  exists row,
    gather_info plain_float (series 1 (fun _ => two_valued_description))
      None ["f0"] "s" = Some [row]
    /\ dict_get "SeriesDescription" row = Some (VMulti [VStr "T1"; VStr "MPRAGE"])
    /\ is_list_or_tuple (VMulti [VStr "T1"; VStr "MPRAGE"]) = false
    /\ is_scalar (VMulti [VStr "T1"; VStr "MPRAGE"]) = false.
Proof.
  eexists. repeat split; vm_compute; reflexivity.
Qed.

(** * Further properties of the series inference *)

(** ** The sampled indices (lines 442-443, 779-780, 870-871) *)

Lemma elem_of_range i n : i ∈ range n <-> 0 <= i < n.
Proof.
  unfold range. rewrite list_elem_of_fmap. split.
  - intros (k & -> & Hk). apply elem_of_seq in Hk. lia.
  - intros H. exists (Z.to_nat i). split; [lia|]. apply elem_of_seq. lia.
Qed.

Lemma sorted_map_seq (f : Z -> Z) k m :
  (forall a b, Z.of_nat k <= a -> a < b -> b < Z.of_nat (k + m) -> f a < f b) ->
  StronglySorted Z.lt (map f (map Z.of_nat (seq k m))).
Proof.
  revert k. induction m as [|m IH]; intros k Hf; simpl; [constructor|].
  constructor.
  - apply IH. intros a b Ha Hab Hb. apply Hf; lia.
  - apply Forall_forall. intros y Hy.
    apply list_elem_of_fmap in Hy as (b & -> & Hb).
    apply list_elem_of_fmap in Hb as (j & -> & Hj).
    apply elem_of_seq in Hj. apply Hf; lia.
Qed.

Lemma spaced_quotient_mono n s a b :
  0 < s -> s <= n -> 0 <= a -> a < b -> a * n / s < b * n / s.
Proof.
  intros Hs Hn Ha Hab.
  apply Z.lt_le_trans with ((a * n + s) / s).
  - replace (a * n + s) with (a * n + 1 * s) by lia.
    rewrite Z.div_add by lia. lia.
  - apply Z.div_le_mono; [lia|]. nia.
Qed.

Lemma sample_indices_facts cap n :
  0 < cap -> 0 < n ->
  len (sample_indices cap n) = Z.min cap n
  /\ Forall (fun idx => 0 <= idx < n) (sample_indices cap n)
  /\ StronglySorted Z.lt (sample_indices cap n)
  /\ (n <= cap -> sample_indices cap n = range n).
Proof.
  intros Hcap Hn. unfold sample_indices.
  set (s := Z.min cap n). assert (Hs : 0 < s <= n) by lia.
  replace (0 <? s) with true by (symmetry; apply Z.ltb_lt; lia).
  repeat split.
  - unfold len. rewrite length_map. fold (len (range s)). apply len_range. lia.
  - apply Forall_forall. intros idx Hidx.
    apply list_elem_of_fmap in Hidx as (i & -> & Hi). apply elem_of_range in Hi.
    split; [apply Z.div_pos; nia|].
    apply Z.div_lt_upper_bound; nia.
  - unfold range. apply sorted_map_seq. intros a b Ha Hab Hb.
    apply spaced_quotient_mono; lia.
  - intros Hle. replace s with n by lia.
    rewrite <- (map_id (range n)) at 2. apply map_ext_in.
    intros i Hi. apply list_elem_of_In, elem_of_range in Hi.
    apply Z.div_mul. lia.
Qed.

(** The indices [i * n // sample_size] of a sampling pass over [n] files
    with at most [cap] samples: there are [min(cap, n)] of them, each is an
    index of the file list, they strictly increase, and when there are no
    more than [cap] files they are all the indices. *)
Theorem sample_indices_spread cap n :
  0 < cap -> 0 < n ->
  len (sample_indices cap n) = Z.min cap n
  /\ Forall (fun idx => 0 <= idx < n) (sample_indices cap n)
  /\ StronglySorted Z.lt (sample_indices cap n)
  /\ (n <= cap -> sample_indices cap n = range n).
Proof. apply sample_indices_facts. Qed.

(** An instance: 1200 files sampled 500 times. *)
Lemma sample_indices_spread_witness :
  len (sample_indices 500 1200) = 500
  /\ Forall (fun idx => 0 <= idx < 1200) (sample_indices 500 1200).
Proof.
  destruct (sample_indices_spread 500 1200 ltac:(lia) ltac:(lia)) as (H1 & H2 & _).
  split; [exact H1 | exact H2].
Defined.

(** ** The second sampling for b-values (lines 768-807) *)

Lemma collect_bvalue_empty float_of_text ds_sample path m :
  collect_bvalue float_of_text ds_sample path m = ∅ ->
  m = ∅
  /\ (is_none (read_bvalue ds_sample) = true
      \/ py_float float_of_text (read_bvalue ds_sample) = None).
Proof.
  unfold collect_bvalue. destruct (is_none (read_bvalue ds_sample)); [by auto|].
  destruct (py_float float_of_text (read_bvalue ds_sample)); [|by auto].
  intros H. by apply insert_non_empty in H.
Qed.

Lemma collect_file_no_bvalue float_of_text fs dicom_files st idx st' :
  collect_file float_of_text fs dicom_files st idx = (st', false) ->
  bvalue_to_files st' = ∅ ->
  bvalue_to_files st = ∅ /\ no_bvalue_at float_of_text fs dicom_files idx.
Proof.
  unfold collect_file, no_bvalue_at.
  destruct (len dicom_files <=? idx) eqn:E.
  { intros [= <-] H. split; [done|]. left. by apply Z.leb_le. }
  destruct (at_index dicom_files idx) as [path|] eqn:Ep; simpl.
  2: { intros [= <-] H. split; [done|]. by right. }
  destruct (get_dicom fs path) as [d|] eqn:Ed.
  2: { intros [= <-] H. split; [done|]. by right. }
  destruct (InstanceNumber d) as [[z|l]|]; intros [= <-]; simpl; intros H;
    apply collect_bvalue_empty in H as [H1 H2]; split; try done; by right.
Qed.

Lemma collect_loop_no_bvalue float_of_text fs dicom_files idxs st st' :
  run_loop (collect_file float_of_text fs dicom_files) idxs st = (st', false) ->
  bvalue_to_files st' = ∅ ->
  bvalue_to_files st = ∅
  /\ Forall (no_bvalue_at float_of_text fs dicom_files) idxs.
Proof.
  revert st. induction idxs as [|idx idxs IH]; intros st; simpl.
  - intros [= <-] H. by split.
  - destruct (collect_file float_of_text fs dicom_files st idx) as [st1 raised] eqn:E.
    destruct raised; [done|]. intros Hloop Hempty.
    destruct (IH _ Hloop Hempty) as [H1 H2].
    destruct (collect_file_no_bvalue _ _ _ _ _ _ E H1) as [H3 H4].
    split; [done|]. by constructor.
Qed.

Lemma resample_no_bvalue float_of_text fs dicom_files acc idx :
  no_bvalue_at float_of_text fs dicom_files idx ->
  resample_bvalue float_of_text fs dicom_files acc idx = acc.
Proof.
  unfold no_bvalue_at, resample_bvalue. destruct acc as [u b0].
  destruct (len dicom_files <=? idx) eqn:E; [done|].
  apply Z.leb_gt in E. intros [?|H]; [lia|].
  destruct (at_index dicom_files idx ≫= get_dicom fs) as [d|]; [|done].
  destruct H as [->|H]; [done|].
  destruct (is_none (read_bvalue d)); [done|]. by rewrite H.
Qed.

(** Every index of the sample of at most 100 is one of the sample of at
    most 500. *)
Lemma sample_100_in_sample_500 n idx :
  0 <= n -> idx ∈ sample_indices 100 n -> idx ∈ sample_indices 500 n.
Proof.
  intros Hn. destruct (decide (n = 0)) as [->|Hn0]; [done|].
  destruct (sample_indices_facts 500 n ltac:(lia) ltac:(lia)) as (_ & _ & _ & Hall).
  destruct (sample_indices_facts 100 n ltac:(lia) ltac:(lia)) as (_ & Hin & _ & _).
  intros Hidx. destruct (decide (n <= 500)) as [Hle|Hgt].
  - rewrite Hall by done. apply elem_of_range.
    rewrite Forall_forall in Hin. by apply Hin.
  - unfold sample_indices in *.
    replace (Z.min 100 n) with 100 in Hidx by lia.
    replace (Z.min 500 n) with 500 by lia.
    change (0 <? 100) with true in Hidx. change (0 <? 500) with true.
    cbn iota in *.
    apply list_elem_of_fmap in Hidx as (i & -> & Hi). apply elem_of_range in Hi.
    apply list_elem_of_fmap. exists (5 * i). split; [|apply elem_of_range; lia].
    replace (5 * i * n) with (5 * (i * n)) by lia.
    change 500 with (5 * 100). by rewrite Z.div_mul_cancel_l.
Qed.

(** When the first sampling pass runs to its end and finds no b-value, the
    second sampling finds none either: without a sibling b-value file the
    series is then not marked diffusion. *)
Theorem second_sampling_finds_nothing float_of_text fs dicom_files ds st :
  collect float_of_text fs dicom_files = (st, false) ->
  bvalue_to_files st = ∅ ->
  sampled_bvalues float_of_text fs dicom_files st = (∅, 0)
  /\ is_diffusion_mri (resolve_volumes float_of_text fs None dicom_files ds) = false.
Proof.
  intros Hc He.
  assert (Hs : sampled_bvalues float_of_text fs dicom_files st = (∅, 0)).
  { unfold sampled_bvalues. rewrite He. cbn [negb].
    change (card (∅ : gmap (Z * positive) (gset string)) =? 0) with true.
    cbn [negb].
    destruct (collect_loop_no_bvalue _ _ _ _ _ _ Hc He) as [_ Hall].
    assert (Hsub : Forall (no_bvalue_at float_of_text fs dicom_files)
                     (sample_indices 100 (len dicom_files))).
    { apply Forall_forall. intros idx Hidx. rewrite Forall_forall in Hall.
      apply Hall, sample_100_in_sample_500; [unfold len; lia|done]. }
    generalize ((∅, 0) : gset (Z * positive) * Z).
    induction Hsub as [|idx idxs Hidx _ IH]; intros acc; simpl; [done|].
    by rewrite resample_no_bvalue. }
  split; [done|].
  unfold resolve_volumes. rewrite Hc. cbn [fst from_bval_file].
  unfold from_files. cbn [num_volumes].
  destruct (len dicom_files <=? 1); [done|]. rewrite Hs. cbn [fst].
  change (0 <? card (∅ : gset (Z * positive))) with false. cbn iota.
  destruct (getattr ds SeriesDescription (VStr "")); try done.
  destruct (is_functional s); [|done].
  by destruct (functional_volumes _ _ _) as [[?|]|].
Qed.

(** An instance: the three plain slices carry no b-value. *)
Lemma second_sampling_finds_nothing_witness :
  sampled_bvalues plain_float three_slices (paths 3)
    (fst (collect plain_float three_slices (paths 3))) = (∅, 0)
  /\ is_diffusion_mri
       (resolve_volumes plain_float three_slices None (paths 3)
          (slice_file 0 1 ∅)) = false.
Proof.
  apply (second_sampling_finds_nothing plain_float three_slices (paths 3)
           (slice_file 0 1 ∅)
           (fst (collect plain_float three_slices (paths 3))));
    vm_compute; reflexivity.
Defined.

(** ** The volume fields of the row (lines 839-856, 944-969) *)



Lemma len_nonneg {A} (l : list A) : 0 <= len l.
Proof. unfold len. lia. Qed.

(** A series marked diffusion has a number of b0 volumes, which is not
    negative. *)
Lemma diffusion_has_b0s float_of_text fs bval_file dicom_files ds :
  let v := resolve_volumes float_of_text fs bval_file dicom_files ds in
  is_diffusion_mri v = true -> exists k, num_b0s v = Some k /\ 0 <= k.
Proof.
  unfold resolve_volumes.
  set (v0 := from_bval_file _ _ _ _ _).
  assert (H0 : is_diffusion_mri v0 = true -> exists k, num_b0s v0 = Some k /\ 0 <= k).
  { subst v0. unfold from_bval_file. destruct bval_file as [content|]; [|done].
    destruct (bval_values float_of_text content); [|done].
    intros _. eexists. split; [done|]. apply len_nonneg. }
  unfold from_files. destruct (num_volumes v0); [done|].
  destruct (len dicom_files <=? 1); [done|].
  destruct (0 <? card _).
  - destruct (len dicom_files <=? 500).
    + destruct (fold_left _ dicom_files _) as [u b0].
      intros _. cbn [num_b0s]. eexists. split; [done|].
      unfold diffusion_counts. destruct (0 <? b0); lia.
    + destruct (sampled_bvalues _ _ _ _) as [u b0].
      intros _. cbn [num_b0s]. eexists. split; [done|].
      unfold diffusion_counts. destruct (0 <? b0); lia.
  - destruct (getattr ds SeriesDescription (VStr "")); try done.
    destruct (is_functional s); [|done].
    by destruct (functional_volumes _ _ _) as [[?|]|].
Qed.

(** In the row, [NumberOfVolumes] is absent or a number above 1, and
    [NumberOfB0s] is a count of at least 0 for a series marked diffusion and
    absent for any other. *)
Theorem volume_fields_in_row
    float_of_text fs bval_file first rest folder_name ds :
  fs !! first = Some ds ->
  exists row,
    gather_info float_of_text fs bval_file (first :: rest) folder_name = Some [row]
    /\ (dict_get "NumberOfVolumes" row = Some VNone
        \/ exists nv, dict_get "NumberOfVolumes" row = Some (num_py nv)
                      /\ num_gt nv 1 = true)
    /\ (if is_diffusion_mri
             (resolve_volumes float_of_text fs bval_file (first :: rest) ds)
        then exists k, dict_get "NumberOfB0s" row = Some (VInt k) /\ 0 <= k
        else dict_get "NumberOfB0s" row = Some VNone).
Proof.
  intros Hfs. eexists. split; [by apply gather_info_emits|]. split.
  - rewrite row_NumberOfVolumes. unfold final_num_volumes.
    destruct (num_volumes _) as [nv|]; [|by left].
    destruct (num_gt nv 1) eqn:E; [right; eauto | by left].
  - rewrite row_NumberOfB0s.
    destruct (is_diffusion_mri _) eqn:E; [|done].
    destruct (diffusion_has_b0s _ _ _ _ _ E) as (k & -> & Hk). eauto.
Qed.

(** An instance: the 60 files beside six b-values, two of them 0. *)
Lemma volume_fields_in_row_witness :
  exists row,
    gather_info plain_float (series 60 (fun _ => image_file 64 64 ∅))
      (Some "0 0 1000 1000 2000 2000") (paths 60) "s" = Some [row]
    /\ dict_get "NumberOfVolumes" row <> None.
Proof.
  destruct (volume_fields_in_row plain_float
              (series 60 (fun _ => image_file 64 64 ∅))
              (Some "0 0 1000 1000 2000 2000") "f0" (tl (paths 60)) "s"
              (image_file 64 64 ∅) eq_refl) as (row & Hrow & Hnv & _).
  exists row. split; [exact Hrow|]. destruct Hnv as [Hnv|(nv & Hnv & _)];
    rewrite Hnv; discriminate.
Defined.

(** ** The in-plane factor (lines 589-638) *)

Lemma first_valid_app l l' :
  (if is_none (first_valid l) then first_valid l' else first_valid l)
  = first_valid (l ++ l').
Proof.
  induction l as [|a l IH]; simpl; [done|].
  destruct (is_none a) eqn:E; [apply IH | by rewrite E].
Qed.

Lemma first_valid_pair x s :
  (if is_none x then s else x) = first_valid [x; s].
Proof. simpl. destruct (is_none x); [by destruct s|done]. Qed.

Lemma inplane_from_element_source ds t x :
  inplane_from_element ds t x
  = if is_none x then inplane_source_element ds t else x.
Proof.
  unfold inplane_from_element, inplane_source_element.
  destruct (element ds t) as [val|]; destruct x; try done; simpl.
  all: by destruct (number_in_1_16 val).
Qed.

Lemma inplane_from_private_sources ds m x :
  inplane_from_private ds m x
  = if is_none x then first_valid [inplane_source_A ds m; inplane_source_B ds m]
    else x.
Proof.
  unfold inplane_from_private, inplane_source_A, inplane_source_B,
    inplane_source_element, private_A, private_B.
  destruct x; try done; simpl. destruct m; simpl; [done|].
  destruct (element ds (25%N, 4106%N)) as [a|].
  - destruct (number_in_1_16 a) eqn:E; [|done].
    by destruct (number_in_range_float a E) as [-> _].
  - destruct (element ds (25%N, 4107%N)) as [b|]; [|done].
    destruct (number_in_1_16 b) eqn:E; [|done].
    by destruct (float_of_number b).
Qed.

Lemma valid_inplane_number v :
  number_in_1_16 v = true -> valid_inplane (float_of_number v).
Proof.
  unfold number_in_1_16. destruct v; try done; simpl;
    intros [H1 H2]%andb_true_iff; apply Qle_bool_iff in H1, H2; right; eauto.
Qed.

Lemma valid_inplane_element ds t : valid_inplane (inplane_source_element ds t).
Proof.
  unfold inplane_source_element. destruct (element ds t) as [v|]; [|by left].
  destruct (number_in_1_16 v) eqn:E; [by apply valid_inplane_number|by left].
Qed.

Lemma valid_inplane_first l : Forall valid_inplane l -> valid_inplane (first_valid l).
Proof.
  induction 1 as [|x l Hx Hl IH]; simpl; [by left|]. by destruct (is_none x).
Qed.

(** The in-plane factor written for a series is the value of the first of
    its six sources that yields one, the private attributes A and B counting
    only off a mosaic and B only in the absence of A; it is absent or lies
    between 1 and 16. *)
Theorem inplane_first_source_wins
    float_of_text fs bval_file first rest folder_name ds :
  fs !! first = Some ds ->
  inplane ds (detect_mosaic ds) = inplane_by_priority ds (detect_mosaic ds)
  /\ valid_inplane (inplane_by_priority ds (detect_mosaic ds))
  /\ exists row,
      gather_info float_of_text fs bval_file (first :: rest) folder_name = Some [row]
      /\ dict_get "InplaneAccelFactor" row
         = Some (inplane_by_priority ds (detect_mosaic ds)).
Proof.
  intros Hfs.
  assert (Heq : forall m, inplane ds m = inplane_by_priority ds m).
  { intros m. unfold inplane, inplane_by_priority.
    rewrite !inplane_from_element_source, inplane_from_private_sources.
    rewrite (first_valid_pair (inplane_from_text ds)).
    by rewrite first_valid_app, !first_valid_snoc. }
  split; [apply Heq|]. split.
  - apply valid_inplane_first.
    repeat match goal with
           | |- Forall _ (_ :: _) => constructor
           | |- Forall _ [] => constructor
           end; try apply valid_inplane_element.
    + unfold inplane_from_text. destruct (tag_0051_1011 ds); [|by left].
      destruct (_ && _); [|by left]. destruct (py_int _) as [val|]; [|by left].
      destruct ((1 <=? val) && (val <=? 16)) eqn:E; [|by left].
      apply andb_true_iff in E as [E1 E2]. apply Z.leb_le in E1, E2.
      right. eexists. split; [done|]. unfold Qle. simpl. lia.
    + unfold inplane_source_A. destruct (detect_mosaic ds); [by left|].
      apply valid_inplane_element.
    + unfold inplane_source_B. destruct (detect_mosaic ds); [by left|].
      destruct (element ds private_A); [by left|]. apply valid_inplane_element.
  - eexists. split; [by apply gather_info_emits|].
    by rewrite row_inplane, Heq.
Qed.

(** An instance: a plain file whose only acceleration element is B = 2. *)
Lemma inplane_first_source_wins_witness :
  inplane (image_file 64 64 {[ private_B := DInt 2 ]}) false
  = VFloat (inject_Z 2).
Proof.
  rewrite (proj1 (inplane_first_source_wins plain_float
                    (series 1 (fun _ => image_file 64 64 {[ private_B := DInt 2 ]}))
                    None "f0" [] "s" (image_file 64 64 {[ private_B := DInt 2 ]})
                    eq_refl)).
  reflexivity.
Defined.

(** ** The dimensions of a mosaic series (lines 312-352, 423-425) *)

(** For a mosaic series the dimensions come from the first file alone: no
    other file of the series has a say.  With an acquisition matrix of at
    least four elements they are read off its entries, and are positive as
    soon as one of the first two entries is. *)
Theorem mosaic_dimensions_from_first_file fs dicom_files ds :
  detect_mosaic ds = true ->
  let resolved := resolve_dimensions fs dicom_files ds in
  (forall fs' dicom_files', resolve_dimensions fs' dicom_files' ds = resolved)
  /\ (forall a0 a1 a2 a3 more,
        AcquisitionMatrix ds = Some (a0 :: a1 :: a2 :: a3 :: more) ->
        resolved =
          (if 0 <? a0 then (Some a0, Some (if 0 <? a3 then a3 else a0))
           else if 0 <? a1 then (Some (if 0 <? a2 then a2 else a1), Some a1)
           else (Rows ds, Columns ds))
        /\ (0 < a0 \/ 0 < a1 ->
            exists r c, resolved = (Some r, Some c) /\ 0 < r /\ 0 < c)).
Proof.
  intros Hm resolved. subst resolved. unfold resolve_dimensions. rewrite Hm.
  split; [done|]. intros a0 a1 a2 a3 more Hacq.
  unfold mosaic_correct. rewrite Hacq.
  assert (Hlen : negb (len (a0 :: a1 :: a2 :: a3 :: more) =? 0)
                 && (4 <=? len (a0 :: a1 :: a2 :: a3 :: more)) = true).
  { unfold len. simpl length. apply andb_true_iff. split.
    - apply negb_true_iff, Z.eqb_neq. lia.
    - apply Z.leb_le. lia. }
  rewrite Hlen. cbn [nth]. split; [done|].
  intros Hpos.
  destruct (0 <? a0) eqn:E0.
  - apply Z.ltb_lt in E0. eexists _, _. split; [done|].
    split; [done|]. destruct (0 <? a3) eqn:E3; [by apply Z.ltb_lt|done].
  - apply Z.ltb_ge in E0. destruct Hpos as [?|H1]; [lia|].
    replace (0 <? a1) with true by (symmetry; by apply Z.ltb_lt).
    eexists _, _. split; [done|].
    split; [|done]. destruct (0 <? a2) eqn:E2; [by apply Z.ltb_lt|done].
Qed.

(** An instance: a mosaic of 448 by 448 pixels acquired as 64 by 64. *)
Lemma mosaic_dimensions_from_first_file_witness :
  resolve_dimensions ∅ [] (mosaic_with_matrix (Some [64; 0; 0; 64]) None)
  = (Some 64, Some 64).
Proof.
  apply (proj1 (proj2 (mosaic_dimensions_from_first_file ∅ []
                         (mosaic_with_matrix (Some [64; 0; 0; 64]) None) eq_refl)
                  64 0 0 64 [] eq_refl)).
Defined.

(** ** When a row is written, and with which columns (lines 277-288, 909-969) *)

Lemma keys_dict_set key v d :
  map fst (dict_set key v d)
  = if bool_decide (key ∈ map fst d) then map fst d else map fst d ++ [key].
Proof.
  induction d as [|[k w] rest IH]; [done|]. cbn [dict_set].
  destruct (String.eqb k key) eqn:E.
  - apply String.eqb_eq in E. subst k. cbn [map fst].
    rewrite bool_decide_eq_true_2; [done|]. by left.
  - apply String.eqb_neq in E. cbn [map fst]. rewrite IH.
    destruct (bool_decide (key ∈ map fst rest)) eqn:Eb.
    + apply bool_decide_eq_true in Eb. rewrite bool_decide_eq_true_2; [done|].
      by right.
    + apply bool_decide_eq_false in Eb. rewrite bool_decide_eq_false_2; [done|].
      intros [?|?]%elem_of_cons; congruence.
Qed.

Lemma keys_clean d : map fst (clean d) = map fst d.
Proof. unfold clean. rewrite map_map. by apply map_ext. Qed.

Lemma keys_build_output fs dicom_files folder_name ds z :
  map fst (build_output fs dicom_files folder_name ds z) = firstn 29 row_columns.
Proof. unfold build_output. by destruct (resolve_dimensions fs dicom_files ds). Qed.

Lemma row_keys float_of_text fs bval_file dicom_files folder_name ds :
  map fst (series_row float_of_text fs bval_file dicom_files folder_name ds)
  = row_columns.
Proof.
  unfold series_row. rewrite keys_clean. unfold add_volume_fields.
  set (v := resolve_volumes _ _ _ _ _).
  assert (H29 := keys_build_output fs dicom_files folder_name ds (z_dim_of v)).
  destruct (is_diffusion_mri v);
    (destruct (num_volumes v) as [nv|];
     [destruct (num_gt nv 1); [destruct (negb (detect_mosaic ds));
        [destruct (num_gt (floordiv (len dicom_files) nv) 0)|]|]|]);
    rewrite !keys_dict_set, H29; reflexivity.
Qed.


(** ** Slices and volumes of a series that is no mosaic (lines 944-961) *)

(** For a series that is no mosaic and has an integer number of volumes
    above 1 and at most its number of files, the row holds that number and
    the slice count is the whole number of times it goes into the number of
    files, whatever the earlier stages made of the slice count: slices times
    volumes never exceeds the number of files. *)
Theorem slices_times_volumes
    float_of_text fs bval_file first rest folder_name ds nv :
  fs !! first = Some ds ->
  detect_mosaic ds = false ->
  num_volumes (resolve_volumes float_of_text fs bval_file (first :: rest) ds)
  = Some (NInt nv) ->
  1 < nv <= len (first :: rest) ->
  exists row z,
    gather_info float_of_text fs bval_file (first :: rest) folder_name = Some [row]
    /\ dict_get "NumberOfVolumes" row = Some (VInt nv)
    /\ dict_get "Z_Dim" row = Some (VInt z)
    /\ 0 < z
    /\ z * nv <= len (first :: rest) < (z + 1) * nv.
Proof.
  intros Hds Hm Hnv [Hlo Hhi].
  set (n := len (first :: rest)) in *.
  assert (Hz : 0 < n / nv) by (apply Z.div_str_pos; lia).
  eexists _, (n / nv). split; [by apply gather_info_emits|].
  split; [|split; [|split; [done|]]].
  - rewrite row_NumberOfVolumes. unfold final_num_volumes. rewrite Hnv.
    cbn [num_gt num_py]. by replace (1 <? nv) with true by (symmetry; lia).
  - rewrite row_Z_Dim. unfold final_z_dim. rewrite Hnv, Hm.
    cbn [num_gt floordiv num_py negb andb]. fold n.
    replace (1 <? nv) with true by (symmetry; lia).
    replace (0 <? n / nv) with true by (symmetry; lia).
    cbn [andb]. by rewrite clean_wrapped.
  - pose proof (Z.mul_div_le n nv ltac:(lia)).
    pose proof (Z.mul_succ_div_gt n nv ltac:(lia)). lia.
Qed.

Lemma slices_times_volumes_witness :
  exists row z,
    gather_info plain_float three_slices (Some "0 1000") ["f0"; "f1"; "f2"] "dwi"
    = Some [row]
    /\ dict_get "NumberOfVolumes" row = Some (VInt 2)
    /\ dict_get "Z_Dim" row = Some (VInt z)
    /\ 0 < z
    /\ z * 2 <= 3 < (z + 1) * 2.
Proof.
  apply (slices_times_volumes plain_float three_slices (Some "0 1000")
           "f0" ["f1"; "f2"] "dwi"
           (slice_file (inject_Z 0 * (5 # 2)) (0 + 1) ∅) 2).
  - by vm_compute.
  - by vm_compute.
  - by vm_compute.
  - unfold len. cbn. lia.
Defined.

(** ** The acquisition time of the series (lines 694-708) *)

(** The acquisition time written for a date of eight characters and a time
    of four or more has sixteen characters, from which the date and the
    hour and minute are read back unchanged; the seconds are dropped. *)
Theorem format_datetime_reads_back date_str time_str :
  String.length date_str = 8%nat ->
  (4 <= String.length time_str)%nat ->
  let stamp := format_datetime date_str time_str in
  String.length stamp = 16%nat
  /\ (slice 0 4 stamp ++ slice 5 7 stamp ++ slice 8 10 stamp)%string = date_str
  /\ (slice 11 13 stamp ++ slice 14 16 stamp)%string = take_chars 4 time_str
  /\ slice 4 5 stamp = "-" /\ slice 7 8 stamp = "-"
  /\ slice 10 11 stamp = "-" /\ slice 13 14 stamp = ":".
Proof.
  intros Hd Ht.
  do 8 (destruct date_str as [|? date_str]; [done|]).
  destruct date_str; [|done].
  do 4 (destruct time_str as [|? time_str]; [cbn in Ht; lia|]).
  cbv. done.
Qed.

Lemma format_datetime_reads_back_witness :
  let stamp := format_datetime "20240131" "101530.000" in
  String.length stamp = 16%nat
  /\ (slice 0 4 stamp ++ slice 5 7 stamp ++ slice 8 10 stamp)%string = "20240131"
  /\ (slice 11 13 stamp ++ slice 14 16 stamp)%string = "1015"
  /\ slice 4 5 stamp = "-" /\ slice 7 8 stamp = "-"
  /\ slice 10 11 stamp = "-" /\ slice 13 14 stamp = ":".
Proof.
  apply (format_datetime_reads_back "20240131" "101530.000");
    [reflexivity | cbn; lia].
Defined.

(** * Properties of the functions around the series inference *)

(** ** Folder names (lines 63-71, 142-146, 238-242) *)

Lemma char_in_replace_char_eq c s :
  c <> "_"%char -> char_in c (replace_char c s) = false.
Proof.
  intros Hc. induction s as [|a r IH]; [done|].
  cbn [replace_char map_chars char_in]. fold (replace_char c r). rewrite IH, orb_false_r.
  destruct (Ascii.eqb a c) eqn:E; [|done].
  apply Ascii.eqb_neq. congruence.
Qed.

Lemma char_in_replace_char_ne c d s :
  d <> "_"%char -> char_in d s = false -> char_in d (replace_char c s) = false.
Proof.
  intros Hd. induction s as [|a r IH]; [done|].
  cbn [replace_char map_chars char_in]. fold (replace_char c r).
  intros [Ha Hr]%orb_false_iff. rewrite (IH Hr), orb_false_r.
  destruct (Ascii.eqb a c); [|done]. apply Ascii.eqb_neq. congruence.
Qed.

Lemma char_in_replace_each chars d name :
  d <> "_"%char -> char_in d chars = true \/ char_in d name = false ->
  char_in d (replace_each chars name) = false.
Proof.
  intros Hd. revert name. induction chars as [|c rest IH]; intros name H.
  - by destruct H.
  - cbn [replace_each]. apply IH. cbn [char_in] in H.
    destruct (Ascii.eqb c d) eqn:E.
    + apply Ascii.eqb_eq in E. subst c. right. by apply char_in_replace_char_eq.
    + cbn [orb] in H. destruct H as [?|?]; [by left|].
      right. by apply char_in_replace_char_ne.
Qed.

Lemma replace_char_absent c s : char_in c s = false -> replace_char c s = s.
Proof.
  induction s as [|a r IH]; [done|].
  cbn [replace_char map_chars char_in]. fold (replace_char c r).
  intros [Ha Hr]%orb_false_iff. by rewrite Ha, (IH Hr).
Qed.

Lemma replace_each_absent chars s :
  (forall c, char_in c chars = true -> char_in c s = false) ->
  replace_each chars s = s.
Proof.
  induction chars as [|c rest IH]; intros H; [done|].
  cbn [replace_each]. rewrite replace_char_absent.
  - apply IH. intros d Hd. apply H. cbn [char_in]. by rewrite Hd, orb_true_r.
  - apply H. cbn [char_in]. by rewrite Ascii.eqb_refl.
Qed.

Lemma length_replace_char c s : String.length (replace_char c s) = String.length s.
Proof. induction s as [|a r IH]; [done|]. cbn. by f_equal. Qed.

Lemma length_replace_each chars s :
  String.length (replace_each chars s) = String.length s.
Proof.
  revert s. induction chars as [|c rest IH]; intros s; [done|].
  cbn [replace_each]. by rewrite IH, length_replace_char.
Qed.

Lemma char_in_underscore_replace_char c s :
  char_in "_" s = true -> char_in "_" (replace_char c s) = true.
Proof.
  induction s as [|a r IH]; [done|].
  cbn [replace_char map_chars char_in]. fold (replace_char c r).
  intros [Ha|Hr]%orb_true_iff.
  - apply Ascii.eqb_eq in Ha. subst a. by destruct (Ascii.eqb "_" c).
  - by rewrite (IH Hr), orb_true_r.
Qed.

Lemma char_in_underscore_replace_each chars s :
  char_in "_" s = true -> char_in "_" (replace_each chars s) = true.
Proof.
  revert s. induction chars as [|c rest IH]; intros s H; [done|].
  cbn [replace_each]. by apply IH, char_in_underscore_replace_char.
Qed.

Lemma char_in_app c a b : char_in c (a ++ b) = char_in c a || char_in c b.
Proof.
  induction a as [|x r IH]; [by rewrite append_empty|].
  rewrite append_cons. cbn [char_in]. by rewrite IH, orb_assoc.
Qed.


Lemma first_char_lstrip s : kept_at_end (first_char (lstrip_chars " ." s)).
Proof.
  induction s as [|c r IH]; [done|]. cbn [lstrip_chars].
  destruct (char_in c " .") eqn:E; [done|]. exact E.
Qed.

Lemma rstrip_chars_cons chars c r :
  rstrip_chars chars (String c r)
  = if String.eqb (rstrip_chars chars r) EmptyString && char_in c chars
    then EmptyString else String c (rstrip_chars chars r).
Proof. cbn [rstrip_chars]. by destruct (rstrip_chars chars r), (char_in c chars). Qed.

Lemma first_char_rstrip chars s :
  rstrip_chars chars s = EmptyString
  \/ first_char (rstrip_chars chars s) = first_char s.
Proof.
  destruct s as [|c r]; [by left|]. rewrite rstrip_chars_cons.
  destruct (_ && _); [by left|by right].
Qed.

Lemma last_char_rstrip s : kept_at_end (last_char (rstrip_chars " ." s)).
Proof.
  induction s as [|c r IH]; [done|]. rewrite rstrip_chars_cons.
  destruct (rstrip_chars " ." r) as [|k kept] eqn:Er.
  - cbn [String.eqb andb]. destruct (char_in c " .") eqn:E; [done|]. exact E.
  - cbn [String.eqb andb]. exact IH.
Qed.

Lemma first_char_take n s :
  first_char (take_chars (S n) s) = first_char s.
Proof. by destruct s. Qed.

Lemma length_lstrip chars s :
  (String.length (lstrip_chars chars s) <= String.length s)%nat.
Proof.
  induction s as [|c r IH]; [done|]. cbn [lstrip_chars].
  destruct (char_in c chars); cbn [String.length]; lia.
Qed.

Lemma length_rstrip chars s :
  (String.length (rstrip_chars chars s) <= String.length s)%nat.
Proof.
  induction s as [|c r IH]; [done|]. rewrite rstrip_chars_cons.
  destruct (_ && _); cbn [String.length]; lia.
Qed.

Lemma length_take n s :
  String.length (take_chars n s) = Nat.min n (String.length s).
Proof.
  revert s. induction n as [|n IH]; intros [|c r]; try done.
  cbn [take_chars String.length]. rewrite IH. lia.
Qed.

Lemma take_all n s : (String.length s <= n)%nat -> take_chars n s = s.
Proof.
  revert s. induction n as [|n IH]; intros [|c r]; cbn [String.length]; try done.
  - lia.
  - intros H. cbn [take_chars]. rewrite IH; [done|lia].
Qed.

Lemma char_in_lstrip chars d s :
  char_in d s = false -> char_in d (lstrip_chars chars s) = false.
Proof.
  induction s as [|c r IH]; [done|]. cbn [lstrip_chars].
  destruct (char_in c chars); [|done].
  cbn [char_in]. intros [_ ?]%orb_false_iff. by apply IH.
Qed.

Lemma char_in_rstrip chars d s :
  char_in d s = false -> char_in d (rstrip_chars chars s) = false.
Proof.
  induction s as [|c r IH]; [done|]. rewrite rstrip_chars_cons.
  cbn [char_in]. intros [Hc Hr]%orb_false_iff.
  destruct (_ && _); [done|]. cbn [char_in]. by rewrite Hc, (IH Hr).
Qed.

Lemma char_in_take n d s :
  char_in d s = false -> char_in d (take_chars n s) = false.
Proof.
  revert s. induction n as [|n IH]; intros [|c r]; try done.
  cbn [take_chars char_in]. intros [Hc Hr]%orb_false_iff.
  by rewrite Hc, (IH _ Hr).
Qed.

Lemma lstrip_kept chars s :
  match first_char s with Some c => char_in c chars = false | None => True end ->
  lstrip_chars chars s = s.
Proof. destruct s as [|c r]; [done|]. cbn. by intros ->. Qed.

Lemma rstrip_kept chars s :
  match last_char s with Some c => char_in c chars = false | None => True end ->
  rstrip_chars chars s = s.
Proof.
  induction s as [|c r IH]; [done|]. rewrite rstrip_chars_cons.
  destruct r as [|c' r'].
  - cbn. by intros ->.
  - intros H. by rewrite (IH H).
Qed.

Lemma lstrip_keeps_char chars d s :
  char_in d chars = false -> char_in d s = true ->
  char_in d (lstrip_chars chars s) = true.
Proof.
  intros Hd. induction s as [|c r IH]; [done|]. cbn [lstrip_chars].
  destruct (char_in c chars) eqn:Ec; [|done].
  cbn [char_in]. intros [Hc|Hr]%orb_true_iff; [|by apply IH].
  apply Ascii.eqb_eq in Hc. congruence.
Qed.

Lemma rstrip_keeps_char chars d s :
  char_in d chars = false -> char_in d s = true ->
  char_in d (rstrip_chars chars s) = true.
Proof.
  intros Hd. induction s as [|c r IH]; [done|]. rewrite rstrip_chars_cons.
  cbn [char_in]. intros H.
  destruct (String.eqb (rstrip_chars chars r) EmptyString) eqn:Ee.
  - apply String.eqb_eq in Ee. rewrite Ee in *.
    destruct (char_in d r) eqn:Hr; [by specialize (IH eq_refl)|].
    rewrite orb_false_r in H. apply Ascii.eqb_eq in H. subst c.
    rewrite Hd. cbn [andb char_in]. by rewrite Ascii.eqb_refl.
  - cbn [andb char_in]. apply orb_true_iff in H as [->|Hr]; [done|].
    by rewrite (IH Hr), orb_true_r.
Qed.

Lemma sanitized_is_safe name :
  no_invalid_char (sanitize_folder_name name)
  /\ (String.length (sanitize_folder_name name) <= 200)%nat
  /\ kept_at_end (first_char (sanitize_folder_name name)).
Proof.
  unfold sanitize_folder_name.
  set (replaced := replace_each invalid_chars name).
  set (stripped := strip_chars " ." replaced).
  assert (Hinv : no_invalid_char stripped).
  { intros c Hc. apply char_in_rstrip, char_in_lstrip, char_in_replace_each.
    - intros ->. by vm_compute in Hc.
    - by left. }
  assert (Hfirst : kept_at_end (first_char stripped)).
  { unfold stripped, strip_chars.
    destruct (first_char_rstrip " ." (lstrip_chars " ." replaced)) as [->| ->];
      [done|apply first_char_lstrip]. }
  destruct (200 <? Z.of_nat (String.length stripped)) eqn:E.
  - split; [|split].
    + intros c Hc. by apply char_in_take, Hinv.
    + rewrite length_take. lia.
    + by rewrite first_char_take.
  - apply Z.ltb_ge in E. split; [done|]. split; [lia|done].
Qed.

(** The result of [sanitize_folder_name] has none of the nine characters
    Windows refuses, is at most 200 characters long and does not begin with a
    space or a dot. *)
Theorem sanitize_folder_name_safe name :
  no_invalid_char (sanitize_folder_name name)
  /\ (String.length (sanitize_folder_name name) <= 200)%nat
  /\ kept_at_end (first_char (sanitize_folder_name name)).
Proof. apply sanitized_is_safe. Qed.

Lemma sanitize_not_truncated name :
  (String.length (strip_chars " ." (replace_each invalid_chars name)) <= 200)%nat ->
  sanitize_folder_name name = strip_chars " ." (replace_each invalid_chars name).
Proof.
  intros H. unfold sanitize_folder_name.
  destruct (200 <? _) eqn:E; [|done]. apply Z.ltb_lt in E. lia.
Qed.

Lemma length_stripped name :
  (String.length (strip_chars " ." (replace_each invalid_chars name))
   <= String.length name)%nat.
Proof.
  unfold strip_chars.
  etransitivity; [apply length_rstrip|]. etransitivity; [apply length_lstrip|].
  by rewrite length_replace_each.
Qed.

Lemma sanitized_unchanged_iff name :
  sanitize_folder_name name = name
  <-> no_invalid_char name /\ (String.length name <= 200)%nat
      /\ kept_at_end (first_char name) /\ kept_at_end (last_char name).
Proof.
  split.
  - intros H. destruct (sanitized_is_safe name) as (Hi & Hl & Hf).
    rewrite H in Hi, Hl, Hf. repeat split; try done.
    pose proof (length_stripped name) as Hs.
    rewrite sanitize_not_truncated in H by lia.
    rewrite <- H. apply last_char_rstrip.
  - intros (Hi & Hl & Hf & Hla).
    assert (Hs : strip_chars " ." (replace_each invalid_chars name) = name).
    { rewrite replace_each_absent by exact Hi. unfold strip_chars.
      rewrite lstrip_kept by exact Hf. by apply rstrip_kept. }
    rewrite sanitize_not_truncated; rewrite Hs; [done|lia].
Qed.

(** The names [sanitize_folder_name] leaves as they are, are exactly those
    without an invalid character, of at most 200 characters, that neither
    begin nor end with a space or a dot. *)
Theorem sanitize_folder_name_fixed_points name :
  sanitize_folder_name name = name
  <-> no_invalid_char name /\ (String.length name <= 200)%nat
      /\ kept_at_end (first_char name) /\ kept_at_end (last_char name).
Proof. apply sanitized_unchanged_iff. Qed.

(** Cleaning a name twice is cleaning it once, whenever the first result is
    shorter than 200 characters. *)
Theorem sanitize_folder_name_idempotent name :
  (String.length (sanitize_folder_name name) < 200)%nat ->
  sanitize_folder_name (sanitize_folder_name name) = sanitize_folder_name name.
Proof.
  intros Hlen. destruct (sanitized_is_safe name) as (Hi & Hl & Hf).
  apply sanitized_unchanged_iff. repeat split; try done.
  unfold sanitize_folder_name in *.
  destruct (200 <? _) eqn:E.
  - apply Z.ltb_lt in E. rewrite length_take in Hlen. lia.
  - apply last_char_rstrip.
Qed.

Lemma sanitize_folder_name_idempotent_witness :
  sanitize_folder_name (sanitize_folder_name " 3_t1: mprage. ") = "3_t1_ mprage".
Proof.
  rewrite (sanitize_folder_name_idempotent " 3_t1: mprage. ");
    [reflexivity | vm_compute; lia].
Defined.

(** A file is always given a folder: the name built from its series number
    and description is not empty, is neither of the two directory links and
    has no path separator. *)
Theorem series_folder_name_usable series_num series_desc :
  let folder_name := series_folder_name series_num series_desc in
  folder_name <> EmptyString /\ folder_name <> "." /\ folder_name <> ".."
  /\ char_in "/" folder_name = false /\ char_in "\" folder_name = false.
Proof.
  intros folder_name. subst folder_name. unfold series_folder_name.
  set (name := (series_num ++ "_" ++ series_desc)%string).
  destruct (sanitized_is_safe name) as (Hi & Hl & Hf).
  assert (Hne : sanitize_folder_name name <> EmptyString).
  { assert (Hu : char_in "_" (strip_chars " ." (replace_each invalid_chars name))
                 = true).
    { apply rstrip_keeps_char, lstrip_keeps_char, char_in_underscore_replace_each;
        try done.
      unfold name. rewrite char_in_app, append_cons. cbn [char_in].
      by rewrite Ascii.eqb_refl, orb_true_r. }
    unfold sanitize_folder_name.
    destruct (strip_chars " ." (replace_each invalid_chars name)) as [|c r];
      [done|]. by destruct (200 <? _). }
  split; [done|].
  split; [intros E; by rewrite E in Hf|].
  split; [intros E; by rewrite E in Hf|].
  split; by apply Hi.
Qed.

(** ** Finding the files of a folder (lines 74-132) *)

Lemma find_sequential_filter d file_items :
  find_sequential d file_items
  = filter (fun p => is_dicom_file d p = true) file_items.
Proof.
  unfold find_sequential.
  enough (H : forall acc,
             fold_left
               (fun dicom_files file_path =>
                  if is_dicom_file d file_path then dicom_files ++ [file_path]
                  else dicom_files) file_items acc
             = acc ++ filter (fun p => is_dicom_file d p = true) file_items)
    by apply (H []).
  induction file_items as [|p rest IH]; intros acc.
  - by rewrite filter_nil, app_nil_r.
  - cbn [fold_left]. rewrite IH, filter_cons.
    destruct (is_dicom_file d p) eqn:E.
    + rewrite decide_True by done. by rewrite <- app_assoc.
    + rewrite decide_False by done. done.
Qed.

Lemma find_parallel_filter d file_paths :
  find_parallel d file_paths
  = Some (filter (fun p => is_dicom_file d p = true) file_paths).
Proof.
  unfold find_parallel, enumerate.
  enough (H : forall before l,
             mapM (fun '(i, _) => at_index (before ++ l) i)
               (filter (fun '(_, is_dicom) => is_dicom = true)
                  (imap (fun i x => (Z.of_nat (length before + i), x))
                     (map (is_dicom_file d) l)))
             = Some (filter (fun p => is_dicom_file d p = true) l))
    by apply (H [] file_paths).
  intros before l. revert before.
  induction l as [|p rest IH]; intros before; [done|].
  cbn [map imap]. rewrite !filter_cons.
  assert (Hrest :
    imap ((fun i x => (Z.of_nat (length before + i), x)) ∘ S)
         (map (is_dicom_file d) rest)
    = imap (fun i x => (Z.of_nat (length (before ++ [p]) + i), x))
         (map (is_dicom_file d) rest)).
  { apply imap_ext. intros i x _. cbn. rewrite length_app. cbn. f_equal. lia. }
  rewrite Hrest. specialize (IH (before ++ [p])).
  rewrite <- app_assoc in IH. cbn [app] in IH.
  destruct (is_dicom_file d p) eqn:E.
  - rewrite !decide_True by done. cbn [mapM]. 
    rewrite Nat.add_0_r.
    assert (Hp : at_index (before ++ p :: rest) (Z.of_nat (length before)) = Some p).
    { unfold at_index. rewrite Nat2Z.id. by apply list_lookup_middle. }
    rewrite Hp. cbn [mbind option_bind]. by rewrite IH.
  - rewrite !decide_False by done. apply IH.
Qed.

Lemma find_dicom_files_listed d directory use_parallel entries :
  iterdir d directory = Listed entries ->
  find_dicom_files d directory use_parallel
  = Some (filter (fun p => is_dicom_file d p = true)
            (map entry_path (filter (fun f => is_file f = true) entries))).
Proof.
  intros H. unfold find_dicom_files. rewrite H.
  set (file_items := map entry_path _).
  destruct (len file_items =? 0) eqn:E.
  - apply Z.eqb_eq in E. destruct file_items; [done|]. unfold len in E. cbn in E. lia.
  - destruct (use_parallel && _).
    + apply find_parallel_filter.
    + by rewrite find_sequential_filter.
Qed.

(** The files found in a folder are its files that [is_dicom_file] accepts,
    in the order of the listing, whichever way they are tested. *)
Theorem find_dicom_files_in_order d directory use_parallel entries :
  iterdir d directory = Listed entries ->
  find_dicom_files d directory use_parallel
  = Some (filter (fun p => is_dicom_file d p = true)
            (map entry_path (filter (fun f => is_file f = true) entries))).
Proof. apply find_dicom_files_listed. Qed.

Lemma find_dicom_files_in_order_witness :
  find_dicom_files small_disk "series" true = Some ["f0"; "f1"; "f2"].
Proof.
  rewrite (find_dicom_files_in_order small_disk "series" true
             [file_entry "f0"; file_entry "note"; file_entry "f1"; file_entry "f2"]
             eq_refl).
  by vm_compute.
Defined.

Lemma found_files_are_dicom d directory use_parallel dicom_files :
  find_dicom_files d directory use_parallel = Some dicom_files ->
  Forall (fun p => is_dicom_file d p = true) dicom_files.
Proof.
  intros Hfind. destruct (iterdir d directory) as [| |entries] eqn:Hl.
  - unfold find_dicom_files in Hfind. rewrite Hl in Hfind. by injection Hfind as <-.
  - unfold find_dicom_files in Hfind. by rewrite Hl in Hfind.
  - rewrite (find_dicom_files_listed d directory use_parallel entries Hl) in Hfind.
    injection Hfind as <-. apply Forall_forall. intros p Hp.
    by apply list_elem_of_filter in Hp as [? _].
Qed.

Lemma dicom_file_readable d p :
  is_dicom_file d p = true ->
  is_Some (get_dicom (dicom_of d) p)
  /\ exists size, getsize d !! p = Some size /\ 1024 <= size.
Proof.
  unfold is_dicom_file. intros Hp.
  destruct (getsize d !! p) as [size|]; [|done].
  destruct (size <? 1024) eqn:E; [done|]. apply Z.ltb_ge in E.
  destruct (get_dicom (dicom_of d) p); [|done]. split; [done|]. by exists size.
Qed.

Lemma gather_info_on_found
    float_of_text bval_file d directory use_parallel dicom_files folder_name :
  find_dicom_files d directory use_parallel = Some dicom_files ->
  dicom_files <> [] ->
  exists row,
    gather_info float_of_text (dicom_of d) bval_file dicom_files folder_name
    = Some [row].
Proof.
  intros Hfind Hne. apply found_files_are_dicom in Hfind.
  destruct dicom_files as [|first rest]; [done|].
  apply Forall_cons in Hfind as [Hfirst _].
  apply dicom_file_readable in Hfirst as [[ds Hds] _].
  eexists. by apply gather_info_emits.
Qed.



(** ** The cache of files read (lines 256-272) *)

Lemma times_in_app p l k : times_in p (l ++ k) = (times_in p l + times_in p k)%nat.
Proof. unfold times_in. by rewrite filter_app, length_app. Qed.

Lemma times_in_cons p q l :
  times_in p (q :: l) = ((if bool_decide (q = p) then 1 else 0) + times_in p l)%nat.
Proof.
  unfold times_in. rewrite filter_cons. case_bool_decide.
  - by rewrite decide_True.
  - by rewrite decide_False.
Qed.

Lemma times_in_absent p l : p ∉ l -> times_in p l = 0%nat.
Proof.
  induction l as [|q l IH]; [done|]. intros H. rewrite times_in_cons.
  apply not_elem_of_cons in H as [? ?]. rewrite bool_decide_eq_false_2 by done.
  by rewrite IH.
Qed.

(** What a run of calls does to a cache that holds files of the disk only. *)
Lemma cache_reads_spec fs file_paths c :
  cache_of c ⊆ fs ->
  let '(results, c') := cache_reads fs c file_paths in
  results = map (get_dicom fs) file_paths
  /\ cache_of c' ⊆ fs
  /\ (forall p, is_Some (cache_of c' !! p)
                <-> is_Some (cache_of c !! p) \/ (p ∈ file_paths /\ is_Some (fs !! p)))
  /\ forall p,
       times_read p c'
       = (times_read p c
          + match fs !! p with
            | Some _ =>
                if bool_decide (is_Some (cache_of c !! p)) then 0
                else if bool_decide (p ∈ file_paths) then 1 else 0
            | None => times_in p file_paths
            end)%nat.
Proof.
  revert c. induction file_paths as [|q rest IH]; intros c Hsub.
  - cbn [cache_reads]. split; [done|]. split; [done|]. split.
    + intros p. split; [by left|]. intros [?|[H _]]; [done|]. by apply elem_of_nil in H.
    + intros p. destruct (fs !! p); [|by rewrite Nat.add_0_r].
      case_bool_decide; [lia|]. rewrite bool_decide_eq_false_2; [lia|].
      apply not_elem_of_nil.
  - cbn [cache_reads].
    destruct (cache_get_dicom fs c q) as [r c1] eqn:E1.
    assert (Hstep : r = get_dicom fs q /\ cache_of c1 ⊆ fs
              /\ (forall p, is_Some (cache_of c1 !! p)
                    <-> is_Some (cache_of c !! p) \/ (p = q /\ is_Some (fs !! p)))
              /\ forall p, times_read p c1
                  = (times_read p c
                     + if bool_decide (p = q) && negb (bool_decide (is_Some (cache_of c !! q)))
                       then 1 else 0)%nat).
    { unfold cache_get_dicom in E1. unfold get_dicom.
      destruct (cache_of c !! q) as [ds|] eqn:Ec.
      - injection E1 as <- <-. split.
        { symmetry. eapply lookup_weaken; [exact Ec|exact Hsub]. }
        split; [done|]. split.
        + intros p. split; [by left|]. intros [?|[-> _]]; [done|]. by rewrite Ec.
        + intros p. rewrite (bool_decide_eq_true_2 (is_Some (Some ds))) by done.
          rewrite andb_false_r. lia.
      - destruct (fs !! q) as [ds|] eqn:Ef.
        + injection E1 as <- <-. cbn [cache_of dcmread_calls]. split.
          { by rewrite lookup_insert_eq. }
          split.
          { apply insert_subseteq_l; done. }
          split.
          * intros p. destruct (decide (p = q)) as [->|Hne].
            -- rewrite lookup_insert_eq, Ec, Ef.
               split; [intros _; right; done|done].
            -- rewrite lookup_insert_ne by done.
               split; [by left|]. by intros [?|[? _]].
          * intros p. unfold times_read. cbn [dcmread_calls].
            rewrite times_in_app, times_in_cons. f_equal.
            rewrite (bool_decide_eq_false_2 (is_Some None)) by (by intros [? ?]).
            cbn [negb]. rewrite andb_true_r.
            rewrite (bool_decide_ext (q = p) (p = q)) by done.
            unfold times_in. rewrite filter_nil. cbn. lia.
        + injection E1 as <- <-. cbn [cache_of dcmread_calls]. split; [done|].
          split; [done|]. split.
          * intros p. split; [by left|]. intros [?|[-> H]]; [done|].
            rewrite Ef in H. by destruct H.
          * intros p. unfold times_read. cbn [dcmread_calls].
            rewrite times_in_app, times_in_cons. f_equal.
            rewrite (bool_decide_eq_false_2 (is_Some None)) by (by intros [? ?]).
            cbn [negb]. rewrite andb_true_r.
            rewrite (bool_decide_ext (q = p) (p = q)) by done.
            unfold times_in. rewrite filter_nil. cbn. lia. }
    destruct Hstep as (Hr & Hsub1 & Hdom1 & Hcnt1).
    specialize (IH c1 Hsub1).
    destruct (cache_reads fs c1 rest) as [more c2].
    destruct IH as (Hm & Hsub2 & Hdom2 & Hcnt2).
    split; [cbn [map]; by rewrite Hr, Hm|]. split; [done|]. split.
    + intros p. rewrite Hdom2, Hdom1, elem_of_cons. tauto.
    + intros p. rewrite Hcnt2, Hcnt1.
      destruct (fs !! p) as [ds|] eqn:Ef.
      * destruct (decide (p = q)) as [->|Hne].
        -- rewrite (bool_decide_eq_true_2 (q = q)) by done. cbn [andb].
           rewrite (bool_decide_eq_true_2 (is_Some (cache_of c1 !! q)))
             by (apply Hdom1; right; by rewrite Ef).
           rewrite (bool_decide_eq_true_2 (q ∈ q :: rest)) by left.
           destruct (bool_decide (is_Some (cache_of c !! q))); cbn; lia.
        -- rewrite (bool_decide_eq_false_2 (p = q)) by done. cbn [andb].
           rewrite (bool_decide_ext (is_Some (cache_of c1 !! p))
                      (is_Some (cache_of c !! p)))
             by (rewrite Hdom1; split; [by intros [?|[? _]]|by left]).
           rewrite (bool_decide_ext (p ∈ q :: rest) (p ∈ rest))
             by (rewrite elem_of_cons; split; [by intros [?|?]|by right]).
           lia.
      * rewrite times_in_cons. rewrite (bool_decide_ext (q = p) (p = q)) by done.
        destruct (decide (p = q)) as [->|Hne].
        -- rewrite (bool_decide_eq_true_2 (q = q)) by done. cbn [andb].
           rewrite (bool_decide_eq_false_2 (is_Some (cache_of c !! q))).
           ++ cbn. lia.
           ++ intros [ds Hds]. pose proof (lookup_weaken _ _ _ _ Hds Hsub). congruence.
        -- rewrite (bool_decide_eq_false_2 (p = q)) by done. cbn. lia.
Qed.

(** Through a fresh cache every call of [get_dicom] returns what reading the
    file would return; a file that can be read is read once however often it
    is asked for, and one that cannot is read again at every call. *)
Theorem cache_reads_each_file_once fs file_paths :
  fst (cache_reads fs new_cache file_paths) = map (get_dicom fs) file_paths
  /\ forall p,
       times_read p (snd (cache_reads fs new_cache file_paths))
       = match fs !! p with
         | Some _ => if bool_decide (p ∈ file_paths) then 1%nat else 0%nat
         | None => times_in p file_paths
         end.
Proof.
  pose proof (cache_reads_spec fs file_paths new_cache) as H.
  destruct (cache_reads fs new_cache file_paths) as [results c].
  destruct H as (Hr & _ & _ & Hcnt); [apply map_empty_subseteq|].
  split; [done|]. intros p. rewrite Hcnt. cbn.
  destruct (fs !! p); [|done].
  rewrite bool_decide_eq_false_2; [done|].
  cbn. rewrite lookup_empty. by intros [? ?].
Qed.

(** ** One table per folder (lines 1048-1092) *)

Lemma find_dicom_files_raises d directory use_parallel :
  find_dicom_files d directory use_parallel = None <-> iterdir d directory = Denied.
Proof.
  destruct (iterdir d directory) as [| |entries] eqn:Hl.
  - unfold find_dicom_files. rewrite Hl. done.
  - unfold find_dicom_files. rewrite Hl. done.
  - rewrite (find_dicom_files_listed d directory use_parallel entries Hl). done.
Qed.

Section FolderProperties.

Variable float_of_text : string -> option Q.
Variable bval_beside : string -> option string.
Variable d : Disk.

Local Abbreviation tables_after := (tables_saved float_of_text bval_beside d).

Lemma process_single_folder_cases folder csvs :
  process_single_folder float_of_text bval_beside d folder csvs
  = if bool_decide (denied d folder) then (csvs, (entry_name folder, false, true))
    else if bool_decide (dicom_files_in d folder <> []) then
      (tables_after [folder] csvs, (entry_name folder, true, false))
    else (csvs, (entry_name folder, false, false)).
Proof.
  unfold process_single_folder, dicom_files_in, denied.
  destruct (find_dicom_files d (entry_path folder) false) as [files|] eqn:E.
  - rewrite bool_decide_eq_false_2
      by (rewrite <- (find_dicom_files_raises d _ false); congruence).
    cbn [default]. destruct files as [|p rest].
    + rewrite bool_decide_eq_false_2 by (by intros H). reflexivity.
    + rewrite bool_decide_eq_true_2 by done. unfold tables_after. cbn [fold_left].
      unfold dicom_files_in. rewrite E. reflexivity.
  - by rewrite bool_decide_eq_true_2 by (by apply (find_dicom_files_raises d _ false)).
Qed.

Lemma not_denied_with_files folder :
  dicom_files_in d folder <> [] -> ~ denied d folder.
Proof.
  unfold dicom_files_in, denied. intros H Hd.
  apply (find_dicom_files_raises d _ false) in Hd. rewrite Hd in H. by apply H.
Qed.

Lemma process_parallel_spec folders csvs :
  process_parallel float_of_text bval_beside d folders csvs
  = (tables_after (with_dicom_files d folders) csvs,
     len (with_dicom_files d folders)).
Proof.
  unfold process_parallel.
  set (step := fun '(csvs, results) folder =>
                 let '(csvs, result) :=
                   process_single_folder float_of_text bval_beside d folder csvs in
                 (csvs, results ++ [result])).
  set (tally := fun (csv_count : Z) '(_, success, error) =>
                  if error : bool then csv_count
                  else if success : bool then csv_count + 1 else csv_count).
  enough (H : forall csvs results,
             exists more,
               fold_left step folders (csvs, results)
               = (tables_after (with_dicom_files d folders) csvs, results ++ more)
               /\ forall n, fold_left tally more n
                            = n + len (with_dicom_files d folders)).
  { destruct (H csvs []) as (more & -> & Hn). cbn [app]. by rewrite Hn. }
  induction folders as [|f rest IH]; intros c results.
  - exists []. split; [by rewrite app_nil_r|]. intros n. cbn. unfold len. cbn. lia.
  - cbn [fold_left]. unfold step at 2. rewrite process_single_folder_cases.
    unfold with_dicom_files. rewrite filter_cons. fold (with_dicom_files d rest).
    destruct (decide (dicom_files_in d f <> [])) as [Hf|Hf].
    + rewrite bool_decide_eq_false_2 by (by apply not_denied_with_files).
      rewrite bool_decide_eq_true_2 by done.
      destruct (IH (tables_after [f] c) (results ++ [(entry_name f, true, false)]))
        as (more & -> & Hn).
      exists ((entry_name f, true, false) :: more). split.
      * by rewrite <- app_assoc.
      * intros n. cbn [fold_left tally]. rewrite Hn. unfold len. cbn [length].
        lia.
    + rewrite (bool_decide_eq_false_2 (dicom_files_in d f <> [])) by done.
      destruct (bool_decide (denied d f)).
      * destruct (IH c (results ++ [(entry_name f, false, true)]))
          as (more & -> & Hn).
        exists ((entry_name f, false, true) :: more). split.
        -- by rewrite <- app_assoc.
        -- intros n. cbn [fold_left tally]. by rewrite Hn.
      * destruct (IH c (results ++ [(entry_name f, false, false)]))
          as (more & -> & Hn).
        exists ((entry_name f, false, false) :: more). split.
        -- by rewrite <- app_assoc.
        -- intros n. cbn [fold_left tally]. by rewrite Hn.
Qed.

Lemma process_sequential_step f rest csvs csv_count :
  ~ denied d f ->
  process_sequential float_of_text bval_beside d (f :: rest) csvs csv_count
  = if bool_decide (dicom_files_in d f <> []) then
      process_sequential float_of_text bval_beside d rest
        (tables_after [f] csvs) (csv_count + 1)
    else process_sequential float_of_text bval_beside d rest csvs csv_count.
Proof.
  intros Hf. unfold tables_after. cbn [fold_left process_sequential].
  unfold dicom_files_in.
  destruct (find_dicom_files d (entry_path f) false) as [files|] eqn:E.
  - cbn [default]. destruct files as [|p more].
    + by rewrite bool_decide_eq_false_2 by (by intros H).
    + by rewrite bool_decide_eq_true_2 by done.
  - exfalso. apply Hf. by apply (find_dicom_files_raises d _ false).
Qed.

Lemma process_sequential_spec folders csvs csv_count :
  Forall (fun f => ~ denied d f) folders ->
  process_sequential float_of_text bval_beside d folders csvs csv_count
  = (tables_after (with_dicom_files d folders) csvs,
     Some (csv_count + len (with_dicom_files d folders))).
Proof.
  revert csvs csv_count. induction folders as [|f rest IH]; intros c n Hall.
  - cbn. unfold len. cbn. by rewrite Z.add_0_r.
  - apply Forall_cons in Hall as [Hf Hrest].
    rewrite process_sequential_step by done.
    unfold with_dicom_files. rewrite filter_cons. fold (with_dicom_files d rest).
    destruct (decide (dicom_files_in d f <> [])) as [Hd|Hd].
    + rewrite bool_decide_eq_true_2 by done. rewrite IH by done.
      f_equal. f_equal. unfold len. cbn [length]. lia.
    + rewrite bool_decide_eq_false_2 by done. by apply IH.
Qed.

Lemma process_sequential_raises folders csvs csv_count :
  (process_sequential float_of_text bval_beside d folders csvs csv_count).2 = None
  <-> Exists (denied d) folders.
Proof.
  revert csvs csv_count. induction folders as [|f rest IH]; intros c n.
  - cbn. split; [done|]. by intros H%Exists_nil.
  - cbn [process_sequential]. rewrite Exists_cons.
    destruct (find_dicom_files d (entry_path f) false) as [files|] eqn:E.
    + assert (Hf : ~ denied d f).
      { unfold denied. rewrite <- (find_dicom_files_raises d _ false). congruence. }
      destruct (negb (len files =? 0)); rewrite IH; tauto.
    + cbn. split; [|done]. intros _. left.
      by apply (find_dicom_files_raises d _ false).
Qed.

Lemma saved_table f csvs :
  dicom_files_in d f <> [] ->
  exists row, tables_after [f] csvs = <[entry_name f := [row]]> csvs.
Proof.
  intros Hf. unfold tables_saved. cbn [fold_left].
  unfold gather_info_saved.
  assert (Hfind : find_dicom_files d (entry_path f) false
                  = Some (dicom_files_in d f)).
  { unfold dicom_files_in in *.
    by destruct (find_dicom_files d (entry_path f) false). }
  destruct (gather_info_on_found float_of_text
              (head (dicom_files_in d f) ≫= bval_beside) d _ _ _
              (entry_name f) Hfind Hf) as [row ->].
  by exists row.
Qed.

Lemma tables_saved_cons f rest csvs :
  tables_after (f :: rest) csvs = tables_after rest (tables_after [f] csvs).
Proof. reflexivity. Qed.

Lemma tables_saved_lookup folders csvs name :
  Forall (fun f => dicom_files_in d f <> []) folders ->
  (name ∉ map entry_name folders ->
   tables_after folders csvs !! name = csvs !! name)
  /\ (name ∈ map entry_name folders ->
      exists row, tables_after folders csvs !! name = Some [row]).
Proof.
  revert csvs. induction folders as [|f rest IH]; intros csvs Hall.
  - split; [done|]. by intros H%elem_of_nil.
  - apply Forall_cons in Hall as [Hf Hrest]. rewrite tables_saved_cons.
    destruct (saved_table f csvs Hf) as [row ->].
    destruct (IH (<[entry_name f := [row]]> csvs) Hrest) as [IHout IHin].
    cbn [map]. split.
    + intros [Hne Hn]%not_elem_of_cons. rewrite IHout by done.
      by rewrite lookup_insert_ne.
    + intros Hin. destruct (decide (name ∈ map entry_name rest)) as [Hr|Hr].
      * by apply IHin.
      * apply elem_of_cons in Hin as [->|?]; [|done].
        rewrite IHout by done. exists row. by rewrite lookup_insert_eq.
Qed.

Lemma tables_saved_size folders csvs :
  Forall (fun f => dicom_files_in d f <> []) folders ->
  NoDup (map entry_name folders) ->
  (forall name, name ∈ map entry_name folders -> csvs !! name = None) ->
  size (tables_after folders csvs) = (size csvs + length folders)%nat.
Proof.
  revert csvs. induction folders as [|f rest IH]; intros csvs Hall Hnd Hnew.
  - cbn. lia.
  - apply Forall_cons in Hall as [Hf Hrest]. cbn [map] in Hnd, Hnew.
    apply NoDup_cons in Hnd as [Hnotin Hnd]. rewrite tables_saved_cons.
    destruct (saved_table f csvs Hf) as [row ->].
    rewrite IH; try done.
    + rewrite map_size_insert_None; [cbn [length]; lia|]. apply Hnew. by left.
    + intros name Hin. rewrite lookup_insert_ne.
      * apply Hnew. by right.
      * intros <-. done.
Qed.

(** When [process_dicom_folders] prints a count, the tables are those of the
    folders with files and the count is the number of these folders. *)
Lemma counted_tables base_path use_parallel entries csvs csvs' csv_count :
  iterdir d base_path = Listed entries ->
  process_dicom_folders float_of_text bval_beside d base_path use_parallel csvs
  = (csvs', Counted csv_count) ->
  csvs' = tables_after (with_dicom_files d (folders_of entries)) csvs
  /\ csv_count = len (with_dicom_files d (folders_of entries)).
Proof.
  intros Hl. unfold process_dicom_folders. rewrite Hl.
  fold (folders_of entries).
  destruct (len (folders_of entries) =? 0); [done|].
  destruct (use_parallel && _).
  - rewrite process_parallel_spec. by intros [= <- <-].
  - destruct (process_sequential float_of_text bval_beside d (folders_of entries)
                csvs 0) as [c [n|]] eqn:E; [|done].
    intros [= <- <-].
    assert (Hnone : ~ Exists (denied d) (folders_of entries)).
    { rewrite <- (process_sequential_raises (folders_of entries) csvs 0), E. done. }
    rewrite process_sequential_spec in E.
    + by injection E as <- <-.
    + apply Forall_forall. intros f Hf Hd. apply Hnone, Exists_exists. eauto.
Qed.

End FolderProperties.





(** [process_dicom_folders] ends with an exception exactly when the base
    directory cannot be listed, or when the folders are processed one after
    the other and one of them may not be listed; the pool never lets the
    exception of a folder through. *)
Theorem process_dicom_folders_raises
    float_of_text bval_beside d base_path use_parallel csvs :
  (process_dicom_folders float_of_text bval_beside d base_path use_parallel csvs).2
  = Raised
  <-> match iterdir d base_path with
      | Listed entries =>
          use_parallel && (5 <? len (folders_of entries)) = false
          /\ Exists (denied d) (folders_of entries)
      | _ => True
      end.
Proof.
  unfold process_dicom_folders.
  destruct (iterdir d base_path) as [| |entries]; [done|done|].
  fold (folders_of entries).
  destruct (len (folders_of entries) =? 0) eqn:E0.
  - cbn. split; [done|]. intros [_ H]. apply Z.eqb_eq in E0.
    destruct (folders_of entries); [by apply Exists_nil in H|].
    unfold len in E0. cbn in E0. lia.
  - destruct (use_parallel && _).
    + rewrite process_parallel_spec. cbn. split; [done|]. by intros [? _].
    + pose proof (process_sequential_raises float_of_text bval_beside d
                    (folders_of entries) csvs 0) as H.
      destruct (process_sequential _ _ _ _ _ _) as [c [n|]]; cbn in *.
      * split; [done|]. intros [_ Hd]. apply H in Hd. done.
      * split; [|done]. intros _. split; [done|]. by apply H.
Qed.

(** ** Files already in folders (lines 153-199) *)

Lemma organized_folders_found d dir_items found :
  organized_folders d dir_items = Some found ->
  forall item, item ∈ found ->
    item ∈ dir_items
    /\ exists entries,
         iterdir d (entry_path item) = Listed entries
         /\ existsb (fun f => is_dicom_file d (entry_path f))
              (firstn 5 (filter (fun f => is_file f = true) entries)) = true.
Proof.
  revert found. induction dir_items as [|first rest IH]; intros found.
  - cbn. intros [= <-] item H. by apply elem_of_nil in H.
  - cbn [organized_folders].
    destruct (iterdir d (entry_path first)) as [| |entries] eqn:El; [done| |].
    + intros H item Hin. destruct (IH found H item Hin) as [? ?].
      split; [by right|done].
    + destruct (organized_folders d rest) as [more|]; [|done].
      cbn [mbind option_bind].
      destruct (existsb _ _) eqn:Ex; intros [= <-] item Hin.
      * apply elem_of_cons in Hin as [->|Hin].
        -- split; [by left|]. by exists entries.
        -- destruct (IH more eq_refl item Hin) as [? ?]. split; [by right|done].
      * destruct (IH more eq_refl item Hin) as [? ?]. split; [by right|done].
Qed.

Lemma sampled_folder_has_files d folder entries :
  iterdir d (entry_path folder) = Listed entries ->
  existsb (fun f => is_dicom_file d (entry_path f))
    (firstn 5 (filter (fun f => is_file f = true) entries)) = true ->
  dicom_files_in d folder <> [].
Proof.
  intros Hl Hex. unfold dicom_files_in.
  rewrite (find_dicom_files_listed d _ false entries Hl).
  cbn [default from_option id].
  apply existsb_exists in Hex as (f & Hf & Hd).
  apply list_elem_of_In in Hf. apply elem_of_take in Hf as (i & Hf & _).
  apply list_elem_of_lookup_2 in Hf.
  intros Hnil.
  assert (Hin : entry_path f
                ∈ filter (fun p => is_dicom_file d p = true)
                    (map entry_path (filter (fun f => is_file f = true) entries))).
  { apply list_elem_of_filter. split; [done|]. apply list_elem_of_fmap. eauto. }
  rewrite Hnil in Hin. by apply elem_of_nil in Hin.
Qed.

(** When the files are taken to be in folders already, none of the first ten
    files of the base directory is a DICOM file, one of its folders holds
    files that [find_dicom_files] finds, and so the step that writes the
    tables has a table to write. *)
Theorem organized_folders_are_processed d base_path entries :
  iterdir d base_path = Listed entries ->
  Forall (fun f => entry_name f ∉ ["."; ".."]) entries ->
  check_if_files_organized d base_path = Some true ->
  Forall (fun f => is_dicom_file d (entry_path f) = false)
         (firstn 10 (filter (fun f => is_file f = true) entries))
  /\ (exists folder, folder ∈ folders_of entries /\ dicom_files_in d folder <> [])
  /\ forall float_of_text bval_beside use_parallel csvs csvs' csv_count,
       process_dicom_folders float_of_text bval_beside d base_path use_parallel csvs
       = (csvs', Counted csv_count) ->
       1 <= csv_count.
Proof.
  intros Hl Hnames. unfold check_if_files_organized. rewrite Hl.
  destruct (len entries =? 0); [done|].
  destruct (organized_folders d (filter (fun f => is_dir f = true) entries))
    as [found|] eqn:Ef; [|done].
  cbn [mbind option_bind].
  set (in_root := filter (fun f => is_dicom_file d (entry_path f) = true)
                    (firstn 10 (filter (fun f => is_file f = true) entries))).
  destruct (len in_root =? 0) eqn:Er; [|done]. cbn [negb].
  destruct (len found =? 0) eqn:Efound; [done|]. intros _.
  assert (Hroot : Forall (fun f => is_dicom_file d (entry_path f) = false)
            (firstn 10 (filter (fun f => is_file f = true) entries))).
  { apply Forall_forall. intros f Hf.
    destruct (is_dicom_file d (entry_path f)) eqn:Ed; [|done].
    assert (Hin : f ∈ in_root) by (by apply list_elem_of_filter).
    apply Z.eqb_eq in Er. destruct in_root; [by apply elem_of_nil in Hin|].
    unfold len in Er. cbn in Er. lia. }
  assert (Hfolder : exists folder,
             folder ∈ folders_of entries /\ dicom_files_in d folder <> []).
  { destruct found as [|folder more]; [done|].
    destruct (organized_folders_found d _ _ Ef folder) as (Hin & es & Hes & Hex);
      [by left|].
    apply list_elem_of_filter in Hin as [Hdir Hin].
    exists folder. split.
    - apply list_elem_of_filter. split; [|done]. split; [done|].
      rewrite Forall_forall in Hnames. by apply Hnames.
    - by eapply sampled_folder_has_files. }
  split; [done|]. split; [done|].
  intros float_of_text bval_beside use_parallel csvs csvs' csv_count Hrun.
  destruct (counted_tables _ _ _ _ _ _ _ _ _ Hl Hrun) as [_ ->].
  destruct Hfolder as (folder & Hin & Hd).
  assert (Hw : folder ∈ with_dicom_files d (folders_of entries))
    by (by apply list_elem_of_filter).
  destruct (with_dicom_files d (folders_of entries)); [by apply elem_of_nil in Hw|].
  unfold len. cbn [length]. lia.
Qed.

Lemma organized_folders_are_processed_witness :
  exists folder,
    folder ∈ folders_of [dir_entry "series"]
    /\ dicom_files_in small_disk folder <> [].
Proof.
  apply (organized_folders_are_processed small_disk "base" [dir_entry "series"]
           eq_refl).
  - apply (bool_decide_unpack _). by vm_compute.
  - by vm_compute.
Defined.
